(** * The image-capture pipeline of huely (src/webcam.ts, src/index.ts)

    A shallow embedding of [WebcamManager] (device listing, one capture
    attempt, the black-frame guard, the age-based sweep) and of the retry
    loop of [HuelyCLI.captureAndAnalyze], followed by the properties of
    the capture pipeline.  The remaining methods of [WebcamManager], the
    prompts and keys of [CLIUI] (src/cli-ui.ts), [OpenAIClient.analyzeImage]
    (src/openai-client.ts), [ConfigManager] (src/config.ts) and the methods
    of [HuelyCLI] that tie them together come after it, with their
    properties at the end of the file.

    Conventions.
    - Times are whole milliseconds in [Z] ([Date.now()], [stats.mtimeMs]).
    - Numbers that the source divides and compares ([isImageBlack]) are
      binary64 doubles, computed with the primitive floats.
    - JavaScript strings are modelled by [string]; the templates of the
      source are spelled out with [+:+].
    - The file system is a finite map from full paths to nodes; every
      [fs.*Sync] call the source makes is a function on that map, and a
      call that throws in Node returns [None].
    - What the outside world decides during one capture attempt (clock
      readings, the random suffix, what the capture program reports and
      writes, what Jimp produces) is gathered in a record, so that
      [captureImage] is a function.  The callbacks of node-webcam are
      taken to be called once, and its errors to carry a message.
    - [path.join] of a directory and a plain name is the two joined by
      the platform's separator; a directory listing comes in the order of
      the map's keys.
    - Paths are normalised absolute paths, as [path.join] yields them from
      [os.tmpdir()] and [os.homedir()].  The ancestors of a path are its
      prefixes that end just before a separator; the root and, on Windows,
      a drive are always there and are no nodes of the map.
      [mkdirSync(dir, { recursive: true })] creates the directory and each
      missing ancestor, and throws when the path or an ancestor is a
      regular file.
    - The file system has no permissions, quotas or devices: a call fails
      only because of the kind of node it meets. *)

From Stdlib Require Import ZArith Floats Uint63 Ascii String Strings.Byte.
From stdpp Require Import gmap strings list pretty.

Local Open Scope string_scope.
Local Open Scope list_scope.
Local Open Scope Z_scope.

(** ** JavaScript primitives used by the source *)

Module JS.

(** [s.startsWith(p)] *)
Definition startsWith (p s : string) : bool := String.prefix p s.

(** [s.includes(needle)] *)
Fixpoint includes (needle s : string) : bool :=
  String.prefix needle s ||
  match s with
  | EmptyString => false
  | String _ s' => includes needle s'
  end.

(** ASCII lower-casing, for the [i] flag of the extension pattern. *)
Definition lowerAscii (c : ascii) : ascii :=
  let n := N_of_ascii c in
  if ((65 <=? n) && (n <=? 90))%N then ascii_of_N (n + 32) else c.

Fixpoint lower (s : string) : string :=
  match s with
  | EmptyString => EmptyString
  | String c s' => String (lowerAscii c) (lower s')
  end.

(** The alternatives of [/\.(jpg|jpeg|bmp|ppm|png)$/i]. *)
Definition imageSuffixes : list string :=
  [".jpg"; ".jpeg"; ".bmp"; ".ppm"; ".png"].

Definition isImageSuffix (s : string) : bool :=
  bool_decide (lower s ∈ imageSuffixes).

(** [s.replace(/\.(jpg|jpeg|bmp|ppm|png)$/i, '')]: the leftmost position
    whose whole remainder is one of the suffixes is cut off. *)
Fixpoint stripImageSuffix (s : string) : string :=
  if isImageSuffix s then EmptyString
  else match s with
       | EmptyString => EmptyString
       | String c s' => String c (stripImageSuffix s')
       end.

(** [`${n}`] and [n.toString()] for an integer [n]. *)
Definition numToString (n : Z) : string := pretty n.

(** [l.join(sep)] *)
Fixpoint join (sep : string) (l : list string) : string :=
  match l with
  | [] => ""
  | [x] => x
  | x :: rest => x +:+ sep +:+ join sep rest
  end.

(** [parseInt(s)] with no radix: leading white space, an optional sign,
    an optional [0x] prefix, then the longest run of digits; [None] is
    [NaN].  (Exact integers: the source only adds 1 to the result.) *)
Definition isSpace (c : ascii) : bool :=
  let n := N_of_ascii c in
  ((n =? 32) || ((9 <=? n) && (n <=? 13)))%N.

Fixpoint skipSpaces (s : string) : string :=
  match s with
  | String c s' => if isSpace c then skipSpaces s' else s
  | EmptyString => EmptyString
  end.

Definition digitValue (radix : N) (c : ascii) : option N :=
  let n := N_of_ascii c in
  let v := if ((48 <=? n) && (n <=? 57))%N then Some (n - 48)%N
           else if ((97 <=? n) && (n <=? 122))%N then Some (n - 87)%N
           else if ((65 <=? n) && (n <=? 90))%N then Some (n - 55)%N
           else None in
  match v with
  | Some d => if (d <? radix)%N then Some d else None
  | None => None
  end.

Fixpoint digitsFrom (radix : N) (s : string) (acc : option N) : option N :=
  match s with
  | String c s' =>
      match digitValue radix c with
      | Some d => digitsFrom radix s' (Some (default 0%N acc * radix + d)%N)
      | None => acc
      end
  | EmptyString => acc
  end.

Definition parseUnsigned (s : string) : option N :=
  match s with
  | String "0" (String "x" s') | String "0" (String "X" s') =>
      digitsFrom 16 s' None
  | _ => digitsFrom 10 s None
  end.

Definition parseInt (s : string) : option Z :=
  match skipSpaces s with
  | String "-" s' => (fun n => - Z.of_N n) <$> parseUnsigned s'
  | String "+" s' => Z.of_N <$> parseUnsigned s'
  | s' => Z.of_N <$> parseUnsigned s'
  end.

(** [`${parseInt(s) + 1}`] *)
Definition succToString (n : option Z) : string :=
  match n with
  | Some z => numToString (z + 1)
  | None => "NaN"
  end.

(** A small non-negative or negative integer as a double. *)
Definition toFloat (z : Z) : float :=
  if z <? 0 then PrimFloat.opp (PrimFloat.of_uint63 (Uint63.of_Z (- z)))
  else PrimFloat.of_uint63 (Uint63.of_Z z).

(** The double written [0.9] in the source: the binary64 value nearest
    to nine tenths. *)
Definition zeroPointNine : float := 0x1.ccccccccccccdp-1%float.

(** [(a / b) > 0.9] on doubles; [0 / 0] is NaN and compares false. *)
Definition ratioExceeds09 (a b : Z) : bool :=
  PrimFloat.ltb zeroPointNine (PrimFloat.div (toFloat a) (toFloat b)).

End JS.

(** ** The file system *)

Inductive Platform := win32 | linux | darwin | otherPlatform.

Module Fs.

(** A node is a regular file (modification time, bytes) or a directory. *)
Inductive node :=
| File (mtimeMs : Z) (bytes : list byte)
| Dir (mtimeMs : Z).

Abbreviation t := (gmap string node).

Definition mtimeOf (n : node) : Z :=
  match n with File m _ => m | Dir m => m end.

Definition sep (p : Platform) : string :=
  match p with win32 => "\" | _ => "/" end.

(** [path.join(dir, name)] for a directory path and a plain name. *)
Definition pathJoin (p : Platform) (dir name : string) : string :=
  dir +:+ sep p +:+ name.

Definition existsSync (fs : t) (path : string) : bool :=
  bool_decide (is_Some (fs !! path)).

(** [fs.statSync(path).mtimeMs]; [None] when the call throws. *)
Definition statSync (fs : t) (path : string) : option Z :=
  mtimeOf <$> fs !! path.

Definition readFileSync (fs : t) (path : string) : option (list byte) :=
  match fs !! path with
  | Some (File _ bytes) => Some bytes
  | _ => None
  end.

(** [fs.unlinkSync] removes a regular file and throws on anything else. *)
Definition unlinkSync (fs : t) (path : string) : option t :=
  match fs !! path with
  | Some (File _ _) => Some (delete path fs)
  | _ => None
  end.

(** [fs.renameSync] of a regular file; an existing file at the target is
    replaced, a directory there makes the call throw. *)
Definition renameSync (fs : t) (src dst : string) : option t :=
  match fs !! src with
  | Some (File m bytes) =>
      match fs !! dst with
      | Some (Dir _) => None
      | _ => Some (<[dst := File m bytes]> (delete src fs))
      end
  | _ => None
  end.

(** Creating or overwriting a regular file. *)
Definition writeFileSync (fs : t) (path : string) (now : Z)
    (bytes : list byte) : option t :=
  match fs !! path with
  | Some (Dir _) => None
  | _ => Some (<[path := File now bytes]> fs)
  end.

(** A separator of the platform: Windows takes both. *)
Definition isSep (p : Platform) (c : ascii) : bool :=
  match p with
  | win32 => bool_decide (c = "\"%char) || bool_decide (c = "/"%char)
  | _ => bool_decide (c = "/"%char)
  end.

Fixpoint endsWithSep (p : Platform) (s : string) : bool :=
  match s with
  | EmptyString => false
  | String c EmptyString => isSep p c
  | String _ s' => endsWithSep p s'
  end.

(** The empty prefix of an absolute path and a Windows drive. *)
Definition isRoot (p : Platform) (s : string) : bool :=
  match s with
  | EmptyString => true
  | String _ (String ":" EmptyString) =>
      match p with win32 => true | _ => false end
  | _ => false
  end.

(** The prefixes of [pre +:+ rest] that end just before a separator of
    [rest], shortest first; roots and prefixes that end in a separator
    themselves are no nodes. *)
Fixpoint prefixesBefore (p : Platform) (pre rest : string) : list string :=
  match rest with
  | EmptyString => []
  | String c rest' =>
      (if isSep p c && negb (isRoot p pre) && negb (endsWithSep p pre)
       then [pre] else [])
      ++ prefixesBefore p (pre +:+ String c EmptyString) rest'
  end.

Definition ancestors (p : Platform) (path : string) : list string :=
  prefixesBefore p "" path.

Definition isFile (fs : t) (path : string) : bool :=
  match fs !! path with
  | Some (File _ _) => true
  | _ => false
  end.

(** One step of a recursive [mkdir]: a missing node becomes a directory. *)
Definition mkdirOne (now : Z) (fs : t) (path : string) : t :=
  match fs !! path with
  | None => <[path := Dir now]> fs
  | Some _ => fs
  end.

(** [fs.mkdirSync(path, { recursive: true })]: the missing ancestors and
    the directory are created; [None] when the call throws, which it does
    when an ancestor (ENOTDIR) or the path itself (EEXIST) is a regular
    file. *)
Definition mkdirSync (p : Platform) (fs : t) (path : string) (now : Z)
    : option t :=
  if existsb (isFile fs) (ancestors p path ++ [path]) then None
  else Some (foldl (mkdirOne now) fs (ancestors p path ++ [path])).

(** The message of the system error a throwing call raises at [path]. *)
Definition whyThrown (syscall : string) (fs : t) (path : string) : string :=
  match fs !! path with
  | None => "ENOENT: no such file or directory, "
  | Some (Dir _) => "EISDIR: illegal operation on a directory, "
  | Some (File _ _) => "ENOTDIR: not a directory, "
  end +:+ syscall +:+ " '" +:+ path +:+ "'".

(** The remainder of [s] after the prefix [p]. *)
Fixpoint stripPrefix (p s : string) : option string :=
  match p, s with
  | EmptyString, _ => Some s
  | String a p', String b s' =>
      if bool_decide (a = b) then stripPrefix p' s' else None
  | String _ _, EmptyString => None
  end.

Definition plainName (p : Platform) (name : string) : bool :=
  negb (bool_decide (name = "")) && negb (JS.includes (sep p) name).

(** The name under which [path] is a direct entry of [dir], if it is. *)
Definition entryName (p : Platform) (dir path : string) : option string :=
  match stripPrefix (dir +:+ sep p) path with
  | Some name => if plainName p name then Some name else None
  | None => None
  end.

(** [fs.readdirSync(dir)]: the names of the direct entries; throws when
    [dir] is not a directory. *)
Definition readdirSync (p : Platform) (fs : t) (dir : string)
    : option (list string) :=
  match fs !! dir with
  | Some (Dir _) => Some (omap (entryName p dir) (elements (dom fs)))
  | _ => None
  end.

End Fs.

(** ** WebcamManager (src/webcam.ts) *)

Record WebcamDevice := { name : string; id : string }.

(** The fields of a [WebcamManager] that the pipeline reads, with the
    platform the process runs on. *)
Record Manager := { platform : Platform; capturesDir : string }.

(** What the capture program did for one call of [webcam.capture]: the
    [err] and [data] it hands to the callback and the files it wrote. *)
Record Written := { w_path : string; w_mtimeMs : Z; w_bytes : list byte }.

Record CaptureOutcome := {
  cb_err : option string;
  cb_data : string;
  cb_written : list Written
}.

(** Everything the outside world decides during one [captureImage] call. *)
Record AttemptEnv := {
  timestamp : Z;                         (* Date.now() on entry *)
  randomId : string;                     (* Math.random().toString(36).substring(2, 8) *)
  sweepNow : Z;                          (* Date.now() in clearOldCaptures *)
  mkdirNow : Z;                          (* clock when the directory is recreated *)
  capture : string -> CaptureOutcome;    (* webcam.capture(tempFilepath, ...) *)
  checkNow : Z;                          (* Date.now() at the freshness check *)
  jimp : list byte -> string + list byte;(* Jimp.read then encode: error or JPEG bytes *)
  jimpWriteNow : Z                       (* clock when Jimp writes the file *)
}.

(** How the promise returned by [captureImage] ends. *)
Inductive Settled :=
| Resolved (path : string)
| Rejected (message : string)
| Pending.

Module Webcam.

Definition bufferAt (buffer : list byte) (i : Z) : option byte :=
  if i <? 0 then None else buffer !! Z.to_nat i.

(** [buffer[i] < 20]; an [undefined] element compares false. *)
Definition veryDark (v : option byte) : bool :=
  match v with
  | Some b => (Byte.to_N b <? 20)%N
  | None => false
  end.

(** The values [i] takes in [for (let i = lo; i < hi; i++)]. *)
Definition forRange (lo hi : Z) : list Z := seqZ lo (hi - lo).

Definition sampleSizeOf (buffer : list byte) : Z :=
  Z.min 1000 (Z.of_nat (length buffer) - 100).

Definition countBlack (buffer : list byte) (sampleSize : Z) : Z :=
  foldl (fun blackPixels i =>
           if veryDark (bufferAt buffer i) then blackPixels + 1
           else blackPixels)
        0 (forRange 100 (100 + sampleSize)).

Definition isImageBlack (buffer : list byte) : bool :=
  let sampleSize := sampleSizeOf buffer in
  let blackPixels := countBlack buffer sampleSize in
  JS.ratioExceeds09 blackPixels sampleSize.

Definition thirtySeconds : Z := 30 * 1000.

(** The body of [files.forEach] in [clearOldCaptures]; whatever throws
    inside the [try] leaves the file system as it is. *)
Definition sweepFile (m : Manager) (now : Z) (fs : Fs.t) (file : string)
    : Fs.t :=
  if JS.startsWith "capture_" file then
    let filePath := Fs.pathJoin (platform m) (capturesDir m) file in
    match Fs.statSync fs filePath with
    | Some mtimeMs =>
        if now - mtimeMs >? thirtySeconds then
          match Fs.unlinkSync fs filePath with
          | Some fs' => fs'
          | None => fs
          end
        else fs
    | None => fs
    end
  else fs.

(** [clearOldCaptures]; [None] when [readdirSync] throws. *)
Definition clearOldCaptures (m : Manager) (now : Z) (fs : Fs.t)
    : option Fs.t :=
  if negb (Fs.existsSync fs (capturesDir m)) then Some fs
  else
    match Fs.readdirSync (platform m) fs (capturesDir m) with
    | Some files => Some (foldl (sweepFile m now) fs files)
    | None => None
    end.

(** The capture program's files land on disk before the callback runs. *)
Definition landFile (fs : Fs.t) (w : Written) : Fs.t :=
  <[w_path w := Fs.File (w_mtimeMs w) (w_bytes w)]> fs.

Definition extensions : list string :=
  [".jpg"; ".jpeg"; ".bmp"; ".ppm"; ".png"; ""].

(** The [for (const ext of extensions)] loop with its [break]. *)
Fixpoint probe (fs : Fs.t) (uniqueId baseFilepath : string)
    (exts : list string) (capturedPath : string) : string :=
  match exts with
  | [] => capturedPath
  | ext :: rest =>
      let tryPath := baseFilepath +:+ ext in
      if Fs.existsSync fs tryPath && JS.includes uniqueId tryPath
      then tryPath
      else probe fs uniqueId baseFilepath rest capturedPath
  end.

Definition resolveCaptured (fs : Fs.t) (uniqueId tempFilepath data : string)
    : string :=
  let capturedPath := if bool_decide (data = "") then tempFilepath else data in
  if negb (Fs.existsSync fs capturedPath) then
    let baseFilepath := JS.stripImageSuffix tempFilepath in
    probe fs uniqueId baseFilepath extensions capturedPath
  else capturedPath.

(** [buffer[i] === n]; an [undefined] element equals no number. *)
Definition byteIs (v : option byte) (n : N) : bool :=
  match v with
  | Some b => (Byte.to_N b =? n)%N
  | None => false
  end.

Definition isBmp (buffer : list byte) : bool :=
  byteIs (bufferAt buffer 0) 0x42 && byteIs (bufferAt buffer 1) 0x4D.

Definition isPpm (buffer : list byte) : bool :=
  byteIs (bufferAt buffer 0) 0x50 && byteIs (bufferAt buffer 1) 0x36.

Definition blackMessage : string :=
  "Captured image appears to be black. Camera may need more warm-up time.".

Definition staleMessage (fileAge : Z) : string :=
  "Captured image appears to be stale (" +:+ JS.numToString fileAge +:+
  "ms old). This might be a previous capture.".

Definition notFoundMessage (capturedPath uniqueId : string)
    (files : list string) : string :=
  "Captured image not found. Looked for: " +:+ capturedPath +:+
  " with ID: " +:+ uniqueId +:+ ". Files in dir: " +:+ JS.join ", " files.

(** The [try] block of the capture callback: [inl] is the message of the
    error thrown, [inr] the path handed to [resolve]. *)
Definition processCapture (m : Manager) (env : AttemptEnv)
    (uniqueId tempFilepath finalFilepath data : string) (fs : Fs.t)
    : (string + string) * Fs.t :=
  let capturedPath := resolveCaptured fs uniqueId tempFilepath data in
  if negb (Fs.existsSync fs capturedPath) then
    match Fs.readdirSync (platform m) fs (capturesDir m) with
    | Some files => (inl (notFoundMessage capturedPath uniqueId files), fs)
    | None => (inl (Fs.whyThrown "scandir" fs (capturesDir m)), fs)
    end
  else
    match Fs.statSync fs capturedPath with
    | None => (inl (Fs.whyThrown "stat" fs capturedPath), fs)
    | Some mtimeMs =>
        let fileAge := checkNow env - mtimeMs in
        if fileAge >? 5000 then (inl (staleMessage fileAge), fs)
        else
          match Fs.readFileSync fs capturedPath with
          | None => (inl (Fs.whyThrown "read" fs capturedPath), fs)
          | Some buffer =>
              if isBmp buffer || isPpm buffer then
                match jimp env buffer with
                | inl why => (inl why, fs)
                | inr jpeg =>
                    match Fs.writeFileSync fs finalFilepath
                            (jimpWriteNow env) jpeg with
                    | None => (inl (Fs.whyThrown "open" fs finalFilepath), fs)
                    | Some fs1 =>
                        match Fs.unlinkSync fs1 capturedPath with
                        | None =>
                            (inl (Fs.whyThrown "unlink" fs1 capturedPath), fs1)
                        | Some fs2 =>
                            match Fs.readFileSync fs2 finalFilepath with
                            | None =>
                                (inl (Fs.whyThrown "open" fs2 finalFilepath),
                                 fs2)
                            | Some finalBuffer =>
                                if isImageBlack finalBuffer
                                then (inl blackMessage, fs2)
                                else (inr finalFilepath, fs2)
                            end
                        end
                    end
                end
              else if isImageBlack buffer then
                match Fs.unlinkSync fs capturedPath with
                | None => (inl (Fs.whyThrown "unlink" fs capturedPath), fs)
                | Some fs1 => (inl blackMessage, fs1)
                end
              else
                match Fs.renameSync fs capturedPath finalFilepath with
                | None => (inl (Fs.whyThrown "rename" fs capturedPath), fs)
                | Some fs1 => (inr finalFilepath, fs1)
                end
          end
    end.

Definition uniqueIdOf (env : AttemptEnv) : string :=
  JS.numToString (timestamp env) +:+ "_" +:+ randomId env.

Definition tempFilenameOf (m : Manager) (uniqueId : string) : string :=
  match platform m with
  | linux => "capture_temp_" +:+ uniqueId +:+ ".jpg"
  | _ => "capture_temp_" +:+ uniqueId
  end.

Definition tempFilepathOf (m : Manager) (env : AttemptEnv) : string :=
  Fs.pathJoin (platform m) (capturesDir m) (tempFilenameOf m (uniqueIdOf env)).

Definition finalFilepathOf (m : Manager) (env : AttemptEnv) : string :=
  Fs.pathJoin (platform m) (capturesDir m)
    ("capture_" +:+ uniqueIdOf env +:+ ".jpeg").

(** [if (!fs.existsSync(dir)) fs.mkdirSync(dir, { recursive: true })];
    [None] when [mkdirSync] throws. *)
Definition ensureDir (m : Manager) (env : AttemptEnv) (fs : Fs.t)
    : option Fs.t :=
  if negb (Fs.existsSync fs (capturesDir m))
  then Fs.mkdirSync (platform m) fs (capturesDir m) (mkdirNow env)
  else Some fs.

(** The file system the capture callback starts from: the capture
    program's files landed on the prepared disk. *)
Definition afterCapture (m : Manager) (env : AttemptEnv) (fs : Fs.t) : Fs.t :=
  foldl landFile fs (cb_written (capture env (tempFilepathOf m env))).

(** [captureImage].  An exception that escapes the promise executor, an
    [async] function (the sweep's [readdirSync], [mkdirSync]), leaves the
    promise pending for ever. *)
Definition captureImage (m : Manager) (env : AttemptEnv) (fs : Fs.t)
    : Settled * Fs.t :=
  let uniqueId := uniqueIdOf env in
  match clearOldCaptures m (sweepNow env) fs with
  | None => (Pending, fs)
  | Some fs1 =>
      let tempFilepath := tempFilepathOf m env in
      let finalFilepath := finalFilepathOf m env in
      match ensureDir m env fs1 with
      | None => (Pending, fs1)
      | Some fs1' =>
          let outcome := capture env tempFilepath in
          let fs2 := afterCapture m env fs1' in
          match cb_err outcome with
          | Some message => (Rejected message, fs2)
          | None =>
              match processCapture m env uniqueId tempFilepath finalFilepath
                      (cb_data outcome) fs2 with
              | (inr path, fs3) => (Resolved path, fs3)
              | (inl why, fs3) =>
                  (Rejected
                     ("Failed to process captured image: Error: " +:+ why),
                   fs3)
              end
          end
      end
  end.

(** What [listDevices] asks of the outside world: the names
    [getCameraNames] resolved to and the argument [NodeWebcam.list]
    passes to its callback ([None] for null or undefined). *)
Record ListEnv := {
  cameraNames : list string;
  webcamList : option (list string)
}.

Definition linuxDevices (fs : Fs.t) : list WebcamDevice :=
  foldl (fun devices i =>
           if Fs.existsSync fs ("/dev/video" +:+ JS.numToString i)
           then devices ++ [{| name := "USB Camera (video" +:+
                                       JS.numToString i +:+ ")";
                               id := JS.numToString i |}]
           else devices)
        [] (forRange 0 10).

Definition describeDevice (names : list string) (index : nat)
    (device : string) : WebcamDevice :=
  let deviceName := default "" (names !! index) in
  let deviceName :=
    if bool_decide (deviceName = "") then
      if bool_decide (device = "")
      then "Camera " +:+ JS.numToString (Z.of_nat index + 1)
      else "Webcam " +:+ JS.succToString (JS.parseInt device) +:+
           " (Device " +:+ device +:+ ")"
    else deviceName in
  {| name := deviceName;
     id := if bool_decide (device = "")
           then JS.numToString (Z.of_nat index) else device |}.

Definition fallbackDevices (env : ListEnv) : list WebcamDevice :=
  match webcamList env with
  | None | Some [] => [{| name := "Default Camera"; id := "0" |}]
  | Some list => imap (describeDevice (cameraNames env)) list
  end.

Definition listDevices (p : Platform) (fs : Fs.t) (env : ListEnv)
    : list WebcamDevice :=
  match p with
  | linux =>
      let devices := linuxDevices fs in
      if 0 <? Z.of_nat (length devices) then devices
      else fallbackDevices env
  | _ => fallbackDevices env
  end.

End Webcam.

(** ** HuelyCLI.captureAndAnalyze (src/index.ts) *)

Module Cli.

(** What the user sees and the pauses the loop makes, in order. *)
Inductive UiEvent :=
| ShowCapturing
| SpinnerSucceed (text : string)
| SpinnerText (text : string)
| SpinnerFail (text : string)
| Sleep (ms : Z)
| ShowAnalyzing
| ShowResponse (text : string)
| ShowError (text : string).

Definition maxRetries : Z := 3.

(** The variables of the retry loop, the disk, the events so far and
    how each [captureImage] call made so far ended. *)
Record LoopState := {
  imagePath : option string;
  retryCount : Z;
  disk : Fs.t;
  events : list UiEvent;
  outcomes : list Settled
}.

Definition calls (st : LoopState) : nat := length (outcomes st).

Inductive LoopEnd :=
| Finished (st : LoopState)
| Thrown (message : string) (st : LoopState)
| Hung (st : LoopState)
| OutOfFuel.

(** [!imagePath] *)
Definition falsy (p : option string) : bool :=
  match p with
  | None => true
  | Some s => bool_decide (s = "")
  end.

Definition warmingUp (retryCount : Z) : string :=
  "Camera warming up... Retry " +:+ JS.numToString retryCount +:+ "/" +:+
  JS.numToString maxRetries.

(** The [while] loop; [envs k] is the world of the [k]-th call of
    [captureImage], counted from 0. *)
Fixpoint retryLoop (fuel : nat) (m : Manager) (envs : nat -> AttemptEnv)
    (st : LoopState) : LoopEnd :=
  match fuel with
  | O => OutOfFuel
  | S fuel' =>
      if falsy (imagePath st) && (retryCount st <? maxRetries) then
        match Webcam.captureImage m (envs (calls st)) (disk st) with
        | (Resolved path, fs') =>
            retryLoop fuel' m envs
              {| imagePath := Some path;
                 retryCount := retryCount st;
                 disk := fs';
                 events := events st ++ [SpinnerSucceed "Image captured!"];
                 outcomes := outcomes st ++ [Resolved path] |}
        | (Rejected message, fs') =>
            let retryCount' := retryCount st + 1 in
            if JS.includes "black" message && (retryCount' <? maxRetries)
            then
              retryLoop fuel' m envs
                {| imagePath := imagePath st;
                   retryCount := retryCount';
                   disk := fs';
                   events := events st ++
                             [SpinnerText (warmingUp retryCount'); Sleep 2000];
                   outcomes := outcomes st ++ [Rejected message] |}
            else
              Thrown message
                {| imagePath := imagePath st;
                   retryCount := retryCount';
                   disk := fs';
                   events := events st ++
                             [SpinnerFail ("Capture failed: " +:+ message)];
                   outcomes := outcomes st ++ [Rejected message] |}
        | (Pending, fs') =>
            Hung {| imagePath := imagePath st;
                    retryCount := retryCount st;
                    disk := fs';
                    events := events st;
                    outcomes := outcomes st ++ [Pending] |}
        end
      else Finished st
  end.

Definition initialState (fs : Fs.t) : LoopState :=
  {| imagePath := None; retryCount := 0; disk := fs;
     events := [ShowCapturing]; outcomes := [] |}.

(** The capture phase of [captureAndAnalyze]: the loop, then the check
    that follows it.  Four rounds are all the loop can make. *)
Definition captureWithRetries (m : Manager) (envs : nat -> AttemptEnv)
    (fs : Fs.t) : LoopEnd :=
  match retryLoop 4 m envs (initialState fs) with
  | Finished st =>
      if falsy (imagePath st)
      then Thrown "Failed to capture image after multiple attempts" st
      else Finished st
  | other => other
  end.

(** [captureAndAnalyze] with the vision client as a function from the
    image path and the disk to an error message or the analysis;
    [None] when the call never returns. *)
Definition captureAndAnalyze (m : Manager) (envs : nat -> AttemptEnv)
    (openaiClient : option (string -> Fs.t -> string + string))
    (fs : Fs.t) : option (list UiEvent * Fs.t) :=
  match openaiClient with
  | None =>
      Some ([ShowError "OpenAI API key not configured. Press K to set it up."],
            fs)
  | Some analyzeImage =>
      match captureWithRetries m envs fs with
      | Finished st =>
          match analyzeImage (default "" (imagePath st)) (disk st) with
          | inr analysis =>
              Some (events st ++
                    [ShowAnalyzing; SpinnerSucceed "Analysis complete!";
                     ShowResponse analysis], disk st)
          | inl message =>
              Some (events st ++
                    [ShowAnalyzing;
                     ShowError ("Failed to capture/analyze: " +:+ message)],
                    disk st)
          end
      | Thrown message st =>
          Some (events st ++
                [ShowError ("Failed to capture/analyze: " +:+ message)],
                disk st)
      | Hung _ | OutOfFuel => None
      end
  end.

End Cli.

(** ** Further JavaScript primitives *)

Module JSText.

(** [s.trimEnd()] and [s.trim()], for ASCII white space. *)
Fixpoint trimEnd (s : string) : string :=
  match s with
  | EmptyString => EmptyString
  | String c s' =>
      match trimEnd s' with
      | EmptyString => if JS.isSpace c then EmptyString else String c EmptyString
      | t => String c t
      end
  end.

Definition trim (s : string) : string := trimEnd (JS.skipSpaces s).

Definition newline : ascii := ascii_of_N 10.

(** [s.split('\n')]: the pieces between line feeds, at least one. *)
Fixpoint splitLines (s : string) : list string :=
  match s with
  | EmptyString => [EmptyString]
  | String c s' =>
      if bool_decide (c = newline) then EmptyString :: splitLines s'
      else match splitLines s' with
           | piece :: rest => String c piece :: rest
           | [] => [String c EmptyString]
           end
  end.

Definition base64Alphabet : string :=
  "ABCDEFGHIJKLMNOPQRSTUVWXYZabcdefghijklmnopqrstuvwxyz0123456789+/".

Definition base64Char (n : N) : ascii :=
  match String.get (N.to_nat n) base64Alphabet with
  | Some c => c
  | None => "="%char
  end.

(** [buffer.toString('base64')] *)
Fixpoint toBase64 (bytes : list byte) : string :=
  match bytes with
  | [] => EmptyString
  | [a] =>
      let x := Byte.to_N a in
      String (base64Char (x / 4))
        (String (base64Char (x mod 4 * 16)) "==")
  | [a; b] =>
      let x := Byte.to_N a in
      let y := Byte.to_N b in
      String (base64Char (x / 4))
        (String (base64Char (x mod 4 * 16 + y / 16))
           (String (base64Char (y mod 16 * 4)) "="))
  | a :: b :: c :: rest =>
      let x := Byte.to_N a in
      let y := Byte.to_N b in
      let z := Byte.to_N c in
      String (base64Char (x / 4))
        (String (base64Char (x mod 4 * 16 + y / 16))
           (String (base64Char (y mod 16 * 4 + z / 64))
              (String (base64Char (z mod 64)) (toBase64 rest))))
  end%N.

End JSText.

(** ** WebcamManager, the remaining methods (src/webcam.ts) *)

Module WebcamManager.

(** The constructor: the working directory is [huely-captures] below the
    system's temporary directory and is created, with its missing
    ancestors, when it is missing; [None] when [mkdirSync] throws. *)
Definition construct (p : Platform) (tmpdir : string) (now : Z) (fs : Fs.t)
    : option (Manager * Fs.t) :=
  let capturesDir := Fs.pathJoin p tmpdir "huely-captures" in
  let m := {| platform := p; capturesDir := capturesDir |} in
  if negb (Fs.existsSync fs capturesDir)
  then (fun fs' => (m, fs')) <$> Fs.mkdirSync p fs capturesDir now
  else Some (m, fs).

(** What [exec] hands to its callback: whether [error] is set, and the
    two outputs of the command. *)
Record ExecResult := {
  ex_error : bool;
  ex_stdout : string;
  ex_stderr : string
}.

(** [getCameraNames]; the three platforms that have a command run it, any
    other platform resolves with the empty list at once. *)
Definition getCameraNames (p : Platform) (ran : ExecResult) : list string :=
  match p with
  | otherPlatform => []
  | _ =>
      if ex_error ran || negb (bool_decide (ex_stderr ran = "")) then []
      else
        filter (fun name => JSText.trim name <> "")
               (JSText.splitLines (JSText.trim (ex_stdout ran)))
  end.

(** [listDevices] with the names [getCameraNames] resolves to. *)
Definition listDevicesNamed (p : Platform) (fs : Fs.t) (ran : ExecResult)
    (listed : option (list string)) : list WebcamDevice :=
  Webcam.listDevices p fs
    {| Webcam.cameraNames := getCameraNames p ran;
       Webcam.webcamList := listed |}.

(** The options [initializeWebcam] creates the node-webcam instance with. *)
Record WebcamOptions := {
  width : Z;
  height : Z;
  quality : Z;
  delay : Z;
  saveShots : bool;
  output : string;
  device : string;
  callbackReturn : string;
  verbose : bool;
  skip : option Z;
  setValues : option (Z * Z * Z)        (* brightness, contrast, gamma *)
}.

Definition initializeWebcam (p : Platform) (deviceId : string)
    : WebcamOptions :=
  let opts :=
    {| width := 1280; height := 720; quality := 100; delay := 0;
       saveShots := true; output := "jpeg"; device := deviceId;
       callbackReturn := "location"; verbose := false;
       skip := None; setValues := None |} in
  match p with
  | linux =>
      {| width := width opts; height := height opts; quality := quality opts;
         delay := 1;
         saveShots := saveShots opts; output := output opts;
         device := "/dev/video" +:+ deviceId;
         callbackReturn := callbackReturn opts; verbose := verbose opts;
         skip := Some 20;
         setValues := Some (60, 15, 100) |}
  | _ => opts
  end.

(** [captureImageAsBase64]: an exception of [readFileSync] rejects the
    promise of the [async] method. *)
Definition captureImageAsBase64 (m : Manager) (env : AttemptEnv) (fs : Fs.t)
    : Settled * Fs.t :=
  match Webcam.captureImage m env fs with
  | (Resolved imagePath, fs') =>
      match Fs.readFileSync fs' imagePath with
      | Some imageBuffer => (Resolved (JSText.toBase64 imageBuffer), fs')
      | None => (Rejected (Fs.whyThrown "open" fs' imagePath), fs')
      end
  | other => other
  end.

Definition fiveMinutes : Z := 5 * 60 * 1000.

(** The body of [files.forEach] in [cleanup]: nothing is caught, so
    [inl] is the message of the error that leaves the loop. *)
Definition cleanupFile (m : Manager) (now : Z) (fs : Fs.t) (file : string)
    : string + Fs.t :=
  let filePath := Fs.pathJoin (platform m) (capturesDir m) file in
  match Fs.statSync fs filePath with
  | None => inl (Fs.whyThrown "stat" fs filePath)
  | Some mtimeMs =>
      if now - mtimeMs >? fiveMinutes then
        match Fs.unlinkSync fs filePath with
        | None => inl (Fs.whyThrown "unlink" fs filePath)
        | Some fs' => inr fs'
        end
      else inr fs
  end.

Fixpoint cleanupEach (m : Manager) (now : Z) (files : list string)
    (fs : Fs.t) : option string * Fs.t :=
  match files with
  | [] => (None, fs)
  | file :: rest =>
      match cleanupFile m now fs file with
      | inl why => (Some why, fs)
      | inr fs' => cleanupEach m now rest fs'
      end
  end.

(** [cleanup]: the message of the error thrown, if any, and the disk. *)
Definition cleanup (m : Manager) (now : Z) (fs : Fs.t)
    : option string * Fs.t :=
  match Fs.readdirSync (platform m) fs (capturesDir m) with
  | None => (Some (Fs.whyThrown "scandir" fs (capturesDir m)), fs)
  | Some files => cleanupEach m now files fs
  end.

End WebcamManager.

(** ** CLIUI (src/cli-ui.ts) *)

Module CLIUI.

(** The strings [waitForKeypress] resolves with. *)
Inductive Key := quit | capture | clear | switch | config.

(** [chunk.toString() === c] for an ASCII character [c]: the chunk is that
    one byte (no other byte sequence decodes to the character). *)
Definition chunkIs (chunk : list byte) (c : N) : bool :=
  match chunk with
  | [b] => (Byte.to_N b =? c)%N
  | _ => false
  end.

(** The [handler] of [waitForKeypress] on one chunk; [None] re-attaches
    the listener. *)
Definition handler (chunk : list byte) : option Key :=
  if Webcam.byteIs (head chunk) 0x03 then Some quit
  else if chunkIs chunk 113 || chunkIs chunk 81 then Some quit
  else if chunkIs chunk 32 then Some capture
  else if chunkIs chunk 99 || chunkIs chunk 67 then Some clear
  else if chunkIs chunk 119 || chunkIs chunk 87 then Some switch
  else if chunkIs chunk 107 || chunkIs chunk 75 then Some config
  else None.

(** [waitForKeypress] on the chunks standard input delivers: the key and
    the chunks not yet read, or [None] while the promise is pending. *)
Fixpoint waitForKeypress (chunks : list (list byte))
    : option (Key * list (list byte)) :=
  match chunks with
  | [] => None
  | chunk :: rest =>
      match handler chunk with
      | Some key => Some (key, rest)
      | None => waitForKeypress rest
      end
  end.

(** [selectWebcam]; [answer] is the position of the choice the user makes
    at the prompt.  [inl] is the message of the error thrown; [None]
    stands for a prompt that is never answered. *)
Definition selectWebcam (devices : list WebcamDevice) (answer : nat)
    : option (string + string) :=
  match devices with
  | [] => Some (inl "No webcams available")
  | [only] => Some (inr (id only))
  | _ => inr <$> (id <$> devices !! answer)
  end.

(** The [validate] function of [promptApiKey]: [inl] is the complaint
    shown, [inr] stands for [true]. *)
Definition validate (input : string) : string + unit :=
  if bool_decide (input = "") ||
     (String.length (JSText.trim input) =? 0)%nat
  then inl "API key cannot be empty"
  else if negb (JS.startsWith "sk-" input)
  then inl "Invalid API key format (should start with sk-)"
  else inr tt.

(** [promptApiKey] on the lines the user enters: the prompt comes back
    until a line is accepted. *)
Fixpoint promptApiKey (inputs : list string) : option string :=
  match inputs with
  | [] => None
  | input :: rest =>
      match validate input with
      | inr _ => Some input
      | inl _ => promptApiKey rest
      end
  end.

End CLIUI.

(** ** OpenAIClient (src/openai-client.ts) *)

Module OpenAIClient.

(** [chat.completions.create] for the image URL and the user prompt (the
    model, the system prompt and the limits are constants): the message of
    the error it rejects with, or [choices[0]?.message?.content]. *)
Record Api := { create : string -> string -> string + option string }.

Definition defaultPrompt : string :=
  "Analyze this image. If it contains a question or problem, provide the answer or solution. Pay special attention to any programming language specified or selected in the image.".

Definition isJpeg (imageBuffer : list byte) : bool :=
  Webcam.byteIs (Webcam.bufferAt imageBuffer 0) 0xFF &&
  Webcam.byteIs (Webcam.bufferAt imageBuffer 1) 0xD8.

(** The [try] block of [analyzeImage]: [inl] is the [message] of the error
    thrown. *)
Definition analyzeChecked (api : Api) (imagePath : string)
    (prompt : option string) (fs : Fs.t) : string + string :=
  if negb (Fs.existsSync fs imagePath) then
    inl ("Image file not found: " +:+ imagePath)
  else
    match Fs.readFileSync fs imagePath with
    | None => inl (Fs.whyThrown "read" fs imagePath)
    | Some imageBuffer =>
        if (Z.of_nat (length imageBuffer) =? 0) then
          inl "Captured image file is empty"
        else if negb (isJpeg imageBuffer) then
          inl "Image is not in JPEG format after conversion"
        else
          let base64Image := JSText.toBase64 imageBuffer in
          let userPrompt :=
            match prompt with
            | Some text => if bool_decide (text = "") then defaultPrompt else text
            | None => defaultPrompt
            end in
          match create api ("data:image/jpeg;base64," +:+ base64Image)
                  userPrompt with
          | inl message => inl message
          | inr (Some content) =>
              inr (if bool_decide (content = "")
                   then "No response from OpenAI" else content)
          | inr None => inr "No response from OpenAI"
          end
    end.

(** [analyzeImage]: [inl] is the message of the error it rejects with;
    an error without a message prints as [Error]. *)
Definition analyzeImage (api : Api) (imagePath : string)
    (prompt : option string) (fs : Fs.t) : string + string :=
  match analyzeChecked api imagePath prompt fs with
  | inl message =>
      inl ("Failed to analyze image: " +:+
           (if bool_decide (message = "") then "Error" else message))
  | inr analysis => inr analysis
  end.

End OpenAIClient.

(** ** ConfigManager (src/config.ts) *)

Module ConfigManager.

(** A value of a field of the configuration object: a string, or any
    other JSON value, of which only its truthiness is kept. *)
Inductive JsValue :=
| JString (s : string)
| JFalsy
| JTruthy.

Definition truthy (v : JsValue) : bool :=
  match v with
  | JString s => negb (bool_decide (s = ""))
  | JFalsy => false
  | JTruthy => true
  end.

(** What [JSON.parse] can return: [null], a scalar (a number, a string or
    a boolean), or an object with its fields; an array is an object whose
    fields are its indices. *)
Inductive Json :=
| JNull
| JScalar
| JObject (fields : gmap string JsValue).

(** The manager: the path of its file and the value it holds. *)
Record t := {
  configPath : string;
  config : Json
}.

Section Codec.

(** [JSON.parse] of the file's text, [None] when it throws, and
    [JSON.stringify(config, null, 2)]. *)
Variable parse : list byte -> option Json.
Variable stringify : Json -> list byte.

(** [loadConfig]: a missing file, a read error and a parse error all give
    the empty object; whatever else the file parses to is kept. *)
Definition loadConfig (configPath : string) (fs : Fs.t) : Json :=
  if Fs.existsSync fs configPath then
    match Fs.readFileSync fs configPath with
    | Some data =>
        match parse data with
        | Some value => value
        | None => JObject ∅
        end
    | None => JObject ∅
    end
  else JObject ∅.

(** The constructor; [None] when [mkdirSync] throws. *)
Definition construct (p : Platform) (homedir : string) (now : Z) (fs : Fs.t)
    : option (t * Fs.t) :=
  let configDir := Fs.pathJoin p homedir ".huely" in
  let configPath := Fs.pathJoin p configDir "config.json" in
  let loaded fs1 :=
    ({| configPath := configPath; config := loadConfig configPath fs1 |},
     fs1) in
  if negb (Fs.existsSync fs configDir)
  then loaded <$> Fs.mkdirSync p fs configDir now
  else Some (loaded fs).

(** [saveConfig]; [None] when [writeFileSync] throws. *)
Definition saveConfig (c : t) (now : Z) (fs : Fs.t) : option Fs.t :=
  Fs.writeFileSync fs (configPath c) now (stringify (config c)).

(** [getApiKey]: the outer [None] is the TypeError of reading a property
    of [null], the inner one is the [null] the method returns. *)
Definition getApiKey (c : t) : option (option JsValue) :=
  match config c with
  | JNull => None
  | JScalar => Some None
  | JObject fields =>
      Some (match fields !! "openaiApiKey" with
            | Some v => if truthy v then Some v else None
            | None => None
            end)
  end.

(** [this.config.openaiApiKey = apiKey] in the strict code of the class:
    a TypeError on [null] and on a scalar. *)
Definition assignApiKey (value : Json) (apiKey : string) : option Json :=
  match value with
  | JObject fields => Some (JObject (<["openaiApiKey" := JString apiKey]> fields))
  | JNull | JScalar => None
  end.

(** [delete this.config.openaiApiKey]: a TypeError on [null], nothing to
    delete on a scalar. *)
Definition deleteApiKey (value : Json) : option Json :=
  match value with
  | JObject fields => Some (JObject (delete "openaiApiKey" fields))
  | JScalar => Some JScalar
  | JNull => None
  end.

(** [setApiKey] and [clearApiKey]: the manager and the disk afterwards;
    [None] when the assignment, the deletion or [saveConfig] throws. *)
Definition setApiKey (c : t) (apiKey : string) (now : Z) (fs : Fs.t)
    : option (t * Fs.t) :=
  match assignApiKey (config c) apiKey with
  | None => None
  | Some value =>
      let c' := {| configPath := configPath c; config := value |} in
      (fun fs' => (c', fs')) <$> saveConfig c' now fs
  end.

Definition clearApiKey (c : t) (now : Z) (fs : Fs.t) : option (t * Fs.t) :=
  match deleteApiKey (config c) with
  | None => None
  | Some value =>
      let c' := {| configPath := configPath c; config := value |} in
      (fun fs' => (c', fs')) <$> saveConfig c' now fs
  end.

End Codec.

End ConfigManager.

(** ** HuelyCLI, the remaining methods (src/index.ts) *)

Module HuelyCLI.


(** [selectAndInitializeWebcam]: the options the webcam is created with,
    or the message of the error [selectWebcam] throws. *)
Definition selectAndInitializeWebcam (p : Platform) (fs : Fs.t)
    (ran : WebcamManager.ExecResult) (listed : option (list string))
    (answer : nat) : option (string + WebcamManager.WebcamOptions) :=
  match CLIUI.selectWebcam (WebcamManager.listDevicesNamed p fs ran listed)
          answer with
  | Some (inr selectedDevice) =>
      Some (inr (WebcamManager.initializeWebcam p selectedDevice))
  | Some (inl message) => Some (inl message)
  | None => None
  end.



(** [captureAndAnalyze] with a client whose [analyzeImage] is the method
    of [OpenAIClient]. *)
Definition captureAndAnalyzeWith (m : Manager) (envs : nat -> AttemptEnv)
    (client : option OpenAIClient.Api) (fs : Fs.t)
    : option (list Cli.UiEvent * Fs.t) :=
  Cli.captureAndAnalyze m envs
    ((fun api imagePath disk =>
        OpenAIClient.analyzeImage api imagePath None disk) <$> client)
    fs.

End HuelyCLI.

(** ** Vocabulary of the properties *)

(** The sampled bytes, in the words of the specification: at most 1000
    bytes, not more than the buffer has past offset 100, from offset 100. *)
Definition sampleWindow (buffer : list byte) : list byte :=
  take (Z.to_nat (Z.min 1000 (Z.of_nat (length buffer) - 100)))
       (drop 100 buffer).

Definition belowThreshold (b : byte) : bool := (Byte.to_N b <? 20)%N.

Definition darkBytes (window : list byte) : nat :=
  length (filter (fun b => belowThreshold b = true) window).

(** The double comparison agrees with the exact one on every pair of
    counts the guard can produce; checked pair by pair. *)
Definition ratioAgrees (s b : Z) : bool :=
  Bool.eqb (JS.ratioExceeds09 b s) ((0 <? s) && (9 * s <? 10 * b)).

(** [ratioAgrees s] on [n] successive counts from [b], and on all counts
    up to the sample size for [n] successive sample sizes from [s]. *)
Fixpoint rowAgrees (s : Z) (n : nat) (b : Z) : bool :=
  match n with
  | O => true
  | S n' => ratioAgrees s b && rowAgrees s n' (b + 1)
  end.

Fixpoint rowsAgree (n : nat) (s : Z) : bool :=
  match n with
  | O => true
  | S n' => rowAgrees s (S (Z.to_nat s)) 0 && rowsAgree n' (s + 1)
  end.

(** A file the sweep is to remove: a direct entry of the working
    directory whose name starts with the artifact prefix and whose
    modification time lies more than thirty seconds back. *)
Definition sweepTarget (m : Manager) (now : Z) (path : string) (n : Fs.node)
    : Prop :=
  exists name mtimeMs bytes,
    path = Fs.pathJoin (platform m) (capturesDir m) name /\
    Fs.plainName (platform m) name = true /\
    JS.startsWith "capture_" name = true /\
    n = Fs.File mtimeMs bytes /\
    now - mtimeMs > 30000.

(** Whether [path] is what some listed name with the prefix joins to, and
    whether a node is a file older than the window. *)
Definition sweepHits (m : Manager) (files : list string) (path : string) : bool :=
  existsb (fun file =>
             JS.startsWith "capture_" file &&
             bool_decide (path = Fs.pathJoin (platform m) (capturesDir m) file))
          files.

Definition oldFile (now : Z) (n : Fs.node) : bool :=
  match n with
  | Fs.File mtimeMs _ => now - mtimeMs >? Webcam.thirtySeconds
  | Fs.Dir _ => false
  end.

(** The path the capture program reported ([data || tempFilepath]) and
    the path the callback settles on after probing, on the disk [fs] the
    callback sees. *)
Definition reportedPathOf (m : Manager) (env : AttemptEnv) : string :=
  let tempFilepath := Webcam.tempFilepathOf m env in
  let data := cb_data (capture env tempFilepath) in
  if bool_decide (data = "") then tempFilepath else data.

Definition capturedPathOf (m : Manager) (env : AttemptEnv) (fs : Fs.t)
    : string :=
  Webcam.resolveCaptured fs (Webcam.uniqueIdOf env) (Webcam.tempFilepathOf m env)
    (cb_data (capture env (Webcam.tempFilepathOf m env))).


(** The working directory is usable when its path names a directory, or
    is free and no ancestor of it is a regular file; otherwise the sweep's
    [readdirSync] or the [mkdirSync] that follows it throws. *)
Definition workingDirOk (m : Manager) (fs : Fs.t) : bool :=
  match fs !! capturesDir m with
  | Some (Fs.File _ _) => false
  | Some (Fs.Dir _) => true
  | None => negb (existsb (Fs.isFile fs)
                    (Fs.ancestors (platform m) (capturesDir m)))
  end.

(** The disk after the sweep of an attempt, the disk it has prepared when
    it calls the capture program (swept, the working directory ensured),
    and the disk its callback sees. *)
Definition sweptDisk (m : Manager) (now : Z) (fs : Fs.t) : Fs.t :=
  default fs (Webcam.clearOldCaptures m now fs).

Definition preparedDisk (m : Manager) (env : AttemptEnv) (fs : Fs.t) : Fs.t :=
  default (sweptDisk m (sweepNow env) fs)
          (Webcam.ensureDir m env (sweptDisk m (sweepNow env) fs)).

Definition callbackDisk (m : Manager) (env : AttemptEnv) (fs : Fs.t) : Fs.t :=
  Webcam.afterCapture m env (preparedDisk m env fs).

(** The message [captureImage] rejects with when the callback's [try]
    block threw an error with the message [why]. *)
Definition processFailure (why : string) : string :=
  "Failed to process captured image: Error: " +:+ why.

(** [captureImage] called [n] times in a row on the disk the previous call
    left, the world of call [k] first: how the calls ended and the disk
    after the last. *)
Fixpoint replay (m : Manager) (envs : nat -> AttemptEnv) (k n : nat)
    (fs : Fs.t) : list Settled * Fs.t :=
  match n with
  | O => ([], fs)
  | S n' =>
      let run := Webcam.captureImage m (envs k) fs in
      let rest := replay m envs (S k) n' (snd run) in
      (fst run :: fst rest, snd rest)
  end.

(** The pauses among the events, in order. *)
Definition sleeps (events : list Cli.UiEvent) : list Z :=
  omap (fun e => match e with Cli.Sleep ms => Some ms | _ => None end) events.

Fixpoint strictlyIncreasing (l : list Z) : Prop :=
  match l with
  | a :: (b :: _) as rest => a < b /\ strictlyIncreasing rest
  | _ => True
  end.

(** A rejection the loop answers with a retry while retries are left. *)
Definition blackRejection (o : Settled) : Prop :=
  exists message, o = Rejected message /\ JS.includes "black" message = true.

(** The state of the loop between two attempts. *)
Definition retrying (m : Manager) (envs : nat -> AttemptEnv) (fs : Fs.t)
    (st : Cli.LoopState) : Prop :=
  Cli.imagePath st = None /\
  Cli.retryCount st = Z.of_nat (Cli.calls st) /\
  (Cli.calls st <= 2)%nat /\
  Forall blackRejection (Cli.outcomes st) /\
  sleeps (Cli.events st) = replicate (Cli.calls st) 2000 /\
  (Cli.outcomes st, Cli.disk st) = replay m envs 0 (Cli.calls st) fs.

(** How a run of the loop that started on [fs] has ended: the calls made
    are those of [replay]; all but the last were rejected with a message
    containing "black", each followed by one pause of 2000 ms; the last
    decides the result. *)
Definition settledRun (m : Manager) (envs : nat -> AttemptEnv) (fs : Fs.t)
    (r : Cli.LoopEnd) : Prop :=
  exists st pre last,
    Cli.outcomes st = pre ++ [last] /\
    (length pre <= 2)%nat /\
    Forall blackRejection pre /\
    sleeps (Cli.events st) = replicate (length pre) 2000 /\
    (Cli.outcomes st, Cli.disk st) = replay m envs 0 (Cli.calls st) fs /\
    match last with
    | Resolved path =>
        r = Cli.Finished st /\ Cli.imagePath st = Some path /\ path <> ""
    | Rejected message =>
        r = Cli.Thrown message st /\
        (JS.includes "black" message = false \/ length pre = 2%nat)
    | Pending => r = Cli.Hung st
    end.

(** The capture program reported no error, wrote the one file [w] and
    reported its path, and left the working directory alone. *)
Definition reportsOneFile (m : Manager) (env : AttemptEnv) (w : Written)
    : Prop :=
  cb_err (capture env (Webcam.tempFilepathOf m env)) = None /\
  cb_written (capture env (Webcam.tempFilepathOf m env)) = [w] /\
  reportedPathOf m env = w_path w /\
  w_path w <> capturesDir m.

(** An attempt on [fs] that ends in the black-frame rejection of a fresh
    file that is neither BMP nor PPM. *)
Definition blackJpegAttempt (m : Manager) (env : AttemptEnv) (fs : Fs.t)
    (w : Written) : Prop :=
  workingDirOk m fs = true /\
  reportsOneFile m env w /\
  checkNow env - w_mtimeMs w <= 5000 /\
  Webcam.isBmp (w_bytes w) || Webcam.isPpm (w_bytes w) = false /\
  Webcam.isImageBlack (w_bytes w) = true.

(** The state a run ended in and the message it threw. *)
Definition endState (r : Cli.LoopEnd) : option Cli.LoopState :=
  match r with
  | Cli.Finished st | Cli.Thrown _ st | Cli.Hung st => Some st
  | Cli.OutOfFuel => None
  end.

Definition thrownMessage (r : Cli.LoopEnd) : option string :=
  match r with
  | Cli.Thrown message _ => Some message
  | _ => None
  end.

(** ** Sample worlds *)

Definition sampleManager : Manager :=
  {| platform := linux; capturesDir := "/tmp/huely-captures" |}.

(** A directory with an old and a young artifact and an old file of
    another name. *)
Definition sampleDisk : Fs.t :=
  {[ "/tmp/huely-captures" := Fs.Dir 0;
     "/tmp/huely-captures/capture_1000_old.jpeg" := Fs.File 1000 [];
     "/tmp/huely-captures/capture_990000_new.jpeg" := Fs.File 990000 [];
     "/tmp/huely-captures/notes.txt" := Fs.File 1000 [] ]}.

Definition darkJpeg : list byte := xff :: xd8 :: repeat x00 1200.
Definition brightJpeg : list byte := xff :: xd8 :: repeat x80 1200.
Definition darkBmp : list byte := x42 :: x4d :: repeat x00 1200.

(** A capture program that writes [bytes], stamped [mtimeMs], to the path
    it is given and reports that path. *)
Definition obedientCapture (mtimeMs : Z) (bytes : list byte)
    (tempFilepath : string) : CaptureOutcome :=
  {| cb_err := None;
     cb_data := tempFilepath;
     cb_written := [{| w_path := tempFilepath; w_mtimeMs := mtimeMs;
                       w_bytes := bytes |}] |}.

(** An encoder that keeps the picture: the JPEG of a dark bitmap is dark. *)
Definition sampleJimp (raw : list byte) : string + list byte :=
  inr (xff :: xd8 :: drop 2 raw).

(** An attempt entered at time [t] whose callback runs 1500 ms later and
    finds a file of the given age. *)
Definition sampleEnv (t : Z) (age : Z) (bytes : list byte) : AttemptEnv :=
  {| timestamp := t; randomId := "k3x9qa"; sweepNow := t; mkdirNow := t;
     capture := obedientCapture (t + 1500 - age) bytes;
     checkNow := t + 1500;
     jimp := sampleJimp;
     jimpWriteNow := t + 1600 |}.

Definition brightBmp : list byte := x42 :: x4d :: repeat x80 1200.

(** A macOS-style run: the capture program is handed a name without an
    extension, appends [.jpg] itself and reports the name it was given. *)
Definition sampleMac : Manager :=
  {| platform := darwin; capturesDir := "/tmp/huely-captures" |}.

Definition siblingCapture (mtimeMs : Z) (bytes : list byte)
    (tempFilepath : string) : CaptureOutcome :=
  {| cb_err := None;
     cb_data := tempFilepath;
     cb_written := [{| w_path := tempFilepath +:+ ".jpg"; w_mtimeMs := mtimeMs;
                       w_bytes := bytes |}] |}.

Definition siblingEnv (t : Z) (bytes : list byte) : AttemptEnv :=
  {| timestamp := t; randomId := "k3x9qa"; sweepNow := t; mkdirNow := t;
     capture := siblingCapture (t + 1400) bytes;
     checkNow := t + 1500;
     jimp := sampleJimp;
     jimpWriteNow := t + 1600 |}.

(** A capture program that reports success and writes nothing. *)
Definition silentEnv (t : Z) : AttemptEnv :=
  {| timestamp := t; randomId := "k3x9qa"; sweepNow := t; mkdirNow := t;
     capture := fun _ => {| cb_err := None; cb_data := ""; cb_written := [] |};
     checkNow := t + 1500;
     jimp := sampleJimp;
     jimpWriteNow := t + 1600 |}.

(** Three attempts 3500 ms apart, each finding a fresh dark JPEG. *)
Definition darkRun (k : nat) : AttemptEnv :=
  sampleEnv (1000000 + 3500 * Z.of_nat k) 100 darkJpeg.

(** The file the capture program of [sampleEnv] writes. *)
Definition sampleFile (t : Z) (age : Z) (bytes : list byte) : Written :=
  {| w_path := Webcam.tempFilepathOf sampleManager (sampleEnv t age bytes);
     w_mtimeMs := t + 1500 - age;
     w_bytes := bytes |}.

Definition darkFile (k : nat) : Written :=
  sampleFile (1000000 + 3500 * Z.of_nat k) 100 darkJpeg.

(** A working directory below a directory called blackbox, and a capture
    program that never writes anything. *)
Definition blackboxManager : Manager :=
  {| platform := linux; capturesDir := "/tmp/blackbox/huely-captures" |}.

Definition blackboxDisk : Fs.t :=
  {[ "/tmp/blackbox/huely-captures" := Fs.Dir 0 ]}.

Definition silentRun (k : nat) : AttemptEnv :=
  silentEnv (1000000 + 3500 * Z.of_nat k).

(** A capture program that fails after it has written a partial file. *)
Definition failingEnv (t : Z) : AttemptEnv :=
  {| timestamp := t; randomId := "k3x9qa"; sweepNow := t; mkdirNow := t;
     capture := fun tempFilepath =>
       {| cb_err := Some "Error: fswebcam exited with code 1";
          cb_data := "";
          cb_written := [{| w_path := tempFilepath; w_mtimeMs := t + 1400;
                            w_bytes := [xff; xd8] |}] |};
     checkNow := t + 1500;
     jimp := sampleJimp;
     jimpWriteNow := t + 1600 |}.

(** A disk on which the path of the working directory is taken by a
    regular file. *)
Definition blockedDisk : Fs.t :=
  {[ "/tmp/huely-captures" := Fs.File 0 [] ]}.

(** The capture program of an attempt writes nothing at the path of the
    working directory. *)
Definition sparesWorkingDir (m : Manager) (env : AttemptEnv) : Prop :=
  Forall (fun w => w_path w <> capturesDir m)
         (cb_written (capture env (Webcam.tempFilepathOf m env))).

(** A node [cleanup] is to remove: a direct entry of the working
    directory, of any name, last modified more than five minutes ago. *)
Definition expired (now : Z) (n : Fs.node) : bool :=
  now - Fs.mtimeOf n >? WebcamManager.fiveMinutes.

Definition cleanupTarget (m : Manager) (now : Z) (path : string) (n : Fs.node)
    : Prop :=
  exists name,
    path = Fs.pathJoin (platform m) (capturesDir m) name /\
    Fs.plainName (platform m) name = true /\
    now - Fs.mtimeOf n > 300000.

Definition cleanupHits (m : Manager) (files : list string) (path : string)
    : bool :=
  existsb (fun file =>
             bool_decide (path = Fs.pathJoin (platform m) (capturesDir m) file))
          files.

(** No direct entry of the working directory is a directory that
    [cleanup] is to remove. *)
Definition noExpiredDirectory (m : Manager) (now : Z) (fs : Fs.t) : bool :=
  forallb (fun file =>
             match fs !! Fs.pathJoin (platform m) (capturesDir m) file with
             | Some (Fs.Dir mtimeMs) =>
                 negb (now - mtimeMs >? WebcamManager.fiveMinutes)
             | _ => true
             end)
          (default [] (Fs.readdirSync (platform m) fs (capturesDir m))).

(** A working directory that holds an old sub-directory. *)
Definition nestedDisk : Fs.t :=
  {[ "/tmp/huely-captures" := Fs.Dir 0;
     "/tmp/huely-captures/capture_1000_old.jpeg" := Fs.File 1000 [];
     "/tmp/huely-captures/archive" := Fs.Dir 1000 ]}.

(** The indices of the video nodes the Linux probing finds. *)
Definition probed (fs : Fs.t) : list Z :=
  filter (fun i => Fs.existsSync fs ("/dev/video" +:+ JS.numToString i) = true)
         (seqZ 0 10).

(** The image path a capture phase ended with, when it finished. *)
Definition finishedPath (r : Cli.LoopEnd) : option string :=
  match r with
  | Cli.Finished st => Cli.imagePath st
  | _ => None
  end.

(** A bright picture in a format the pipeline does not convert. *)
Definition pngBytes : list byte :=
  x89 :: x50 :: x4e :: x47 :: repeat x80 1200.

(** A configuration with another setting in it, and the object it becomes
    when a key is set. *)
Definition sampleConfig : ConfigManager.t :=
  {| ConfigManager.configPath := "/home/pi/.huely/config.json";
     ConfigManager.config :=
       ConfigManager.JObject {[ "theme" := ConfigManager.JString "dark" ]} |}.

Definition savedObject : ConfigManager.Json :=
  ConfigManager.JObject
    {[ "openaiApiKey" := ConfigManager.JString "sk-live";
       "theme" := ConfigManager.JString "dark" ]}.

(** A codec that knows one object: it writes it as a fixed text and reads
    that text back. *)
Definition sampleStringify (value : ConfigManager.Json) : list byte :=
  [x7b; x7d].

Definition sampleParse (data : list byte) : option ConfigManager.Json :=
  match data with
  | [x7b; x7d] => Some savedObject
  | _ => None
  end.

(** The disk after that object was saved, on an empty disk, at time 1000. *)
Definition savedDisk : Fs.t :=
  <["/home/pi/.huely/config.json" := Fs.File 1000 [x7b; x7d]]> ∅.


(** A disk on which an ancestor of the working directory is a regular
    file. *)
Definition fencedDisk : Fs.t :=
  {[ "/tmp" := Fs.File 0 [] ]}.

(** [value || fallback] for a string that may be undefined. *)
Definition orElse (value : option string) (fallback : string) : string :=
  match value with
  | Some text => if bool_decide (text = "") then fallback else text
  | None => fallback
  end.

(** A disk with a small JPEG on it and an API that answers every request
    the same. *)
Definition jpegDisk : Fs.t :=
  {[ "/tmp/shot.jpeg" := Fs.File 0 [xff; xd8; x00] ]}.

Definition sampleApi : OpenAIClient.Api :=
  {| OpenAIClient.create := fun _ _ => inr (Some "42") |}.

(** * Properties *)

(** Closed goals are settled by evaluation. *)
Ltac evaluate :=
  first [ vm_compute; reflexivity
        | vm_compute; discriminate
        | vm_compute; lia ].

(** Splits conjunctions only, then evaluates every part. *)
Ltac evaluate_all :=
  repeat match goal with
         | |- _ /\ _ => split
         | |- reportsOneFile _ _ _ => unfold reportsOneFile
         | |- blackJpegAttempt _ _ _ _ => unfold blackJpegAttempt
         end;
  evaluate.

(** ** The frame-quality guard *)

Section Guard.

Import Webcam.

Lemma ratio_table : rowsAgree 1101 (-100) = true.
Proof. vm_compute. reflexivity. Qed.

Lemma rowAgrees_at (s : Z) (n : nat) (b0 b : Z) :
  rowAgrees s n b0 = true -> b0 <= b < b0 + Z.of_nat n ->
  ratioAgrees s b = true.
Proof.
  revert b0. induction n as [|n IH]; intros b0 H Hb; [lia|].
  simpl in H. apply andb_prop in H as [H0 H1].
  destruct (Z.eq_dec b b0) as [->|Hne]; [exact H0|].
  apply (IH (b0 + 1)); [exact H1 | lia].
Qed.

Lemma rowsAgree_at (n : nat) (s0 s b : Z) :
  rowsAgree n s0 = true -> s0 <= s < s0 + Z.of_nat n ->
  0 <= b <= Z.max s 0 -> ratioAgrees s b = true.
Proof.
  revert s0. induction n as [|n IH]; intros s0 H Hs Hb; [lia|].
  cbn [rowsAgree] in H. apply andb_prop in H as [H0 H1].
  destruct (Z.eq_dec s s0) as [->|Hne].
  - apply (rowAgrees_at s0 _ 0 b H0). lia.
  - apply (IH (s0 + 1)); [exact H1 | lia | exact Hb].
Qed.

Lemma ratioExceeds09_exact (b s : Z) :
  -100 <= s <= 1000 -> 0 <= b <= Z.max s 0 ->
  JS.ratioExceeds09 b s = (0 <? s) && (9 * s <? 10 * b).
Proof.
  intros Hs Hb.
  apply Bool.eqb_prop.
  apply (rowsAgree_at 1101 (-100) s b ratio_table); lia.
Qed.

Lemma sampleSizeOf_range (buffer : list byte) :
  -100 <= sampleSizeOf buffer <= 1000.
Proof. unfold sampleSizeOf. lia. Qed.

Lemma bufferAt_drop (buffer : list byte) (lo : nat) :
  bufferAt buffer (Z.of_nat lo) = head (drop lo buffer).
Proof.
  unfold bufferAt.
  destruct (Z.ltb_spec (Z.of_nat lo) 0) as [?|_]; [lia|].
  rewrite Nat2Z.id.
  revert lo. induction buffer as [|x buffer IH]; intros [|lo]; simpl; auto.
Qed.

(** The loop counts the dark bytes of the next [n] bytes from [lo]. *)
Lemma countLoop_window (buffer : list byte) (n lo : nat) (acc : Z) :
  foldl (fun blackPixels i =>
           if veryDark (bufferAt buffer i) then blackPixels + 1
           else blackPixels)
        acc (seqZ (Z.of_nat lo) (Z.of_nat n))
  = acc + Z.of_nat (darkBytes (take n (drop lo buffer))).
Proof.
  revert lo acc. induction n as [|n IH]; intros lo acc.
  - simpl. unfold darkBytes. rewrite take_0. simpl. lia.
  - rewrite seqZ_cons by lia.
    replace (Z.pred (Z.of_nat (S n))) with (Z.of_nat n) by lia.
    replace (Z.succ (Z.of_nat lo)) with (Z.of_nat (S lo)) by lia.
    cbn [foldl]. rewrite IH, bufferAt_drop.
    destruct (drop lo buffer) as [|x rest] eqn:E.
    + assert (drop (S lo) buffer = []) as ->.
      { apply drop_ge. apply drop_nil_inv in E. lia. }
      simpl. unfold darkBytes. rewrite !take_nil. simpl. lia.
    + assert (drop (S lo) buffer = rest) as ->.
      { rewrite <- (Nat.add_1_l lo), Nat.add_comm, <- drop_drop, E. reflexivity. }
      simpl. unfold darkBytes. rewrite filter_cons. unfold belowThreshold.
      destruct (Byte.to_N x <? 20)%N eqn:D.
      * rewrite decide_True by reflexivity. simpl length. lia.
      * rewrite decide_False by discriminate. lia.
Qed.

Lemma countBlack_window (buffer : list byte) :
  countBlack buffer (sampleSizeOf buffer)
  = Z.of_nat (darkBytes (sampleWindow buffer)).
Proof.
  unfold countBlack, forRange, sampleWindow.
  fold (sampleSizeOf buffer).
  replace (100 + sampleSizeOf buffer - 100) with (sampleSizeOf buffer) by lia.
  destruct (Z.le_gt_cases 0 (sampleSizeOf buffer)) as [Hs|Hs].
  - pose proof (countLoop_window buffer (Z.to_nat (sampleSizeOf buffer)) 100 0) as H.
    rewrite Z2Nat.id in H by lia. change (Z.of_nat 100) with 100 in H.
    rewrite H. lia.
  - replace (Z.to_nat (sampleSizeOf buffer)) with 0%nat by lia.
    rewrite take_0. unfold seqZ.
    replace (Z.to_nat (sampleSizeOf buffer)) with 0%nat by lia.
    reflexivity.
Qed.

Lemma sampleWindow_length (buffer : list byte) :
  Z.of_nat (length (sampleWindow buffer)) = Z.max (sampleSizeOf buffer) 0.
Proof.
  unfold sampleWindow. fold (sampleSizeOf buffer).
  rewrite length_take, length_drop. unfold sampleSizeOf. lia.
Qed.

Lemma darkBytes_le (window : list byte) :
  (darkBytes window <= length window)%nat.
Proof. unfold darkBytes. apply length_filter. Qed.

Lemma isImageBlack_exact (buffer : list byte) :
  isImageBlack buffer
  = (0 <? sampleSizeOf buffer) &&
    (9 * sampleSizeOf buffer <? 10 * Z.of_nat (darkBytes (sampleWindow buffer))).
Proof.
  unfold isImageBlack. rewrite countBlack_window.
  apply ratioExceeds09_exact.
  - apply sampleSizeOf_range.
  - pose proof (darkBytes_le (sampleWindow buffer)).
    pose proof (sampleWindow_length buffer). lia.
Qed.

End Guard.

(** ** Paths and directory listings *)

Section FsFacts.

Lemma append_cons (x : ascii) (a b : string) :
  String x a +:+ b = String x (a +:+ b).
Proof. reflexivity. Qed.

Lemma append_empty_l (b : string) : "" +:+ b = b.
Proof. reflexivity. Qed.

Lemma append_assoc (a b c : string) : (a +:+ b) +:+ c = a +:+ (b +:+ c).
Proof.
  induction a as [|x a IH]; [reflexivity|].
  rewrite !append_cons. now rewrite IH.
Qed.

Lemma stripPrefix_Some (p s r : string) :
  Fs.stripPrefix p s = Some r <-> s = p +:+ r.
Proof.
  revert s. induction p as [|a p IH]; intros s; simpl.
  - rewrite append_empty_l. split; [intros [= ->] | intros ->]; reflexivity.
  - rewrite append_cons. destruct s as [|b s]; [split; discriminate|].
    case_bool_decide as E.
    + subst b. rewrite IH. split; [intros ->; reflexivity | intros [= ->]; reflexivity].
    + split; [discriminate | intros [= ? ?]; congruence].
Qed.

Lemma pathJoin_inj (p : Platform) (dir a b : string) :
  Fs.pathJoin p dir a = Fs.pathJoin p dir b -> a = b.
Proof.
  unfold Fs.pathJoin. intros H.
  apply (inj (String.app dir)) in H. apply (inj (String.app (Fs.sep p))) in H.
  exact H.
Qed.

Lemma entryName_Some (p : Platform) (dir path name : string) :
  Fs.entryName p dir path = Some name <->
  path = Fs.pathJoin p dir name /\ Fs.plainName p name = true.
Proof.
  unfold Fs.entryName, Fs.pathJoin.
  destruct (Fs.stripPrefix (dir +:+ Fs.sep p) path) as [r|] eqn:E.
  - apply stripPrefix_Some in E. rewrite append_assoc in E. subst path.
    destruct (Fs.plainName p r) eqn:P.
    + split.
      * intros [= ->]. auto.
      * intros [H _]. apply (pathJoin_inj p dir) in H. now subst.
    + split; [discriminate|].
      intros [H Hp]. apply (pathJoin_inj p dir) in H. subst. congruence.
  - split; [discriminate|]. intros [-> _].
    rewrite <- append_assoc in E.
    assert (Some name = None) by (rewrite <- E; symmetry; now apply stripPrefix_Some).
    discriminate.
Qed.

(** [readdirSync] lists exactly the plain names that join to a node. *)
Lemma readdirSync_elem (p : Platform) (fs : Fs.t) (dir : string)
    (files : list string) (name : string) :
  Fs.readdirSync p fs dir = Some files ->
  name ∈ files <->
  is_Some (fs !! Fs.pathJoin p dir name) /\ Fs.plainName p name = true.
Proof.
  unfold Fs.readdirSync. destruct (fs !! dir) as [[|]|]; try discriminate.
  intros [= <-]. rewrite list_elem_of_omap. split.
  - intros (path & Hin & Hn). apply entryName_Some in Hn as [-> Hp].
    apply elem_of_elements, elem_of_dom in Hin. auto.
  - intros [Hs Hp]. exists (Fs.pathJoin p dir name). split.
    + now apply elem_of_elements, elem_of_dom.
    + now apply entryName_Some.
Qed.

End FsFacts.

(** ** The sweep *)

Section Sweep.

Import Webcam.
Variable m : Manager.
Variable now : Z.

Lemma sweepFile_lookup (fs : Fs.t) (file path : string) :
  sweepFile m now fs file !! path =
  match fs !! path with
  | Some n =>
      if JS.startsWith "capture_" file &&
         bool_decide (path = Fs.pathJoin (platform m) (capturesDir m) file) &&
         oldFile now n
      then None else Some n
  | None => None
  end.
Proof.
  unfold sweepFile, Fs.statSync, Fs.unlinkSync.
  destruct (JS.startsWith "capture_" file); simpl;
    [|destruct (fs !! path); reflexivity].
  set (filePath := Fs.pathJoin (platform m) (capturesDir m) file).
  case_bool_decide as E; simpl.
  - subst path. destruct (fs !! filePath) as [[mt bytes|mt]|] eqn:L; simpl.
    + destruct (now - mt >? thirtySeconds); [|exact L].
      apply lookup_delete_eq.
    + destruct (now - mt >? thirtySeconds); exact L.
    + exact L.
  - assert (Hsame : forall fs' : Fs.t,
               fs' = fs \/ fs' = delete filePath fs -> fs' !! path = fs !! path).
    { intros fs' [->| ->]; [reflexivity | now apply lookup_delete_ne]. }
    transitivity (fs !! path); [|destruct (fs !! path); reflexivity].
    apply Hsame.
    destruct (fs !! filePath) as [[mt bytes|mt]|]; simpl; auto;
      destruct (now - mt >? thirtySeconds); auto.
Qed.

Lemma sweep_fold_lookup (files : list string) (fs : Fs.t) (path : string) :
  foldl (sweepFile m now) fs files !! path =
  match fs !! path with
  | Some n => if sweepHits m files path && oldFile now n then None else Some n
  | None => None
  end.
Proof.
  revert fs. induction files as [|file files IH]; intros fs.
  - simpl. destruct (fs !! path); reflexivity.
  - change (foldl (sweepFile m now) fs (file :: files))
      with (foldl (sweepFile m now) (sweepFile m now fs file) files).
    rewrite IH, sweepFile_lookup.
    change (sweepHits m (file :: files) path)
      with (JS.startsWith "capture_" file &&
            bool_decide (path = Fs.pathJoin (platform m) (capturesDir m) file)
            || sweepHits m files path).
    destruct (fs !! path) as [n|]; [|reflexivity].
    destruct (JS.startsWith "capture_" file);
      destruct (bool_decide
                  (path = Fs.pathJoin (platform m) (capturesDir m) file));
      destruct (oldFile now n) eqn:O; simpl;
      rewrite ?O, ?Bool.andb_false_r; reflexivity.
Qed.

Lemma sweepHits_true (files : list string) (path : string) :
  sweepHits m files path = true <->
  exists file, file ∈ files /\ JS.startsWith "capture_" file = true /\
               path = Fs.pathJoin (platform m) (capturesDir m) file.
Proof.
  unfold sweepHits. rewrite existsb_exists. split.
  - intros (file & Hin & H). apply andb_prop in H as [H1 H2].
    apply bool_decide_eq_true in H2. exists file.
    rewrite list_elem_of_In. auto.
  - intros (file & Hin & H1 & H2). exists file. rewrite <- list_elem_of_In.
    split; [exact Hin|]. rewrite H1. now apply bool_decide_eq_true.
Qed.

(** The sweep as a function of the disk before it. *)
Lemma clearOldCaptures_lookup (fs fs' : Fs.t) (files : list string)
    (path : string) :
  Fs.readdirSync (platform m) fs (capturesDir m) = Some files ->
  clearOldCaptures m now fs = Some fs' ->
  fs' !! path =
  match fs !! path with
  | Some n => if sweepHits m files path && oldFile now n then None else Some n
  | None => None
  end.
Proof.
  intros Hdir. unfold clearOldCaptures. rewrite Hdir.
  destruct (negb (Fs.existsSync fs (capturesDir m))) eqn:E.
  - unfold Fs.readdirSync in Hdir. apply negb_true_iff in E.
    unfold Fs.existsSync in E. apply bool_decide_eq_false in E.
    destruct (fs !! capturesDir m) as [[|]|]; try discriminate.
    exfalso. apply E. eauto.
  - intros [= <-]. apply sweep_fold_lookup.
Qed.

(** Nothing the sweep leaves was not there before. *)
Lemma clearOldCaptures_shrinks (fs fs' : Fs.t) (path : string) (n : Fs.node) :
  clearOldCaptures m now fs = Some fs' ->
  fs' !! path = Some n -> fs !! path = Some n.
Proof.
  unfold clearOldCaptures.
  destruct (negb (Fs.existsSync fs (capturesDir m))); [now intros [= <-]|].
  destruct (Fs.readdirSync (platform m) fs (capturesDir m)); [|discriminate].
  intros [= <-]. rewrite sweep_fold_lookup.
  destruct (fs !! path) as [n'|]; [|discriminate].
  destruct (sweepHits m l path && oldFile now n'); [discriminate | auto].
Qed.

End Sweep.

(** C3: the guard answers true exactly when the sample window (the
    min(1000, length - 100) bytes from offset 100) is not empty and more
    than nine tenths of its bytes are below 20. *)
Theorem isImageBlack_iff_dark_fraction (buffer : list byte) :
  length (sampleWindow buffer)
    = Z.to_nat (Z.min 1000 (Z.of_nat (length buffer) - 100)) /\
  (Webcam.isImageBlack buffer = true <->
   (0 < length (sampleWindow buffer))%nat /\
   9 * Z.of_nat (length (sampleWindow buffer))
     < 10 * Z.of_nat (darkBytes (sampleWindow buffer))).
Proof.
  pose proof (sampleWindow_length buffer) as L.
  split.
  - unfold Webcam.sampleSizeOf in L. lia.
  - rewrite isImageBlack_exact, andb_true_iff, Z.ltb_lt, Z.ltb_lt. lia.
Qed.

(** C10: the guard's loop runs at most 1000 times and reads only
    positions inside the buffer, and a buffer of at most 100 bytes is
    never classified as black. *)
Theorem isImageBlack_total_in_bounds (buffer : list byte) :
  (length (Webcam.forRange 100 (100 + Webcam.sampleSizeOf buffer)) <= 1000)%nat /\
  Forall (fun i => 0 <= i < Z.of_nat (length buffer) /\
                   is_Some (Webcam.bufferAt buffer i))
         (Webcam.forRange 100 (100 + Webcam.sampleSizeOf buffer)) /\
  ((length buffer <= 100)%nat -> Webcam.isImageBlack buffer = false).
Proof.
  pose proof (sampleSizeOf_range buffer) as R.
  split; [|split].
  - unfold Webcam.forRange. rewrite length_seqZ. lia.
  - apply Forall_forall. intros i Hi.
    unfold Webcam.forRange in Hi. apply elem_of_seqZ in Hi.
    assert (Hb : 0 <= i < Z.of_nat (length buffer)).
    { unfold Webcam.sampleSizeOf in *. lia. }
    split; [exact Hb|].
    unfold Webcam.bufferAt.
    destruct (Z.ltb_spec i 0) as [?|_]; [lia|].
    apply lookup_lt_is_Some. lia.
  - intros Hlen. rewrite isImageBlack_exact.
    assert (Webcam.sampleSizeOf buffer <= 0)
      by (unfold Webcam.sampleSizeOf; lia).
    destruct (Z.ltb_spec 0 (Webcam.sampleSizeOf buffer)); [lia | reflexivity].
Qed.

Lemma isImageBlack_total_in_bounds_witness :
  (length (repeat x00 60) <= 100)%nat /\
  Webcam.isImageBlack (repeat x00 60) = false.
Proof.
  split.
  - simpl. lia.
  - apply (isImageBlack_total_in_bounds (repeat x00 60)).
    simpl. lia.
Defined.

(** C8: when the working directory exists, the sweep removes a node
    exactly when it is a file directly in that directory whose name starts
    with [capture_] and whose age exceeds thirty seconds; everything
    younger, everything of another name and everything elsewhere stays as
    it was, and nothing is created. *)
Theorem clearOldCaptures_removes_exactly (m : Manager) (now : Z) (fs : Fs.t)
    (d : Z) :
  fs !! capturesDir m = Some (Fs.Dir d) ->
  exists fs',
    Webcam.clearOldCaptures m now fs = Some fs' /\
    (forall path n, fs !! path = Some n ->
       sweepTarget m now path n -> fs' !! path = None) /\
    (forall path n, fs !! path = Some n ->
       ~ sweepTarget m now path n -> fs' !! path = Some n) /\
    (forall path, fs !! path = None -> fs' !! path = None) /\
    (forall path n, fs !! path = Some n ->
       now - Fs.mtimeOf n <= 30000 -> fs' !! path = Some n) /\
    (forall name n,
       fs !! Fs.pathJoin (platform m) (capturesDir m) name = Some n ->
       JS.startsWith "capture_" name = false ->
       fs' !! Fs.pathJoin (platform m) (capturesDir m) name = Some n).
Proof.
  intros Hdir.
  destruct (Fs.readdirSync (platform m) fs (capturesDir m)) as [files|] eqn:R;
    [|unfold Fs.readdirSync in R; rewrite Hdir in R; discriminate].
  destruct (Webcam.clearOldCaptures m now fs) as [fs'|] eqn:C;
    [|unfold Webcam.clearOldCaptures in C; rewrite R in C;
      destruct (negb _) in C; discriminate].
  exists fs'. split; [reflexivity|].
  pose proof (fun path => clearOldCaptures_lookup m now fs fs' files path R C)
    as L.
  assert (Hiff : forall path n, fs !! path = Some n ->
            sweepHits m files path && oldFile now n = true <->
            sweepTarget m now path n).
  { intros path n Hn. rewrite andb_true_iff, sweepHits_true. split.
    - intros [(file & Hin & Hs & ->) Hold].
      apply (readdirSync_elem _ _ _ _ _ R) in Hin as [_ Hp].
      destruct n as [mt bytes|mt]; [|discriminate].
      exists file, mt, bytes. repeat split; auto.
      unfold oldFile, Webcam.thirtySeconds in Hold. lia.
    - intros (name & mt & bytes & -> & Hp & Hs & -> & Hold). split.
      + exists name. repeat split; auto.
        apply (readdirSync_elem _ _ _ _ _ R). split; [eauto | exact Hp].
      + unfold oldFile, Webcam.thirtySeconds. lia. }
  assert (Hkeep : forall path n, fs !! path = Some n ->
            ~ sweepTarget m now path n -> fs' !! path = Some n).
  { intros path n Hn Hnot. rewrite L, Hn.
    destruct (sweepHits m files path && oldFile now n) eqn:E; [|reflexivity].
    exfalso. apply Hnot. now apply Hiff. }
  repeat split.
  - intros path n Hn Ht. rewrite L, Hn.
    apply (Hiff _ _ Hn) in Ht. now rewrite Ht.
  - exact Hkeep.
  - intros path Hn. now rewrite L, Hn.
  - intros path n Hn Hyoung. apply Hkeep; [exact Hn|].
    intros (name & mt & bytes & _ & _ & _ & -> & Hold). simpl in Hyoung. lia.
  - intros name n Hn Hs. apply Hkeep; [exact Hn|].
    intros (name' & mt & bytes & Hj & _ & Hs' & _).
    apply pathJoin_inj in Hj. subst. congruence.
Qed.

Lemma clearOldCaptures_removes_exactly_witness :
  sampleDisk !! capturesDir sampleManager = Some (Fs.Dir 0) /\
  exists fs',
    Webcam.clearOldCaptures sampleManager 1000000 sampleDisk = Some fs' /\
    fs' !! "/tmp/huely-captures/capture_1000_old.jpeg" = None /\
    fs' !! "/tmp/huely-captures/capture_990000_new.jpeg"
      = Some (Fs.File 990000 []) /\
    fs' !! "/tmp/huely-captures/notes.txt" = Some (Fs.File 1000 []).
Proof.
  split; [vm_compute; reflexivity|].
  destruct (clearOldCaptures_removes_exactly sampleManager 1000000 sampleDisk 0)
    as (fs' & Hrun & Hdel & _ & _ & Hyoung & Hname); [vm_compute; reflexivity|].
  exists fs'. split; [exact Hrun|]. split; [|split].
  - apply (Hdel _ (Fs.File 1000 [])); [vm_compute; reflexivity|].
    exists "capture_1000_old.jpeg", 1000, [].
    repeat split; try (vm_compute; reflexivity).
  - apply Hyoung; [vm_compute; reflexivity | vm_compute; discriminate].
  - apply (Hname "notes.txt"); vm_compute; reflexivity.
Defined.


(** ** Creating directories *)

Section Mkdir.

Import Webcam.
Variable m : Manager.
Variable env : AttemptEnv.

Lemma existsSync_true (fs : Fs.t) (path : string) :
  Fs.existsSync fs path = true <-> is_Some (fs !! path).
Proof. unfold Fs.existsSync. apply bool_decide_eq_true. Qed.

Lemma existsSync_false (fs : Fs.t) (path : string) :
  Fs.existsSync fs path = false <-> fs !! path = None.
Proof.
  unfold Fs.existsSync. rewrite bool_decide_eq_false.
  destruct (fs !! path); split; intros H; try reflexivity; try discriminate.
  - exfalso. apply H. eauto.
  - intros [? ?]. discriminate.
Qed.

Lemma mkdir_fold_lookup (now : Z) (l : list string) (fs : Fs.t) (q : string) :
  foldl (Fs.mkdirOne now) fs l !! q =
  match fs !! q with
  | Some n => Some n
  | None => if bool_decide (q ∈ l) then Some (Fs.Dir now) else None
  end.
Proof.
  revert fs. induction l as [|a l IH]; intros fs.
  - cbn [foldl]. destruct (fs !! q); [reflexivity|].
    rewrite bool_decide_eq_false_2; [reflexivity | apply not_elem_of_nil].
  - cbn [foldl]. rewrite IH. unfold Fs.mkdirOne.
    destruct (fs !! a) as [na|] eqn:La.
    + destruct (fs !! q) as [n|] eqn:Lq; [reflexivity|].
      assert (Hne : q <> a) by congruence.
      rewrite (bool_decide_ext (q ∈ a :: l) (q ∈ l)); [reflexivity|].
      rewrite elem_of_cons. tauto.
    + destruct (decide (q = a)) as [->|Hne].
      * rewrite lookup_insert_eq, La.
        now rewrite (bool_decide_eq_true_2 (a ∈ a :: l)) by left.
      * rewrite lookup_insert_ne by congruence.
        destruct (fs !! q); [reflexivity|].
        rewrite (bool_decide_ext (q ∈ a :: l) (q ∈ l)); [reflexivity|].
        rewrite elem_of_cons. tauto.
Qed.

(** What a recursive [mkdirSync] that returns has done. *)
Lemma mkdirSync_lookup (p : Platform) (fs fs' : Fs.t) (path : string)
    (now : Z) (q : string) :
  Fs.mkdirSync p fs path now = Some fs' ->
  fs' !! q =
  match fs !! q with
  | Some n => Some n
  | None => if bool_decide (q ∈ Fs.ancestors p path ++ [path])
            then Some (Fs.Dir now) else None
  end.
Proof.
  unfold Fs.mkdirSync. destruct (existsb _ _); [discriminate|].
  intros [= <-]. apply mkdir_fold_lookup.
Qed.

Lemma mkdirSync_throws (p : Platform) (fs : Fs.t) (path : string) (now : Z) :
  Fs.mkdirSync p fs path now = None <->
  exists a mtimeMs bytes,
    a ∈ Fs.ancestors p path ++ [path] /\
    fs !! a = Some (Fs.File mtimeMs bytes).
Proof.
  unfold Fs.mkdirSync.
  destruct (existsb (Fs.isFile fs) (Fs.ancestors p path ++ [path])) eqn:E.
  - split; [intros _|reflexivity].
    apply existsb_exists in E as (a & Hin & Ha). unfold Fs.isFile in Ha.
    destruct (fs !! a) as [[mt bytes|]|] eqn:L; try discriminate.
    exists a, mt, bytes. split; [now apply list_elem_of_In | exact L].
  - split; [discriminate|]. intros (a & mt & bytes & Hin & L).
    assert (existsb (Fs.isFile fs) (Fs.ancestors p path ++ [path]) = true);
      [|congruence].
    apply existsb_exists. exists a. split; [now apply list_elem_of_In|].
    unfold Fs.isFile. now rewrite L.
Qed.

Lemma prefixesBefore_proper (p : Platform) (rest pre a : string) :
  a ∈ Fs.prefixesBefore p pre rest ->
  exists r, r <> "" /\ pre +:+ rest = a +:+ r.
Proof.
  revert pre. induction rest as [|c rest IH]; intros pre; simpl.
  - intros H. inversion H.
  - rewrite elem_of_app. intros [H|H].
    + destruct (_ && _); [|inversion H].
      apply list_elem_of_singleton in H as ->.
      exists (String c rest). split; [discriminate | reflexivity].
    + destruct (IH _ H) as (r & Hr & E). exists r. split; [exact Hr|].
      now rewrite <- E, append_assoc.
Qed.

Lemma append_empty_r (a : string) : a +:+ "" = a.
Proof. induction a as [|x a IH]; [reflexivity|]. now rewrite append_cons, IH. Qed.

(** An ancestor is a proper prefix. *)
Lemma ancestors_proper (p : Platform) (path a : string) :
  a ∈ Fs.ancestors p path -> a <> path.
Proof.
  intros H. apply prefixesBefore_proper in H as (r & Hr & E).
  rewrite append_empty_l in E. intros ->.
  rewrite <- (append_empty_r path) in E at 1.
  apply (inj (String.app path)) in E. congruence.
Qed.

Lemma sweptDisk_dir (now : Z) (fs : Fs.t) (d : Z) :
  fs !! capturesDir m = Some (Fs.Dir d) ->
  sweptDisk m now fs !! capturesDir m = Some (Fs.Dir d).
Proof.
  intros L. unfold sweptDisk.
  destruct (clearOldCaptures m now fs) as [fs'|] eqn:C; [|exact L].
  unfold clearOldCaptures in C.
  destruct (negb (Fs.existsSync fs (capturesDir m))); [now injection C as <-|].
  destruct (Fs.readdirSync _ _ _) as [files|]; [|discriminate].
  injection C as <-. simpl. rewrite sweep_fold_lookup, L. simpl.
  now rewrite Bool.andb_false_r.
Qed.

Lemma sweptDisk_missing (now : Z) (fs : Fs.t) :
  fs !! capturesDir m = None -> sweptDisk m now fs = fs.
Proof.
  intros L. unfold sweptDisk, clearOldCaptures, Fs.existsSync.
  rewrite bool_decide_eq_false_2; [reflexivity|].
  rewrite L. intros [? ?]. discriminate.
Qed.

Lemma landFiles_other (written : list Written) (fs : Fs.t) (path : string) :
  Forall (fun w => w_path w <> path) written ->
  foldl landFile fs written !! path = fs !! path.
Proof.
  revert fs. induction written as [|w written IH]; intros fs H; simpl.
  - reflexivity.
  - inversion H as [|? ? Hw H']; subst. rewrite IH by exact H'.
    unfold landFile. now apply lookup_insert_ne.
Qed.

End Mkdir.

(** ** One capture attempt *)

Section Attempt.

Import Webcam.
Variable m : Manager.
Variable env : AttemptEnv.

Lemma pathJoin_nonempty (p : Platform) (dir name : string) :
  Fs.pathJoin p dir name <> "".
Proof.
  unfold Fs.pathJoin. destruct dir as [|c dir]; [|discriminate].
  rewrite append_empty_l. destruct p; discriminate.
Qed.

Lemma sweep_returns (now : Z) (fs : Fs.t) :
  workingDirOk m fs = true ->
  clearOldCaptures m now fs = Some (sweptDisk m now fs).
Proof.
  unfold workingDirOk, sweptDisk, clearOldCaptures, Fs.readdirSync, Fs.existsSync.
  destruct (fs !! capturesDir m) as [[|]|] eqn:L; try discriminate; intros _.
  - rewrite bool_decide_eq_true_2 by eauto. reflexivity.
  - rewrite bool_decide_eq_false_2 by (intros [? ?]; discriminate). reflexivity.
Qed.

(** On a usable working directory the [mkdirSync] of an attempt, if it is
    called, returns. *)
Lemma prepared_returns (fs : Fs.t) :
  workingDirOk m fs = true ->
  ensureDir m env (sweptDisk m (sweepNow env) fs)
  = Some (preparedDisk m env fs).
Proof.
  intros Hd. unfold preparedDisk.
  destruct (ensureDir m env (sweptDisk m (sweepNow env) fs)) as [fs1|] eqn:E;
    [reflexivity|].
  exfalso. revert E. unfold ensureDir, workingDirOk in *.
  destruct (fs !! capturesDir m) as [[|d]|] eqn:L; [discriminate| |].
  - rewrite (proj2 (existsSync_true _ _)); [discriminate|].
    rewrite (sweptDisk_dir m _ _ _ L). eauto.
  - rewrite (sweptDisk_missing m _ _ L).
    rewrite (proj2 (existsSync_false _ _) L). cbn [negb].
    unfold Fs.mkdirSync. rewrite existsb_app. cbn [existsb].
    apply negb_true_iff in Hd. rewrite Hd. unfold Fs.isFile. rewrite L.
    discriminate.
Qed.

(** What the prepared disk holds: every node of the swept disk, and
    nothing else but directories the [mkdirSync] created. *)
Lemma preparedDisk_keeps (fs : Fs.t) (q : string) (n : Fs.node) :
  sweptDisk m (sweepNow env) fs !! q = Some n ->
  preparedDisk m env fs !! q = Some n.
Proof.
  intros L. unfold preparedDisk, ensureDir.
  destruct (negb (Fs.existsSync _ _)); [|exact L].
  destruct (Fs.mkdirSync _ _ _ _) as [fs'|] eqn:E; [|exact L].
  change (default ?x (Some ?y)) with y. now rewrite (mkdirSync_lookup _ _ _ _ _ q E), L.
Qed.

Lemma preparedDisk_other (fs : Fs.t) (q : string) :
  q <> capturesDir m ->
  q ∉ Fs.ancestors (platform m) (capturesDir m) ->
  preparedDisk m env fs !! q = sweptDisk m (sweepNow env) fs !! q.
Proof.
  intros Hne Hanc. unfold preparedDisk, ensureDir.
  destruct (negb (Fs.existsSync _ _)); [|reflexivity].
  destruct (Fs.mkdirSync _ _ _ _) as [fs'|] eqn:E; [|reflexivity].
  change (default ?x (Some ?y)) with y. rewrite (mkdirSync_lookup _ _ _ _ _ q E).
  destruct (sweptDisk m (sweepNow env) fs !! q); [reflexivity|].
  rewrite bool_decide_eq_false_2; [reflexivity|].
  rewrite elem_of_app, list_elem_of_singleton. tauto.
Qed.

Lemma preparedDisk_exists (fs : Fs.t) :
  is_Some (fs !! capturesDir m) ->
  preparedDisk m env fs = sweptDisk m (sweepNow env) fs.
Proof.
  intros [n L]. unfold preparedDisk, ensureDir.
  assert (Hs : is_Some (sweptDisk m (sweepNow env) fs !! capturesDir m)).
  { destruct n as [mt bytes|d].
    - unfold sweptDisk, clearOldCaptures, Fs.readdirSync.
      rewrite (proj2 (existsSync_true _ _)) by eauto. rewrite L. simpl. eauto.
    - rewrite (sweptDisk_dir m _ _ _ L). eauto. }
  now rewrite (proj2 (existsSync_true _ _) Hs).
Qed.

Lemma preparedDisk_dir (fs : Fs.t) :
  workingDirOk m fs = true ->
  exists d, preparedDisk m env fs !! capturesDir m = Some (Fs.Dir d).
Proof.
  intros Hd. pose proof (prepared_returns fs Hd) as Hp.
  unfold workingDirOk in Hd.
  destruct (fs !! capturesDir m) as [[|d]|] eqn:L; [discriminate| |].
  - exists d. apply preparedDisk_keeps. exact (sweptDisk_dir m _ _ _ L).
  - exists (mkdirNow env). revert Hp. unfold ensureDir.
    rewrite (sweptDisk_missing m _ _ L).
    rewrite (proj2 (existsSync_false _ _) L). cbn [negb]. intros Hp.
    rewrite (mkdirSync_lookup _ _ _ _ _ (capturesDir m) Hp), L.
    rewrite bool_decide_eq_true_2; [reflexivity|].
    rewrite elem_of_app, list_elem_of_singleton. now right.
Qed.

(** The three ways a call of [captureImage] can go. *)
Lemma captureImage_blocked (fs : Fs.t) :
  workingDirOk m fs = false -> captureImage m env fs = (Pending, fs).
Proof.
  unfold workingDirOk, captureImage, clearOldCaptures, Fs.readdirSync.
  destruct (fs !! capturesDir m) as [[|d]|] eqn:L; try discriminate; intros Hd.
  - rewrite (proj2 (existsSync_true _ _)) by eauto. reflexivity.
  - rewrite (proj2 (existsSync_false _ _) L). cbn [negb].
    unfold ensureDir. rewrite (proj2 (existsSync_false _ _) L). cbn [negb].
    unfold Fs.mkdirSync. rewrite existsb_app.
    apply negb_false_iff in Hd. now rewrite Hd.
Qed.

Lemma captureImage_capture_error (fs : Fs.t) (message : string) :
  workingDirOk m fs = true ->
  cb_err (capture env (tempFilepathOf m env)) = Some message ->
  captureImage m env fs = (Rejected message, callbackDisk m env fs).
Proof.
  intros Hd He. unfold captureImage.
  rewrite (sweep_returns (sweepNow env) fs Hd), (prepared_returns fs Hd), He.
  reflexivity.
Qed.

(** When the attempt gets as far as the callback and the capture program
    reports no error, [captureImage] is the callback's [try] block on
    the disk it sees. *)
Lemma captureImage_callback (fs : Fs.t) :
  workingDirOk m fs = true ->
  cb_err (capture env (tempFilepathOf m env)) = None ->
  captureImage m env fs =
  match processCapture m env (uniqueIdOf env) (tempFilepathOf m env)
          (finalFilepathOf m env)
          (cb_data (capture env (tempFilepathOf m env)))
          (callbackDisk m env fs) with
  | (inr path, fs3) => (Resolved path, fs3)
  | (inl why, fs3) => (Rejected (processFailure why), fs3)
  end.
Proof.
  intros Hd He. unfold captureImage.
  rewrite (sweep_returns (sweepNow env) fs Hd), (prepared_returns fs Hd), He.
  reflexivity.
Qed.

(** Every way the [try] block can hand a path to [resolve]. *)
Lemma processCapture_resolved (uniqueId tempFilepath finalFilepath data : string)
    (fs fs' : Fs.t) (path : string) :
  processCapture m env uniqueId tempFilepath finalFilepath data fs
    = (inr path, fs') ->
  path = finalFilepath /\
  exists mtimeMs raw,
    fs !! resolveCaptured fs uniqueId tempFilepath data
      = Some (Fs.File mtimeMs raw) /\
    checkNow env - mtimeMs <= 5000 /\
    ((isBmp raw || isPpm raw = false /\
      isImageBlack raw = false /\
      Fs.renameSync fs (resolveCaptured fs uniqueId tempFilepath data)
        finalFilepath = Some fs') \/
     (isBmp raw || isPpm raw = true /\
      exists jpeg fsw,
        jimp env raw = inr jpeg /\
        Fs.writeFileSync fs finalFilepath (jimpWriteNow env) jpeg = Some fsw /\
        Fs.unlinkSync fsw (resolveCaptured fs uniqueId tempFilepath data)
          = Some fs' /\
        Fs.readFileSync fs' finalFilepath = Some jpeg /\
        isImageBlack jpeg = false)).
Proof.
  unfold processCapture.
  set (cp := resolveCaptured fs uniqueId tempFilepath data).
  destruct (negb (Fs.existsSync fs cp)).
  { destruct (Fs.readdirSync _ _ _); discriminate. }
  unfold Fs.statSync, Fs.readFileSync at 1.
  destruct (fs !! cp) as [[mt raw|mt]|] eqn:L; simpl; try discriminate.
  2:{ destruct (checkNow env - mt >? 5000); discriminate. }
  destruct (Z.gtb_spec (checkNow env - mt) 5000) as [?|Hfresh]; [discriminate|].
  destruct (isBmp raw || isPpm raw) eqn:B.
  - destruct (jimp env raw) as [why|jpeg] eqn:J; [discriminate|].
    destruct (Fs.writeFileSync fs finalFilepath (jimpWriteNow env) jpeg)
      as [fsw|] eqn:W; [|discriminate].
    destruct (Fs.unlinkSync fsw cp) as [fs2|] eqn:U; [|discriminate].
    destruct (Fs.readFileSync fs2 finalFilepath) as [finalBuffer|] eqn:R;
      [|discriminate].
    destruct (isImageBlack finalBuffer) eqn:K; [discriminate|].
    intros [= <- <-]. split; [reflexivity|].
    exists mt, raw. split; [reflexivity|]. split; [lia|]. right.
    split; [exact B|]. exists jpeg, fsw.
    assert (finalBuffer = jpeg) as ->; [|auto].
    unfold Fs.unlinkSync in U.
    destruct (fsw !! cp) as [[? ?|?]|]; try discriminate.
    injection U as <-. unfold Fs.readFileSync in R.
    unfold Fs.writeFileSync in W.
    destruct (fs !! finalFilepath) as [[? ?|?]|]; try discriminate;
      injection W as <-;
      (destruct (decide (cp = finalFilepath)) as [->|Hne];
       [rewrite lookup_delete_eq in R; discriminate
       |rewrite lookup_delete_ne, lookup_insert_eq in R by exact Hne;
        congruence]).
  - destruct (isImageBlack raw) eqn:K.
    + destruct (Fs.unlinkSync fs cp); discriminate.
    + destruct (Fs.renameSync fs cp finalFilepath) as [fs1|] eqn:Rn;
        [|discriminate].
      intros [= <- <-]. split; [reflexivity|].
      exists mt, raw. split; [reflexivity|]. split; [lia|]. left. auto.
Qed.

(** A stale candidate makes the [try] block throw before anything is
    read or changed. *)
Lemma processCapture_stale (uniqueId tempFilepath finalFilepath data : string)
    (fs : Fs.t) (n : Fs.node) :
  fs !! resolveCaptured fs uniqueId tempFilepath data = Some n ->
  checkNow env - Fs.mtimeOf n > 5000 ->
  processCapture m env uniqueId tempFilepath finalFilepath data fs
    = (inl (staleMessage (checkNow env - Fs.mtimeOf n)), fs).
Proof.
  intros L Hold. unfold processCapture.
  set (cp := resolveCaptured fs uniqueId tempFilepath data) in *.
  assert (Fs.existsSync fs cp = true) as -> by (apply existsSync_true; eauto).
  simpl. unfold Fs.statSync. rewrite L. simpl.
  destruct (Z.gtb_spec (checkNow env - Fs.mtimeOf n) 5000); [reflexivity | lia].
Qed.

Lemma captureImage_stale (fs : Fs.t) (n : Fs.node) :
  workingDirOk m fs = true ->
  cb_err (capture env (tempFilepathOf m env)) = None ->
  callbackDisk m env fs !! capturedPathOf m env (callbackDisk m env fs)
    = Some n ->
  checkNow env - Fs.mtimeOf n > 5000 ->
  captureImage m env fs
  = (Rejected (processFailure (staleMessage (checkNow env - Fs.mtimeOf n))),
     callbackDisk m env fs).
Proof.
  intros Hd He Hn Hold.
  rewrite (captureImage_callback fs Hd He).
  unfold capturedPathOf, callbackDisk in Hn.
  now rewrite (processCapture_stale _ _ _ _ _ n Hn Hold).
Qed.

(** A resolved attempt: the sweep returned, the capture program reported
    no error, and the [try] block went through one of its two branches. *)
Lemma captureImage_resolved_inv (fs : Fs.t) (path : string) (fs' : Fs.t) :
  captureImage m env fs = (Resolved path, fs') ->
  workingDirOk m fs = true /\
  cb_err (capture env (tempFilepathOf m env)) = None /\
  path = finalFilepathOf m env /\
  exists mtimeMs raw,
    callbackDisk m env fs !! capturedPathOf m env (callbackDisk m env fs)
      = Some (Fs.File mtimeMs raw) /\
    checkNow env - mtimeMs <= 5000 /\
    ((isBmp raw || isPpm raw = false /\
      isImageBlack raw = false /\
      Fs.renameSync (callbackDisk m env fs)
        (capturedPathOf m env (callbackDisk m env fs)) (finalFilepathOf m env)
        = Some fs') \/
     (isBmp raw || isPpm raw = true /\
      exists jpeg fsw,
        jimp env raw = inr jpeg /\
        Fs.writeFileSync (callbackDisk m env fs) (finalFilepathOf m env)
          (jimpWriteNow env) jpeg = Some fsw /\
        Fs.unlinkSync fsw (capturedPathOf m env (callbackDisk m env fs))
          = Some fs' /\
        Fs.readFileSync fs' (finalFilepathOf m env) = Some jpeg /\
        isImageBlack jpeg = false)).
Proof.
  intros Hr.
  destruct (workingDirOk m fs) eqn:Hd.
  2:{ rewrite (captureImage_blocked fs Hd) in Hr. discriminate. }
  destruct (cb_err (capture env (tempFilepathOf m env))) as [e|] eqn:He.
  { rewrite (captureImage_capture_error fs e Hd He) in Hr. discriminate. }
  rewrite (captureImage_callback fs Hd He) in Hr.
  destruct (processCapture _ _ _ _ _ _ _) as [[why|p] fs3] eqn:P;
    [discriminate|].
  injection Hr as -> ->.
  apply processCapture_resolved in P as (-> & mt & raw & L & Hfresh & Hbr).
  repeat split; try reflexivity.
  exists mt, raw. auto.
Qed.

End Attempt.

(** ** Format detection *)

Lemma byteIs_true (v : option byte) (b : byte) :
  Webcam.byteIs v (Byte.to_N b) = true <-> v = Some b.
Proof.
  unfold Webcam.byteIs. destruct v as [c|]; [|split; discriminate].
  rewrite N.eqb_eq. split.
  - intros H. f_equal.
    pose proof (Byte.of_to_N c) as Hc. rewrite H, Byte.of_to_N in Hc.
    congruence.
  - intros [= ->]. reflexivity.
Qed.

Lemma magic_take2 (raw : list byte) (a b : byte) :
  Webcam.byteIs (Webcam.bufferAt raw 0) (Byte.to_N a) &&
  Webcam.byteIs (Webcam.bufferAt raw 1) (Byte.to_N b) = true <->
  take 2 raw = [a; b].
Proof.
  rewrite andb_true_iff, !byteIs_true. unfold Webcam.bufferAt. simpl.
  destruct raw as [|x [|y raw]]; simpl; split;
    try (intros [? ?]; discriminate); try discriminate.
  - intros [[= ->] [= ->]]. reflexivity.
  - intros [= -> ->]. auto.
Qed.

Lemma isBmp_magic (raw : list byte) :
  Webcam.isBmp raw = true <-> take 2 raw = [x42; x4d].
Proof. apply (magic_take2 raw x42 x4d). Qed.

Lemma isPpm_magic (raw : list byte) :
  Webcam.isPpm raw = true <-> take 2 raw = [x50; x36].
Proof. apply (magic_take2 raw x50 x36). Qed.

(** A run is its outcome paired with the disk it left. *)
Lemma settled_with (run : Settled * Fs.t) (o : Settled) :
  fst run = o -> run = (o, snd run).
Proof. destruct run; simpl; congruence. Qed.

(** C5: a resolved candidate more than 5000 ms old makes the attempt
    fail with the stale message whatever its bytes are, leaving the disk as
    the callback found it; and an attempt that resolves has found a
    candidate file at most 5000 ms old. *)
Theorem stale_artifact_rejected (m : Manager) (env : AttemptEnv) (fs : Fs.t) :
  (forall n,
     workingDirOk m fs = true ->
     cb_err (capture env (Webcam.tempFilepathOf m env)) = None ->
     callbackDisk m env fs !! capturedPathOf m env (callbackDisk m env fs)
       = Some n ->
     checkNow env - Fs.mtimeOf n > 5000 ->
     Webcam.captureImage m env fs
     = (Rejected (processFailure
                    (Webcam.staleMessage (checkNow env - Fs.mtimeOf n))),
        callbackDisk m env fs)) /\
  (forall path fs',
     Webcam.captureImage m env fs = (Resolved path, fs') ->
     exists mtimeMs raw,
       callbackDisk m env fs !! capturedPathOf m env (callbackDisk m env fs)
         = Some (Fs.File mtimeMs raw) /\
       checkNow env - mtimeMs <= 5000).
Proof.
  split.
  - intros n Hd He Hn Hold. now apply captureImage_stale.
  - intros path fs' Hr.
    destruct (captureImage_resolved_inv m env fs path fs' Hr)
      as (_ & _ & _ & mt & raw & L & Hfresh & _).
    exists mt, raw. split; [exact L | exact Hfresh].
Qed.

Lemma stale_artifact_rejected_witness :
  fst (Webcam.captureImage sampleManager (sampleEnv 1000000 6000 brightJpeg)
         sampleDisk)
  = Rejected "Failed to process captured image: Error: Captured image appears to be stale (6000ms old). This might be a previous capture." /\
  exists mtimeMs raw,
    callbackDisk sampleManager (sampleEnv 1000000 100 brightJpeg) sampleDisk
      !! capturedPathOf sampleManager (sampleEnv 1000000 100 brightJpeg)
           (callbackDisk sampleManager (sampleEnv 1000000 100 brightJpeg)
              sampleDisk)
    = Some (Fs.File mtimeMs raw) /\
    checkNow (sampleEnv 1000000 100 brightJpeg) - mtimeMs <= 5000.
Proof.
  split.
  - rewrite (proj1 (stale_artifact_rejected sampleManager
                      (sampleEnv 1000000 6000 brightJpeg) sampleDisk)
               (Fs.File 995500 brightJpeg)); evaluate.
  - apply (proj2 (stale_artifact_rejected sampleManager
                    (sampleEnv 1000000 100 brightJpeg) sampleDisk)
             (Webcam.finalFilepathOf sampleManager
                (sampleEnv 1000000 100 brightJpeg))
             (snd (Webcam.captureImage sampleManager
                     (sampleEnv 1000000 100 brightJpeg) sampleDisk))).
    apply settled_with. evaluate.
Defined.

(** ** Resolving the captured path *)

Section Probing.

Import Webcam.
Variable fs : Fs.t.
Variables uniqueId baseFilepath capturedPath : string.



End Probing.

Section WorkingDir.

Import Webcam.
Variable m : Manager.
Variable env : AttemptEnv.

(** The callback finds the working directory in place unless the capture
    program wrote over it. *)
Lemma callbackDisk_dir (fs : Fs.t) :
  workingDirOk m fs = true ->
  Forall (fun w => w_path w <> capturesDir m)
         (cb_written (capture env (tempFilepathOf m env))) ->
  exists d, callbackDisk m env fs !! capturesDir m = Some (Fs.Dir d).
Proof.
  intros Hd Hw. unfold callbackDisk, afterCapture.
  rewrite landFiles_other by exact Hw.
  now apply preparedDisk_dir.
Qed.

End WorkingDir.

Lemma capturedPathOf_eq (m : Manager) (env : AttemptEnv) (fs : Fs.t) :
  capturedPathOf m env fs =
  if negb (Fs.existsSync fs (reportedPathOf m env))
  then Webcam.probe fs (Webcam.uniqueIdOf env)
         (JS.stripImageSuffix (Webcam.tempFilepathOf m env))
         Webcam.extensions (reportedPathOf m env)
  else reportedPathOf m env.
Proof. reflexivity. Qed.

(** ** The candidate the callback settles on *)

Section Candidate.

Import Webcam.
Variable m : Manager.
Variable env : AttemptEnv.
Variable fs : Fs.t.
Variable cand : string.
Variable mtimeMs : Z.
Variable raw : list byte.
Hypothesis dirOk : workingDirOk m fs = true.
Hypothesis noError : cb_err (capture env (tempFilepathOf m env)) = None.
Hypothesis taken : capturedPathOf m env (callbackDisk m env fs) = cand.
Hypothesis there : callbackDisk m env fs !! cand = Some (Fs.File mtimeMs raw).
Hypothesis fresh : checkNow env - mtimeMs <= 5000.





End Candidate.



(** The scenario of the specification: the reported path is missing, a
    sibling with [.jpg] and the session identifier is there, and the
    attempt resolves. *)
Example sibling_recovered :
  Fs.existsSync
    (callbackDisk sampleMac (siblingEnv 1000000 brightJpeg) sampleDisk)
    (reportedPathOf sampleMac (siblingEnv 1000000 brightJpeg)) = false /\
  fst (Webcam.captureImage sampleMac (siblingEnv 1000000 brightJpeg) sampleDisk)
  = Resolved "/tmp/huely-captures/capture_1000000_k3x9qa.jpeg".
Proof. evaluate_all. Qed.

(** C7: an attempt that resolves from a raw capture starting with neither
    the BMP nor the PPM magic leaves that very file (same bytes, same
    modification time) at the final path and nothing at the captured path;
    a raw capture starting with either magic is replaced by what Jimp
    encoded. *)
Theorem normalization_preserves_bytes (m : Manager) (env : AttemptEnv)
    (fs : Fs.t) (path : string) (fs' : Fs.t) (mtimeMs : Z) (raw : list byte) :
  Webcam.captureImage m env fs = (Resolved path, fs') ->
  callbackDisk m env fs !! capturedPathOf m env (callbackDisk m env fs)
    = Some (Fs.File mtimeMs raw) ->
  path = Webcam.finalFilepathOf m env /\
  (take 2 raw <> [x42; x4d] -> take 2 raw <> [x50; x36] ->
   fs' !! path = Some (Fs.File mtimeMs raw) /\
   (capturedPathOf m env (callbackDisk m env fs) <> path ->
    fs' !! capturedPathOf m env (callbackDisk m env fs) = None)) /\
  (take 2 raw = [x42; x4d] \/ take 2 raw = [x50; x36] ->
   exists jpeg,
     jimp env raw = inr jpeg /\
     fs' !! path = Some (Fs.File (jimpWriteNow env) jpeg) /\
     fs' !! capturedPathOf m env (callbackDisk m env fs) = None).
Proof.
  intros Hr L.
  destruct (captureImage_resolved_inv m env fs path fs' Hr)
    as (_ & _ & -> & mt & raw' & L' & _ & Hbr).
  rewrite L in L'. injection L' as <- <-.
  set (cd := callbackDisk m env fs) in *.
  set (cp := capturedPathOf m env cd) in *.
  set (final := Webcam.finalFilepathOf m env) in *.
  assert (Hmagic : Webcam.isBmp raw || Webcam.isPpm raw = true <->
                   take 2 raw = [x42; x4d] \/ take 2 raw = [x50; x36]).
  { rewrite orb_true_iff, isBmp_magic, isPpm_magic. reflexivity. }
  split; [reflexivity|]. split.
  - intros Hb Hp.
    destruct Hbr as [(_ & _ & Hren)|(B & _)];
      [|apply Hmagic in B as [?|?]; contradiction].
    unfold Fs.renameSync in Hren. rewrite L in Hren.
    destruct (cd !! final) as [[? ?|?]|]; try discriminate;
      injection Hren as <-;
      (split; [apply lookup_insert_eq|];
       intros Hne; rewrite lookup_insert_ne by congruence;
       apply lookup_delete_eq).
  - intros Hm. apply Hmagic in Hm.
    destruct Hbr as [(B & _)|(_ & jpeg & fsw & J & W & U & R & _)];
      [congruence|].
    exists jpeg. split; [exact J|].
    unfold Fs.unlinkSync in U.
    destruct (fsw !! cp) as [[? ?|?]|]; try discriminate.
    injection U as <-.
    assert (Hne : cp <> final).
    { intros E. unfold Fs.readFileSync in R.
      rewrite E, lookup_delete_eq in R. discriminate. }
    split; [|apply lookup_delete_eq].
    rewrite lookup_delete_ne by exact Hne.
    unfold Fs.writeFileSync in W.
    destruct (cd !! final) as [[? ?|?]|]; try discriminate;
      injection W as <-; apply lookup_insert_eq.
Qed.

Lemma normalization_preserves_bytes_witness :
  snd (Webcam.captureImage sampleManager (sampleEnv 1000000 100 brightJpeg)
         sampleDisk)
    !! Webcam.finalFilepathOf sampleManager (sampleEnv 1000000 100 brightJpeg)
  = Some (Fs.File 1001400 brightJpeg) /\
  exists jpeg,
    jimp (sampleEnv 1000000 100 brightBmp) brightBmp = inr jpeg /\
    snd (Webcam.captureImage sampleManager (sampleEnv 1000000 100 brightBmp)
           sampleDisk)
      !! Webcam.finalFilepathOf sampleManager (sampleEnv 1000000 100 brightBmp)
    = Some (Fs.File (jimpWriteNow (sampleEnv 1000000 100 brightBmp)) jpeg).
Proof.
  split.
  - destruct (normalization_preserves_bytes sampleManager
                (sampleEnv 1000000 100 brightJpeg) sampleDisk
                (Webcam.finalFilepathOf sampleManager
                   (sampleEnv 1000000 100 brightJpeg))
                (snd (Webcam.captureImage sampleManager
                        (sampleEnv 1000000 100 brightJpeg) sampleDisk))
                1001400 brightJpeg)
      as (_ & Hkeep & _).
    + apply settled_with. vm_compute. reflexivity.
    + vm_compute. reflexivity.
    + apply Hkeep; vm_compute; discriminate.
  - destruct (normalization_preserves_bytes sampleManager
                (sampleEnv 1000000 100 brightBmp) sampleDisk
                (Webcam.finalFilepathOf sampleManager
                   (sampleEnv 1000000 100 brightBmp))
                (snd (Webcam.captureImage sampleManager
                        (sampleEnv 1000000 100 brightBmp) sampleDisk))
                1001400 brightBmp)
      as (_ & _ & Hconv).
    + apply settled_with. vm_compute. reflexivity.
    + vm_compute. reflexivity.
    + destruct Hconv as (jpeg & J & Hfin & _); [left; vm_compute; reflexivity|].
      exists jpeg. split; [exact J | exact Hfin].
Defined.

(** ** Device listing *)

Lemma fallbackDevices_nonempty (env : Webcam.ListEnv) :
  Webcam.fallbackDevices env <> [].
Proof.
  unfold Webcam.fallbackDevices.
  destruct (Webcam.webcamList env) as [[|device rest]|]; discriminate.
Qed.

(** C9: [listDevices] never returns an empty list, and when neither the
    /dev/video probing (tried on Linux only) nor the node-webcam listing
    yields a device the result is the single default device. *)
Theorem listDevices_never_empty (p : Platform) (fs : Fs.t)
    (env : Webcam.ListEnv) :
  Webcam.listDevices p fs env <> [] /\
  (p <> linux \/ Webcam.linuxDevices fs = [] ->
   Webcam.webcamList env = None \/ Webcam.webcamList env = Some [] ->
   Webcam.listDevices p fs env = [{| name := "Default Camera"; id := "0" |}]).
Proof.
  split.
  - unfold Webcam.listDevices.
    destruct p; try apply fallbackDevices_nonempty.
    destruct (Z.ltb_spec 0 (Z.of_nat (length (Webcam.linuxDevices fs))))
      as [Hlen|_]; [|apply fallbackDevices_nonempty].
    destruct (Webcam.linuxDevices fs); [simpl in Hlen; lia | discriminate].
  - intros Hnative Hlist.
    assert (Hfall : Webcam.fallbackDevices env
                    = [{| name := "Default Camera"; id := "0" |}]).
    { unfold Webcam.fallbackDevices. destruct Hlist as [-> | ->]; reflexivity. }
    unfold Webcam.listDevices.
    destruct p; try exact Hfall.
    destruct Hnative as [Hp | ->]; [congruence | exact Hfall].
Qed.

Lemma listDevices_never_empty_witness :
  Webcam.listDevices linux sampleDisk
    {| Webcam.cameraNames := []; Webcam.webcamList := Some [] |}
  = [{| name := "Default Camera"; id := "0" |}].
Proof.
  apply (proj2 (listDevices_never_empty linux sampleDisk
                  {| Webcam.cameraNames := []; Webcam.webcamList := Some [] |})).
  - right. vm_compute. reflexivity.
  - right. reflexivity.
Defined.

(** What the two enumerations produce when they do find devices. *)
Example listDevices_linux_nodes :
  Webcam.listDevices linux
    {[ "/dev/video0" := Fs.File 0 []; "/dev/video2" := Fs.File 0 [] ]}
    {| Webcam.cameraNames := []; Webcam.webcamList := None |}
  = [{| name := "USB Camera (video0)"; id := "0" |};
     {| name := "USB Camera (video2)"; id := "2" |}].
Proof. vm_compute. reflexivity. Qed.

Example listDevices_named_and_generated :
  Webcam.listDevices win32 sampleDisk
    {| Webcam.cameraNames := ["HD Webcam"];
       Webcam.webcamList := Some ["1"; "2"; ""] |}
  = [{| name := "HD Webcam"; id := "1" |};
     {| name := "Webcam 3 (Device 2)"; id := "2" |};
     {| name := "Camera 3"; id := "2" |}].
Proof. vm_compute. reflexivity. Qed.

(** ** The retry loop *)

Section Loop.

Variable m : Manager.
Variable envs : nat -> AttemptEnv.
Variable fs : Fs.t.

Lemma replay_snoc (k n : nat) (d : Fs.t) :
  replay m envs k (S n) d =
  (fst (replay m envs k n d)
     ++ [fst (Webcam.captureImage m (envs (k + n)%nat)
                (snd (replay m envs k n d)))],
   snd (Webcam.captureImage m (envs (k + n)%nat) (snd (replay m envs k n d)))).
Proof.
  revert k d. induction n as [|n IH]; intros k d.
  - simpl. now rewrite Nat.add_0_r.
  - change (replay m envs k (S (S n)) d)
      with (fst (Webcam.captureImage m (envs k) d)
              :: fst (replay m envs (S k) (S n)
                        (snd (Webcam.captureImage m (envs k) d))),
            snd (replay m envs (S k) (S n)
                   (snd (Webcam.captureImage m (envs k) d)))).
    rewrite IH. simpl. now rewrite Nat.add_succ_r.
Qed.

Lemma sleeps_app (a b : list Cli.UiEvent) :
  sleeps (a ++ b) = sleeps a ++ sleeps b.
Proof. unfold sleeps. apply omap_app. Qed.

Lemma replicate_snoc (n : nat) (x : Z) :
  replicate n x ++ [x] = replicate (S n) x.
Proof. induction n as [|n IH]; simpl; [reflexivity | now rewrite IH]. Qed.

Lemma resolved_nonempty (env : AttemptEnv) (d : Fs.t) (path : string)
    (d' : Fs.t) :
  Webcam.captureImage m env d = (Resolved path, d') -> path <> "".
Proof.
  intros H. apply captureImage_resolved_inv in H as (_ & _ & -> & _).
  apply pathJoin_nonempty.
Qed.

(** One more call appended to a replayed history. *)
Lemma replay_extend (st : Cli.LoopState) (o : Settled) (d : Fs.t) :
  (Cli.outcomes st, Cli.disk st) = replay m envs 0 (Cli.calls st) fs ->
  Webcam.captureImage m (envs (Cli.calls st)) (Cli.disk st) = (o, d) ->
  (Cli.outcomes st ++ [o], d)
  = replay m envs 0 (length (Cli.outcomes st ++ [o])) fs.
Proof.
  intros Hrep Hrun. rewrite length_app. simpl.
  fold (Cli.calls st). rewrite Nat.add_1_r, replay_snoc. simpl.
  rewrite <- Hrep. simpl. now rewrite Hrun.
Qed.

Lemma retryLoop_settles (fuel : nat) (st : Cli.LoopState) :
  retrying m envs fs st ->
  (3 - Cli.calls st < fuel)%nat ->
  settledRun m envs fs (Cli.retryLoop fuel m envs st).
Proof.
  revert st. induction fuel as [|fuel IH]; intros st Hinv Hfuel; [lia|].
  destruct Hinv as (Himg & Hrc & Hcalls & Hblack & Hsleep & Hrep).
  cbn [Cli.retryLoop]. rewrite Himg. cbn [Cli.falsy andb].
  assert ((Cli.retryCount st <? Cli.maxRetries) = true) as ->.
  { apply Z.ltb_lt. unfold Cli.maxRetries. lia. }
  destruct (Webcam.captureImage m (envs (Cli.calls st)) (Cli.disk st))
    as [[path|message|] d] eqn:Hrun.
  - (* resolved: one more round sees the path and leaves the loop *)
    pose proof (resolved_nonempty _ _ _ _ Hrun) as Hne.
    destruct fuel as [|fuel]; [lia|].
    cbn [Cli.retryLoop Cli.imagePath Cli.falsy].
    rewrite bool_decide_eq_false_2 by exact Hne. cbn [andb].
    match goal with
    | |- settledRun _ _ _ (Cli.Finished ?s) =>
        exists s, (Cli.outcomes st), (Resolved path)
    end.
    cbn [Cli.outcomes Cli.events Cli.disk Cli.imagePath].
    split; [reflexivity|]. split; [exact Hcalls|]. split; [exact Hblack|].
    split; [rewrite sleeps_app, Hsleep; simpl; now rewrite app_nil_r|].
    split; [unfold Cli.calls; cbn [Cli.outcomes]; now apply replay_extend|].
    auto.
  - destruct (JS.includes "black" message) eqn:Hinc;
      [destruct (Z.ltb_spec (Cli.retryCount st + 1) Cli.maxRetries)
         as [Hleft|Hlast]|]; cbn [andb].
    + (* black and retries left: pause, then go round again *)
      apply IH.
      * unfold retrying, Cli.calls.
        cbn [Cli.outcomes Cli.events Cli.disk Cli.imagePath Cli.retryCount].
        rewrite length_app. simpl. fold (Cli.calls st).
        unfold Cli.maxRetries in Hleft.
        split; [reflexivity|]. split; [lia|]. split; [lia|].
        split; [apply Forall_app; split; [exact Hblack|];
                repeat constructor; exists message; auto|].
        split; [rewrite sleeps_app, Hsleep; simpl;
                rewrite Nat.add_1_r; apply replicate_snoc|].
        replace (Cli.calls st + 1)%nat
          with (length (Cli.outcomes st ++ [Rejected message]))
          by (rewrite length_app; reflexivity).
        now apply replay_extend.
      * unfold Cli.calls. cbn [Cli.outcomes]. rewrite length_app. simpl.
        fold (Cli.calls st). lia.
    + (* black on the last permitted call *)
      match goal with
      | |- settledRun _ _ _ (Cli.Thrown _ ?s) =>
          exists s, (Cli.outcomes st), (Rejected message)
      end.
      cbn [Cli.outcomes Cli.events Cli.disk Cli.imagePath].
      split; [reflexivity|]. split; [exact Hcalls|]. split; [exact Hblack|].
      split; [rewrite sleeps_app, Hsleep; simpl; now rewrite app_nil_r|].
      split; [unfold Cli.calls; cbn [Cli.outcomes]; now apply replay_extend|].
      split; [reflexivity|]. right.
      unfold Cli.maxRetries, Cli.calls in *. lia.
    + (* any other message: thrown at once *)
      match goal with
      | |- settledRun _ _ _ (Cli.Thrown _ ?s) =>
          exists s, (Cli.outcomes st), (Rejected message)
      end.
      cbn [Cli.outcomes Cli.events Cli.disk Cli.imagePath].
      split; [reflexivity|]. split; [exact Hcalls|]. split; [exact Hblack|].
      split; [rewrite sleeps_app, Hsleep; simpl; now rewrite app_nil_r|].
      split; [unfold Cli.calls; cbn [Cli.outcomes]; now apply replay_extend|].
      auto.
  - match goal with
    | |- settledRun _ _ _ (Cli.Hung ?s) =>
        exists s, (Cli.outcomes st), Pending
    end.
    cbn [Cli.outcomes Cli.events Cli.disk Cli.imagePath].
    split; [reflexivity|]. split; [exact Hcalls|]. split; [exact Hblack|].
    split; [exact Hsleep|].
    split; [unfold Cli.calls; cbn [Cli.outcomes]; now apply replay_extend|].
    reflexivity.
Qed.

Lemma initialState_retrying : retrying m envs fs (Cli.initialState fs).
Proof.
  unfold retrying, Cli.initialState, Cli.calls. simpl.
  repeat split; try reflexivity; [lia | constructor].
Qed.

Lemma captureWithRetries_settles :
  settledRun m envs fs (Cli.captureWithRetries m envs fs).
Proof.
  pose proof (retryLoop_settles 4 (Cli.initialState fs) initialState_retrying)
    as H.
  assert (Hfuel : (3 - Cli.calls (Cli.initialState fs) < 4)%nat)
    by (unfold Cli.calls; simpl; lia).
  specialize (H Hfuel). unfold Cli.captureWithRetries.
  destruct H as (st & pre & last & Hout & Hlen & Hpre & Hsl & Hrep & Hlast).
  exists st, pre, last. repeat (split; [assumption|]).
  destruct last as [path|message|].
  - destruct Hlast as (-> & Himg & Hne). rewrite Himg. cbn [Cli.falsy].
    rewrite bool_decide_eq_false_2 by exact Hne. auto.
  - destruct Hlast as (-> & Hwhy). auto.
  - now rewrite Hlast.
Qed.

End Loop.

(** ** An attempt whose capture program wrote one file and reported it *)

Section OneFile.

Import Webcam.
Variable m : Manager.
Variable env : AttemptEnv.
Variable fs : Fs.t.
Variable w : Written.
Hypothesis dirOk : workingDirOk m fs = true.
Hypothesis oneFile : reportsOneFile m env w.

Lemma callbackDisk_oneFile :
  callbackDisk m env fs
  = <[w_path w := Fs.File (w_mtimeMs w) (w_bytes w)]> (preparedDisk m env fs).
Proof.
  destruct oneFile as (_ & Hw & _).
  unfold callbackDisk, afterCapture. rewrite Hw. reflexivity.
Qed.

Lemma capturedPathOf_oneFile :
  capturedPathOf m env (callbackDisk m env fs) = w_path w.
Proof.
  destruct oneFile as (_ & _ & Hrep & _).
  rewrite capturedPathOf_eq, Hrep.
  assert (Fs.existsSync (callbackDisk m env fs) (w_path w) = true) as ->.
  { apply existsSync_true. rewrite callbackDisk_oneFile, lookup_insert_eq. eauto. }
  reflexivity.
Qed.

Lemma callbackDisk_file :
  callbackDisk m env fs !! w_path w
  = Some (Fs.File (w_mtimeMs w) (w_bytes w)).
Proof. rewrite callbackDisk_oneFile. apply lookup_insert_eq. Qed.

(** The [try] block up to the point where the format is looked at. *)
Lemma captureImage_fresh :
  checkNow env - w_mtimeMs w <= 5000 ->
  captureImage m env fs =
  match
    (if isBmp (w_bytes w) || isPpm (w_bytes w) then
       match jimp env (w_bytes w) with
       | inl why => (inl why, callbackDisk m env fs)
       | inr jpeg =>
           match Fs.writeFileSync (callbackDisk m env fs)
                   (finalFilepathOf m env) (jimpWriteNow env) jpeg with
           | None =>
               (inl (Fs.whyThrown "open" (callbackDisk m env fs)
                       (finalFilepathOf m env)), callbackDisk m env fs)
           | Some fs1 =>
               match Fs.unlinkSync fs1 (w_path w) with
               | None => (inl (Fs.whyThrown "unlink" fs1 (w_path w)), fs1)
               | Some fs2 =>
                   match Fs.readFileSync fs2 (finalFilepathOf m env) with
                   | None =>
                       (inl (Fs.whyThrown "open" fs2 (finalFilepathOf m env)),
                        fs2)
                   | Some finalBuffer =>
                       if isImageBlack finalBuffer
                       then (inl blackMessage, fs2)
                       else (inr (finalFilepathOf m env), fs2)
                   end
               end
           end
       end
     else if isImageBlack (w_bytes w) then
       match Fs.unlinkSync (callbackDisk m env fs) (w_path w) with
       | None =>
           (inl (Fs.whyThrown "unlink" (callbackDisk m env fs) (w_path w)),
            callbackDisk m env fs)
       | Some fs1 => (inl blackMessage, fs1)
       end
     else
       match Fs.renameSync (callbackDisk m env fs) (w_path w)
               (finalFilepathOf m env) with
       | None =>
           (inl (Fs.whyThrown "rename" (callbackDisk m env fs) (w_path w)),
            callbackDisk m env fs)
       | Some fs1 => (inr (finalFilepathOf m env), fs1)
       end)
  with
  | (inr path, fs3) => (Resolved path, fs3)
  | (inl why, fs3) => (Rejected (processFailure why), fs3)
  end.
Proof.
  intros Hfresh. destruct oneFile as (He & _).
  rewrite (captureImage_callback m env fs dirOk He).
  fold (callbackDisk m env fs). unfold processCapture.
  fold (capturedPathOf m env (callbackDisk m env fs)).
  rewrite capturedPathOf_oneFile.
  assert (Fs.existsSync (callbackDisk m env fs) (w_path w) = true) as ->.
  { apply existsSync_true. rewrite callbackDisk_file. eauto. }
  cbn [negb]. unfold Fs.statSync, Fs.readFileSync at 1.
  rewrite callbackDisk_file. cbn [fmap option_fmap option_map Fs.mtimeOf].
  destruct (Z.gtb_spec (checkNow env - w_mtimeMs w) 5000); [lia|].
  reflexivity.
Qed.

Lemma attempt_black_deleted :
  checkNow env - w_mtimeMs w <= 5000 ->
  isBmp (w_bytes w) || isPpm (w_bytes w) = false ->
  isImageBlack (w_bytes w) = true ->
  captureImage m env fs
  = (Rejected (processFailure blackMessage),
     delete (w_path w) (preparedDisk m env fs)).
Proof.
  intros Hfresh B K. rewrite (captureImage_fresh Hfresh), B, K.
  unfold Fs.unlinkSync. rewrite callbackDisk_file, callbackDisk_oneFile.
  now rewrite delete_insert_eq.
Qed.

Lemma attempt_stale_left :
  checkNow env - w_mtimeMs w > 5000 ->
  captureImage m env fs
  = (Rejected (processFailure (staleMessage (checkNow env - w_mtimeMs w))),
     <[w_path w := Fs.File (w_mtimeMs w) (w_bytes w)]> (preparedDisk m env fs)).
Proof.
  intros Hstale. destruct oneFile as (He & _).
  rewrite <- callbackDisk_oneFile.
  apply (captureImage_stale m env fs
           (Fs.File (w_mtimeMs w) (w_bytes w)) dirOk He).
  - rewrite capturedPathOf_oneFile. apply callbackDisk_file.
  - exact Hstale.
Qed.

Lemma attempt_renamed :
  checkNow env - w_mtimeMs w <= 5000 ->
  isBmp (w_bytes w) || isPpm (w_bytes w) = false ->
  isImageBlack (w_bytes w) = false ->
  preparedDisk m env fs !! finalFilepathOf m env = None ->
  captureImage m env fs
  = (Resolved (finalFilepathOf m env),
     <[finalFilepathOf m env := Fs.File (w_mtimeMs w) (w_bytes w)]>
       (delete (w_path w) (preparedDisk m env fs))).
Proof.
  intros Hfresh B K Hfree. rewrite (captureImage_fresh Hfresh), B, K.
  unfold Fs.renameSync. rewrite callbackDisk_file.
  assert (Hfin : forall d, callbackDisk m env fs !! finalFilepathOf m env
                           <> Some (Fs.Dir d)).
  { intros d. rewrite callbackDisk_oneFile.
    destruct (decide (w_path w = finalFilepathOf m env)) as [E|E].
    - rewrite E, lookup_insert_eq. discriminate.
    - rewrite lookup_insert_ne, Hfree by exact E. discriminate. }
  destruct (callbackDisk m env fs !! finalFilepathOf m env) as [[? ?|d]|];
    try (exfalso; now apply (Hfin d));
    now rewrite callbackDisk_oneFile, delete_insert_eq.
Qed.

Lemma attempt_converted (jpeg : list byte) :
  checkNow env - w_mtimeMs w <= 5000 ->
  isBmp (w_bytes w) || isPpm (w_bytes w) = true ->
  jimp env (w_bytes w) = inr jpeg ->
  isImageBlack jpeg = false ->
  preparedDisk m env fs !! finalFilepathOf m env = None ->
  w_path w <> finalFilepathOf m env ->
  captureImage m env fs
  = (Resolved (finalFilepathOf m env),
     <[finalFilepathOf m env := Fs.File (jimpWriteNow env) jpeg]>
       (delete (w_path w) (preparedDisk m env fs))).
Proof.
  intros Hfresh B J K Hfree Hne. rewrite (captureImage_fresh Hfresh), B, J.
  unfold Fs.writeFileSync.
  assert (callbackDisk m env fs !! finalFilepathOf m env = None) as ->.
  { rewrite callbackDisk_oneFile, lookup_insert_ne by exact Hne. exact Hfree. }
  unfold Fs.unlinkSync.
  rewrite lookup_insert_ne, callbackDisk_file by congruence.
  unfold Fs.readFileSync.
  rewrite lookup_delete_ne, lookup_insert_eq, K by exact Hne.
  rewrite delete_insert_ne, callbackDisk_oneFile, delete_insert_eq by exact Hne.
  reflexivity.
Qed.

(** A black rejection leaves the working directory in place and, on a
    disk that held it, no node that was not there before the attempt. *)
Lemma attempt_black_nothing_new :
  checkNow env - w_mtimeMs w <= 5000 ->
  isBmp (w_bytes w) || isPpm (w_bytes w) = false ->
  isImageBlack (w_bytes w) = true ->
  snd (captureImage m env fs) !! w_path w = None /\
  (exists d, snd (captureImage m env fs) !! capturesDir m = Some (Fs.Dir d)) /\
  forall path, is_Some (fs !! capturesDir m) -> fs !! path = None ->
               snd (captureImage m env fs) !! path = None.
Proof.
  intros Hfresh B K. rewrite (attempt_black_deleted Hfresh B K). simpl.
  split; [apply lookup_delete_eq|]. split.
  { destruct (preparedDisk_dir m env fs dirOk) as [d L]. exists d.
    rewrite lookup_delete_ne; [exact L|].
    now destruct oneFile as (_ & _ & _ & H). }
  intros path Hdir Hnone.
  destruct (decide (w_path w = path)) as [<-|Hne]; [apply lookup_delete_eq|].
  rewrite lookup_delete_ne by exact Hne.
  rewrite (preparedDisk_exists m env fs Hdir). unfold sweptDisk.
  destruct (clearOldCaptures m (sweepNow env) fs) as [fs1|] eqn:C;
    [|exact Hnone].
  simpl. destruct (fs1 !! path) as [n|] eqn:L; [|reflexivity].
  apply (clearOldCaptures_shrinks m _ fs fs1 path n C) in L. congruence.
Qed.

End OneFile.

(** ** Runs of the loop *)

Section Runs.

Variable m : Manager.
Variable envs : nat -> AttemptEnv.
Variable fs : Fs.t.

(** Three rejections in a row whose message contains "black". *)
Lemma three_rejections (b : string) :
  JS.includes "black" b = true ->
  fst (replay m envs 0 3 fs) = [Rejected b; Rejected b; Rejected b] ->
  Cli.captureWithRetries m envs fs
  = Cli.Thrown b
      {| Cli.imagePath := None;
         Cli.retryCount := 3;
         Cli.disk := snd (replay m envs 0 3 fs);
         Cli.events :=
           [Cli.ShowCapturing;
            Cli.SpinnerText (Cli.warmingUp 1); Cli.Sleep 2000;
            Cli.SpinnerText (Cli.warmingUp 2); Cli.Sleep 2000;
            Cli.SpinnerFail ("Capture failed: " +:+ b)];
         Cli.outcomes := [Rejected b; Rejected b; Rejected b] |}.
Proof.
  intros Hinc H. cbn [replay fst snd] in *.
  destruct (Webcam.captureImage m (envs 0%nat) fs) as [o0 d1] eqn:E0.
  cbn [fst snd] in *.
  destruct (Webcam.captureImage m (envs 1%nat) d1) as [o1 d2] eqn:E1.
  cbn [fst snd] in *.
  destruct (Webcam.captureImage m (envs 2%nat) d2) as [o2 d3] eqn:E2.
  cbn [fst snd] in *. injection H as -> -> ->.
  unfold Cli.captureWithRetries, Cli.initialState.
  cbn -[Webcam.captureImage Cli.warmingUp].
  rewrite E0, Hinc. cbn -[Webcam.captureImage Cli.warmingUp].
  rewrite E1, Hinc. cbn -[Webcam.captureImage Cli.warmingUp].
  rewrite E2, Hinc. cbn -[Webcam.captureImage Cli.warmingUp].
  reflexivity.
Qed.

End Runs.

(** C2 (amended): a run of the loop makes at most three calls of
    [captureImage], each on the disk the previous one left; every call but
    the last was rejected with a message containing "black" and was
    followed by one pause of 2000 ms; a rejection whose message does not
    contain "black" is thrown as it is with no further call, and so is the
    third rejection. *)
Theorem retry_policy (m : Manager) (envs : nat -> AttemptEnv) (fs : Fs.t) :
  exists st pre last,
    Cli.outcomes st = pre ++ [last] /\
    (Cli.calls st <= 3)%nat /\
    (Cli.outcomes st, Cli.disk st) = replay m envs 0 (Cli.calls st) fs /\
    Forall blackRejection pre /\
    sleeps (Cli.events st) = replicate (length pre) 2000 /\
    match last with
    | Resolved path =>
        Cli.captureWithRetries m envs fs = Cli.Finished st /\
        Cli.imagePath st = Some path
    | Rejected message =>
        Cli.captureWithRetries m envs fs = Cli.Thrown message st /\
        (JS.includes "black" message = false \/ Cli.calls st = 3%nat)
    | Pending => Cli.captureWithRetries m envs fs = Cli.Hung st
    end.
Proof.
  destruct (captureWithRetries_settles m envs fs)
    as (st & pre & last & Hout & Hlen & Hpre & Hsl & Hrep & Hlast).
  assert (Hcalls : Cli.calls st = S (length pre)).
  { unfold Cli.calls. rewrite Hout, length_app. simpl. lia. }
  exists st, pre, last.
  split; [exact Hout|]. split; [lia|]. split; [exact Hrep|].
  split; [exact Hpre|]. split; [exact Hsl|].
  destruct last as [path|message|].
  - destruct Hlast as (? & ? & _). auto.
  - destruct Hlast as (? & [?|?]); split; auto. right. lia.
  - exact Hlast.
Qed.

(** C2 as it is written fails twice.  Three dark frames in a row are
    separated by two pauses of 2000 ms, which do not increase.  And when
    the path of the working directory contains "black", a capture that
    leaves no file at all (the not-found error, no frame classified) is
    retried until three calls have been made. *)
Lemma retry_policy_counterexample :
  (sleeps <$> (Cli.events <$>
     endState (Cli.captureWithRetries sampleManager darkRun sampleDisk)))
  = Some [2000; 2000] /\
  ~ strictlyIncreasing [2000; 2000] /\
  fst (Webcam.captureImage blackboxManager (silentRun 0) blackboxDisk)
  = Rejected "Failed to process captured image: Error: Captured image not found. Looked for: /tmp/blackbox/huely-captures/capture_temp_1000000_k3x9qa.jpg with ID: 1000000_k3x9qa. Files in dir: " /\
  (Cli.calls <$>
     endState (Cli.captureWithRetries blackboxManager silentRun blackboxDisk))
  = Some 3%nat.
Proof.
  split; [vm_compute; reflexivity|].
  split; [simpl; lia|].
  split; vm_compute; reflexivity.
Qed.

(** C4 (amended): when each of three calls in a row is rejected as a
    black frame, the run ends after the third by throwing that call's own
    error, whose message is the black-frame message of [captureImage]. *)
Theorem three_black_frames (m : Manager) (envs : nat -> AttemptEnv)
    (fs : Fs.t) :
  fst (replay m envs 0 3 fs)
    = replicate 3 (Rejected (processFailure Webcam.blackMessage)) ->
  exists st,
    Cli.captureWithRetries m envs fs
      = Cli.Thrown (processFailure Webcam.blackMessage) st /\
    Cli.calls st = 3%nat /\
    Cli.disk st = snd (replay m envs 0 3 fs) /\
    Cli.events st =
      [Cli.ShowCapturing;
       Cli.SpinnerText "Camera warming up... Retry 1/3"; Cli.Sleep 2000;
       Cli.SpinnerText "Camera warming up... Retry 2/3"; Cli.Sleep 2000;
       Cli.SpinnerFail "Capture failed: Failed to process captured image: Error: Captured image appears to be black. Camera may need more warm-up time."] /\
    processFailure Webcam.blackMessage
      = "Failed to process captured image: Error: Captured image appears to be black. Camera may need more warm-up time.".
Proof.
  intros H.
  rewrite (three_rejections m envs fs (processFailure Webcam.blackMessage)
             ltac:(vm_compute; reflexivity) H).
  eexists. split; [reflexivity|].
  repeat split.
Qed.

Lemma three_black_frames_witness :
  exists st,
    Cli.captureWithRetries sampleManager darkRun sampleDisk
      = Cli.Thrown (processFailure Webcam.blackMessage) st /\
    Cli.calls st = 3%nat.
Proof.
  destruct (three_black_frames sampleManager darkRun sampleDisk)
    as (st & Hrun & Hcalls & _).
  - vm_compute. reflexivity.
  - exists st. split; [exact Hrun | exact Hcalls].
Defined.

(** C4 as it is written fails: after three dark frames the message thrown
    is not "capture failed after 3 attempts". *)
Lemma three_black_frames_counterexample :
  Webcam.isImageBlack darkJpeg = true /\
  fst (replay sampleManager darkRun 0 3 sampleDisk)
    = replicate 3 (Rejected (processFailure Webcam.blackMessage)) /\
  thrownMessage (Cli.captureWithRetries sampleManager darkRun sampleDisk)
    = Some "Failed to process captured image: Error: Captured image appears to be black. Camera may need more warm-up time." /\
  thrownMessage (Cli.captureWithRetries sampleManager darkRun sampleDisk)
    <> Some "capture failed after 3 attempts".
Proof.
  split; [vm_compute; reflexivity|].
  split; [vm_compute; reflexivity|].
  split; [vm_compute; reflexivity|].
  vm_compute. discriminate.
Qed.

(** ** What an attempt leaves behind *)

Section Leftovers.

Variable m : Manager.
Variable envs : nat -> AttemptEnv.
Variable fs : Fs.t.
Variable ws : nat -> Written.
Hypothesis allBlack :
  forall k, (k < 3)%nat ->
            blackJpegAttempt m (envs k) (snd (replay m envs 0 k fs)) (ws k).

Lemma replay_disk_step (k : nat) :
  snd (replay m envs 0 (S k) fs)
  = snd (Webcam.captureImage m (envs k) (snd (replay m envs 0 k fs))).
Proof. now rewrite replay_snoc. Qed.

Lemma replay_outcome_step (k : nat) :
  fst (replay m envs 0 (S k) fs)
  = fst (replay m envs 0 k fs)
    ++ [fst (Webcam.captureImage m (envs k) (snd (replay m envs 0 k fs)))].
Proof. now rewrite replay_snoc. Qed.

Lemma black_call (k : nat) :
  (k < 3)%nat ->
  fst (Webcam.captureImage m (envs k) (snd (replay m envs 0 k fs)))
  = Rejected (processFailure Webcam.blackMessage).
Proof.
  intros Hk. destruct (allBlack k Hk) as (Hd & Hone & Hfresh & B & K).
  now rewrite (attempt_black_deleted m _ _ _ Hd Hone Hfresh B K).
Qed.

Lemma black_call_gone (k : nat) :
  (k < 3)%nat -> snd (replay m envs 0 (S k) fs) !! w_path (ws k) = None.
Proof.
  intros Hk. destruct (allBlack k Hk) as (Hd & Hone & Hfresh & B & K).
  rewrite replay_disk_step.
  exact (proj1 (attempt_black_nothing_new m _ _ _ Hd Hone Hfresh B K)).
Qed.

Lemma black_call_dir (k : nat) :
  (k < 3)%nat -> is_Some (snd (replay m envs 0 (S k) fs) !! capturesDir m).
Proof.
  intros Hk. destruct (allBlack k Hk) as (Hd & Hone & Hfresh & B & K).
  rewrite replay_disk_step.
  destruct (proj1 (proj2 (attempt_black_nothing_new m _ _ _ Hd Hone Hfresh
                            B K))) as [d L].
  rewrite L. eauto.
Qed.

Lemma black_call_keeps_gone (k : nat) (path : string) :
  (k < 2)%nat ->
  snd (replay m envs 0 (S k) fs) !! path = None ->
  snd (replay m envs 0 (S (S k)) fs) !! path = None.
Proof.
  intros Hk Hnone.
  destruct (allBlack (S k) ltac:(lia)) as (Hd & Hone & Hfresh & B & K).
  rewrite (replay_disk_step (S k)).
  apply (proj2 (proj2 (attempt_black_nothing_new m _ _ _ Hd Hone Hfresh B K)));
    [|exact Hnone].
  apply black_call_dir. lia.
Qed.

Lemma three_black_outcomes :
  fst (replay m envs 0 3 fs)
  = replicate 3 (Rejected (processFailure Webcam.blackMessage)).
Proof.
  rewrite !replay_outcome_step, !black_call by lia. reflexivity.
Qed.

Lemma three_black_nothing_left (k : nat) :
  (k < 3)%nat -> snd (replay m envs 0 3 fs) !! w_path (ws k) = None.
Proof.
  intros Hk.
  destruct k as [|[|[|k]]]; [| | |lia].
  - apply black_call_keeps_gone; [lia|].
    apply black_call_keeps_gone; [lia|].
    apply black_call_gone. lia.
  - apply black_call_keeps_gone; [lia|].
    apply black_call_gone. lia.
  - apply black_call_gone. lia.
Qed.

End Leftovers.

(** C1 (amended): take an attempt whose capture program wrote one file
    and reported it.  If the file is fresh, neither BMP nor PPM, and black,
    [captureImage] deletes it before it rejects: the disk is the prepared
    disk without that file.  If the file is stale it is rejected and left
    where it is, and what a failing capture program wrote is left as well.
    If the attempt resolves, the final .jpeg has taken the place of the
    captured file.  After three black rejections of the first kind the run
    throws and none of the three files is on the disk. *)
Theorem rejected_artifacts (m : Manager) :
  (forall env fs w,
     workingDirOk m fs = true ->
     reportsOneFile m env w ->
     (checkNow env - w_mtimeMs w <= 5000 ->
      Webcam.isBmp (w_bytes w) || Webcam.isPpm (w_bytes w) = false ->
      Webcam.isImageBlack (w_bytes w) = true ->
      Webcam.captureImage m env fs
      = (Rejected (processFailure Webcam.blackMessage),
         delete (w_path w) (preparedDisk m env fs))) /\
     (checkNow env - w_mtimeMs w > 5000 ->
      Webcam.captureImage m env fs
      = (Rejected (processFailure
                     (Webcam.staleMessage (checkNow env - w_mtimeMs w))),
         <[w_path w := Fs.File (w_mtimeMs w) (w_bytes w)]>
           (preparedDisk m env fs))) /\
     (checkNow env - w_mtimeMs w <= 5000 ->
      Webcam.isBmp (w_bytes w) || Webcam.isPpm (w_bytes w) = false ->
      Webcam.isImageBlack (w_bytes w) = false ->
      preparedDisk m env fs !! Webcam.finalFilepathOf m env = None ->
      Webcam.captureImage m env fs
      = (Resolved (Webcam.finalFilepathOf m env),
         <[Webcam.finalFilepathOf m env
             := Fs.File (w_mtimeMs w) (w_bytes w)]>
           (delete (w_path w) (preparedDisk m env fs)))) /\
     (forall jpeg,
        checkNow env - w_mtimeMs w <= 5000 ->
        Webcam.isBmp (w_bytes w) || Webcam.isPpm (w_bytes w) = true ->
        jimp env (w_bytes w) = inr jpeg ->
        Webcam.isImageBlack jpeg = false ->
        preparedDisk m env fs !! Webcam.finalFilepathOf m env = None ->
        w_path w <> Webcam.finalFilepathOf m env ->
        Webcam.captureImage m env fs
        = (Resolved (Webcam.finalFilepathOf m env),
           <[Webcam.finalFilepathOf m env
               := Fs.File (jimpWriteNow env) jpeg]>
             (delete (w_path w) (preparedDisk m env fs))))) /\
  (forall env fs message,
     workingDirOk m fs = true ->
     cb_err (capture env (Webcam.tempFilepathOf m env)) = Some message ->
     Webcam.captureImage m env fs = (Rejected message, callbackDisk m env fs)) /\
  (forall envs fs ws,
     (forall k, (k < 3)%nat ->
        blackJpegAttempt m (envs k) (snd (replay m envs 0 k fs)) (ws k)) ->
     exists st,
       Cli.captureWithRetries m envs fs
         = Cli.Thrown (processFailure Webcam.blackMessage) st /\
       Cli.disk st = snd (replay m envs 0 3 fs) /\
       forall k, (k < 3)%nat -> Cli.disk st !! w_path (ws k) = None).
Proof.
  split; [|split].
  - intros env fs w Hd Hone. repeat split.
    + now apply attempt_black_deleted.
    + now apply attempt_stale_left.
    + now apply attempt_renamed.
    + intros jpeg. now apply attempt_converted.
  - intros env fs message Hd He. now apply captureImage_capture_error.
  - intros envs fs ws Hall.
    rewrite (three_rejections m envs fs (processFailure Webcam.blackMessage)
               ltac:(vm_compute; reflexivity)
               (three_black_outcomes m envs fs ws Hall)).
    eexists. split; [reflexivity|]. split; [reflexivity|].
    cbn [Cli.disk]. now apply three_black_nothing_left.
Qed.

Lemma rejected_artifacts_witness :
  Webcam.captureImage sampleManager (darkRun 0) sampleDisk
  = (Rejected (processFailure Webcam.blackMessage),
     delete (w_path (darkFile 0))
       (preparedDisk sampleManager (darkRun 0) sampleDisk)) /\
  Webcam.captureImage sampleManager (sampleEnv 1000000 6000 brightJpeg)
    sampleDisk
  = (Rejected (processFailure
                 (Webcam.staleMessage
                    (checkNow (sampleEnv 1000000 6000 brightJpeg)
                     - w_mtimeMs (sampleFile 1000000 6000 brightJpeg)))),
     <[w_path (sampleFile 1000000 6000 brightJpeg)
         := Fs.File (w_mtimeMs (sampleFile 1000000 6000 brightJpeg))
              (w_bytes (sampleFile 1000000 6000 brightJpeg))]>
       (preparedDisk sampleManager (sampleEnv 1000000 6000 brightJpeg)
          sampleDisk)) /\
  fst (Webcam.captureImage sampleManager (sampleEnv 1000000 100 brightJpeg)
         sampleDisk)
  = Resolved (Webcam.finalFilepathOf sampleManager
                (sampleEnv 1000000 100 brightJpeg)) /\
  fst (Webcam.captureImage sampleManager (sampleEnv 1000000 100 brightBmp)
         sampleDisk)
  = Resolved (Webcam.finalFilepathOf sampleManager
                (sampleEnv 1000000 100 brightBmp)) /\
  Webcam.captureImage sampleManager (failingEnv 1000000) sampleDisk
  = (Rejected "Error: fswebcam exited with code 1",
     callbackDisk sampleManager (failingEnv 1000000) sampleDisk) /\
  exists st,
    Cli.captureWithRetries sampleManager darkRun sampleDisk
      = Cli.Thrown (processFailure Webcam.blackMessage) st /\
    forall k, (k < 3)%nat -> Cli.disk st !! w_path (darkFile k) = None.
Proof.
  destruct (rejected_artifacts sampleManager) as (Hone & Herr & Hrun).
  split; [|split; [|split; [|split; [|split]]]].
  - apply (proj1 (Hone (darkRun 0) sampleDisk (darkFile 0)
                    ltac:(evaluate) ltac:(evaluate_all))); evaluate.
  - apply (proj1 (proj2 (Hone (sampleEnv 1000000 6000 brightJpeg) sampleDisk
                           (sampleFile 1000000 6000 brightJpeg)
                           ltac:(evaluate) ltac:(evaluate_all)))).
    evaluate.
  - rewrite (proj1 (proj2 (proj2
               (Hone (sampleEnv 1000000 100 brightJpeg) sampleDisk
                  (sampleFile 1000000 100 brightJpeg)
                  ltac:(evaluate) ltac:(evaluate_all)))));
      evaluate.
  - rewrite (proj2 (proj2 (proj2
               (Hone (sampleEnv 1000000 100 brightBmp) sampleDisk
                  (sampleFile 1000000 100 brightBmp)
                  ltac:(evaluate) ltac:(evaluate_all))))
               (xff :: xd8 :: drop 2 brightBmp));
      evaluate.
  - apply Herr; evaluate.
  - destruct (Hrun darkRun sampleDisk darkFile) as (st & Hthrown & _ & Hgone).
    + intros k Hk. destruct k as [|[|[|k]]]; [| | |lia]; evaluate_all.
    + exists st. split; [exact Hthrown | exact Hgone].
Defined.

(** C1 as it is written fails: a file the attempt created that is
    rejected as stale is still on the disk when [captureImage] has
    rejected. *)
Lemma rejected_artifacts_counterexample :
  cb_written (capture (sampleEnv 1000000 6000 brightJpeg)
                (Webcam.tempFilepathOf sampleManager
                   (sampleEnv 1000000 6000 brightJpeg)))
  = [{| w_path := "/tmp/huely-captures/capture_temp_1000000_k3x9qa.jpg";
        w_mtimeMs := 995500; w_bytes := brightJpeg |}] /\
  sampleDisk !! "/tmp/huely-captures/capture_temp_1000000_k3x9qa.jpg" = None /\
  fst (Webcam.captureImage sampleManager (sampleEnv 1000000 6000 brightJpeg)
         sampleDisk)
  = Rejected "Failed to process captured image: Error: Captured image appears to be stale (6000ms old). This might be a previous capture." /\
  snd (Webcam.captureImage sampleManager (sampleEnv 1000000 6000 brightJpeg)
         sampleDisk)
    !! "/tmp/huely-captures/capture_temp_1000000_k3x9qa.jpg"
  = Some (Fs.File 995500 brightJpeg).
Proof. evaluate_all. Qed.

(** The converting branch checks the frame after it has written the final
    file and removes nothing when the check fails: the JPEG of a dark
    bitmap stays on the disk although the attempt is rejected, where the
    other branch deletes the dark file it found. *)
Example dark_bitmap_leaves_final_file :
  sampleDisk !! "/tmp/huely-captures/capture_1000000_k3x9qa.jpeg" = None /\
  fst (Webcam.captureImage sampleManager (sampleEnv 1000000 100 darkBmp)
         sampleDisk)
  = Rejected "Failed to process captured image: Error: Captured image appears to be black. Camera may need more warm-up time." /\
  snd (Webcam.captureImage sampleManager (sampleEnv 1000000 100 darkBmp)
         sampleDisk)
    !! "/tmp/huely-captures/capture_1000000_k3x9qa.jpeg"
  = Some (Fs.File 1001600 darkJpeg) /\
  snd (Webcam.captureImage sampleManager (sampleEnv 1000000 100 darkBmp)
         sampleDisk)
    !! "/tmp/huely-captures/capture_temp_1000000_k3x9qa.jpg"
  = None.
Proof. evaluate_all. Qed.

(** The failing capture program's partial file stays as well. *)
Example failed_capture_leaves_partial_file :
  fst (Webcam.captureImage sampleManager (failingEnv 1000000) sampleDisk)
  = Rejected "Error: fswebcam exited with code 1" /\
  snd (Webcam.captureImage sampleManager (failingEnv 1000000) sampleDisk)
    !! "/tmp/huely-captures/capture_temp_1000000_k3x9qa.jpg"
  = Some (Fs.File 1001400 [xff; xd8]).
Proof. evaluate_all. Qed.

(** * Further properties *)

(** ** What one attempt does to the disk *)

Section AttemptEffects.

Import Webcam.
Variable m : Manager.
Variable env : AttemptEnv.

(** The sweep as seen from one path. *)
Lemma sweepHits_target (now : Z) (fs : Fs.t) (files : list string)
    (path : string) (n : Fs.node) :
  Fs.readdirSync (platform m) fs (capturesDir m) = Some files ->
  fs !! path = Some n ->
  sweepHits m files path && oldFile now n = true <-> sweepTarget m now path n.
Proof.
  intros R Hn. rewrite andb_true_iff, sweepHits_true. split.
  - intros [(file & Hin & Hs & ->) Hold].
    apply (readdirSync_elem _ _ _ _ _ R) in Hin as [_ Hp].
    destruct n as [mt bytes|mt]; [|discriminate].
    exists file, mt, bytes. repeat split; auto.
    unfold oldFile, thirtySeconds in Hold. lia.
  - intros (name & mt & bytes & -> & Hp & Hs & -> & Hold). split.
    + exists name. repeat split; auto.
      apply (readdirSync_elem _ _ _ _ _ R). split; [eauto | exact Hp].
    + unfold oldFile, thirtySeconds. lia.
Qed.

Lemma sweptDisk_keeps (now : Z) (fs : Fs.t) (path : string) (n : Fs.node) :
  fs !! path = Some n -> ~ sweepTarget m now path n ->
  sweptDisk m now fs !! path = Some n.
Proof.
  intros Hn Hnot. unfold sweptDisk.
  destruct (clearOldCaptures m now fs) as [fs'|] eqn:C; [|exact Hn].
  simpl. unfold clearOldCaptures in C.
  destruct (negb (Fs.existsSync fs (capturesDir m)));
    [injection C as <-; exact Hn|].
  destruct (Fs.readdirSync (platform m) fs (capturesDir m)) as [files|] eqn:R;
    [|discriminate].
  injection C as <-. rewrite sweep_fold_lookup, Hn.
  destruct (sweepHits m files path && oldFile now n) eqn:E; [|reflexivity].
  exfalso. apply Hnot. now apply (sweepHits_target now fs files).
Qed.

Lemma sweptDisk_removes (now : Z) (fs : Fs.t) (path : string) (n : Fs.node) :
  fs !! capturesDir m <> None ->
  fs !! path = Some n -> sweepTarget m now path n ->
  workingDirOk m fs = true ->
  sweptDisk m now fs !! path = None.
Proof.
  intros Hdir Hn Ht Hok. unfold sweptDisk.
  rewrite (sweep_returns m now fs Hok). simpl.
  pose proof (sweep_returns m now fs Hok) as C.
  unfold clearOldCaptures in C.
  assert (E : Fs.existsSync fs (capturesDir m) = true).
  { apply existsSync_true. destruct (fs !! capturesDir m); [eauto|congruence]. }
  rewrite E in C. simpl in C.
  destruct (Fs.readdirSync (platform m) fs (capturesDir m)) as [files|] eqn:R;
    [|discriminate].
  injection C as C. rewrite <- C, sweep_fold_lookup, Hn.
  apply (sweepHits_target now fs files path n R Hn) in Ht. now rewrite Ht.
Qed.

Lemma sweptDisk_absent (now : Z) (fs : Fs.t) (path : string) :
  fs !! path = None -> sweptDisk m now fs !! path = None.
Proof.
  intros Hn. unfold sweptDisk.
  destruct (clearOldCaptures m now fs) as [fs'|] eqn:C; [|exact Hn].
  simpl. destruct (fs' !! path) as [n|] eqn:L; [|reflexivity].
  apply (clearOldCaptures_shrinks m now fs fs' path n C) in L. congruence.
Qed.

(** The [try] block changes the disk at the captured path and at the
    final path only. *)
Lemma processCapture_frame
    (uniqueId tempFilepath finalFilepath data : string) (fs : Fs.t)
    (path : string) :
  path <> resolveCaptured fs uniqueId tempFilepath data ->
  path <> finalFilepath ->
  snd (processCapture m env uniqueId tempFilepath finalFilepath data fs)
    !! path = fs !! path.
Proof.
  intros Hcp Hfin. unfold processCapture.
  set (cp := resolveCaptured fs uniqueId tempFilepath data) in *.
  unfold Fs.unlinkSync, Fs.renameSync, Fs.writeFileSync, Fs.readFileSync.
  repeat match goal with
         | |- context [match ?x with _ => _ end] =>
             lazymatch x with
             | context [match _ with _ => _ end] => fail
             | _ => destruct x eqn:?
             end
         end;
    simpl;
    rewrite ?lookup_delete_ne, ?lookup_insert_ne, ?lookup_delete_ne
      by congruence;
    reflexivity.
Qed.

Lemma captureImage_not_pending (fs : Fs.t) :
  workingDirOk m fs = true -> fst (captureImage m env fs) <> Pending.
Proof.
  intros Hd.
  destruct (cb_err (capture env (tempFilepathOf m env))) as [message|] eqn:He.
  - now rewrite (captureImage_capture_error m env fs message Hd He).
  - rewrite (captureImage_callback m env fs Hd He).
    destruct (processCapture _ _ _ _ _ _ _) as [[why|p] fs3]; discriminate.
Qed.

Lemma pathJoin_ne_dir (p : Platform) (dir name : string) :
  Fs.pathJoin p dir name <> dir.
Proof.
  unfold Fs.pathJoin. intros H.
  rewrite <- (append_empty_r dir) in H at 2.
  apply (inj (String.app dir)) in H. destruct p; discriminate.
Qed.

Lemma processCapture_dir (uniqueId tempFilepath finalFilepath data : string)
    (fs : Fs.t) (d : Z) :
  finalFilepath <> capturesDir m ->
  fs !! capturesDir m = Some (Fs.Dir d) ->
  snd (processCapture m env uniqueId tempFilepath finalFilepath data fs)
    !! capturesDir m = Some (Fs.Dir d).
Proof.
  intros Hfin L.
  destruct (decide (capturesDir m
                    = resolveCaptured fs uniqueId tempFilepath data))
    as [E|N].
  - unfold processCapture. rewrite <- E.
    unfold Fs.existsSync, Fs.statSync, Fs.readFileSync. rewrite L. simpl.
    destruct (checkNow env - d >? 5000); exact L.
  - rewrite processCapture_frame; auto.
Qed.

(** An attempt on a usable working directory leaves it a directory. *)
Lemma captureImage_dir (fs : Fs.t) :
  workingDirOk m fs = true ->
  sparesWorkingDir m env ->
  exists d, snd (captureImage m env fs) !! capturesDir m = Some (Fs.Dir d).
Proof.
  intros Hd Hw.
  destruct (callbackDisk_dir m env fs Hd Hw) as [d L].
  exists d.
  destruct (cb_err (capture env (tempFilepathOf m env))) as [message|] eqn:He.
  - now rewrite (captureImage_capture_error m env fs message Hd He).
  - rewrite (captureImage_callback m env fs Hd He).
    fold (callbackDisk m env fs).
    pose proof (processCapture_dir (uniqueIdOf env) (tempFilepathOf m env)
                  (finalFilepathOf m env)
                  (cb_data (capture env (tempFilepathOf m env)))
                  (callbackDisk m env fs) d
                  (pathJoin_ne_dir _ _ _) L) as Hp.
    destruct (processCapture _ _ _ _ _ _ _) as [[why|p] fs3]; exact Hp.
Qed.

Lemma dir_workingDirOk (fs : Fs.t) (d : Z) :
  fs !! capturesDir m = Some (Fs.Dir d) -> workingDirOk m fs = true.
Proof. unfold workingDirOk. now intros ->. Qed.

End AttemptEffects.

(** The file a resolved attempt hands out. *)
Lemma captureImage_resolved_lookup (m : Manager) (env : AttemptEnv)
    (fs : Fs.t) (path : string) (fs' : Fs.t) :
  Webcam.captureImage m env fs = (Resolved path, fs') ->
  exists mtimeMs bytes,
    fs' !! path = Some (Fs.File mtimeMs bytes) /\
    Webcam.isImageBlack bytes = false.
Proof.
  intros Hr.
  destruct (captureImage_resolved_inv m env fs path fs' Hr)
    as (_ & _ & -> & mt & raw & L & _ & Hbr).
  destruct Hbr as [(_ & K & Hren)|(_ & jpeg & fsw & _ & _ & _ & R & K)].
  - exists mt, raw. split; [|exact K].
    unfold Fs.renameSync in Hren. rewrite L in Hren.
    destruct (callbackDisk m env fs !! Webcam.finalFilepathOf m env)
      as [[? ?|?]|]; try discriminate;
      injection Hren as <-; apply lookup_insert_eq.
  - unfold Fs.readFileSync in R.
    destruct (fs' !! Webcam.finalFilepathOf m env) as [[mt' bytes|?]|];
      try discriminate.
    injection R as ->. exists mt', jpeg. auto.
Qed.

(** X1: a call of [captureImage] leaves every node of the disk as it was,
    except what the sweep removes, the working directory and the missing
    ancestors [mkdirSync] creates with it, the files the capture program
    wrote, the captured path and the final path. *)
Theorem captureImage_frame (m : Manager) (env : AttemptEnv) (fs : Fs.t)
    (path : string) :
  path <> capturesDir m ->
  (fs !! path = None ->
   path ∉ Fs.ancestors (platform m) (capturesDir m)) ->
  Forall (fun w => w_path w <> path)
         (cb_written (capture env (Webcam.tempFilepathOf m env))) ->
  path <> capturedPathOf m env (callbackDisk m env fs) ->
  path <> Webcam.finalFilepathOf m env ->
  (forall n, fs !! path = Some n -> ~ sweepTarget m (sweepNow env) path n) ->
  snd (Webcam.captureImage m env fs) !! path = fs !! path.
Proof.
  intros Hdir Hanc Hw Hcp Hfin Hsweep.
  destruct (workingDirOk m fs) eqn:Hd;
    [|now rewrite (captureImage_blocked m env fs Hd)].
  assert (Hcb : callbackDisk m env fs !! path = fs !! path).
  { unfold callbackDisk, Webcam.afterCapture.
    rewrite landFiles_other by exact Hw.
    destruct (fs !! path) as [n|] eqn:L.
    - apply preparedDisk_keeps, sweptDisk_keeps; [exact L | now apply Hsweep].
    - rewrite preparedDisk_other by auto. now apply sweptDisk_absent. }
  destruct (cb_err (capture env (Webcam.tempFilepathOf m env)))
    as [message|] eqn:He.
  - now rewrite (captureImage_capture_error m env fs message Hd He).
  - rewrite (captureImage_callback m env fs Hd He).
    pose proof (processCapture_frame m env (Webcam.uniqueIdOf env)
                  (Webcam.tempFilepathOf m env) (Webcam.finalFilepathOf m env)
                  (cb_data (capture env (Webcam.tempFilepathOf m env)))
                  (callbackDisk m env fs) path Hcp Hfin) as Hp.
    destruct (Webcam.processCapture _ _ _ _ _ _ _) as [[why|p] fs3];
      simpl in *; congruence.
Qed.

Lemma captureImage_frame_witness :
  snd (Webcam.captureImage sampleManager (darkRun 0) sampleDisk)
    !! "/tmp/huely-captures/notes.txt"
  = sampleDisk !! "/tmp/huely-captures/notes.txt".
Proof.
  apply captureImage_frame.
  - evaluate.
  - intros H. vm_compute in H. discriminate.
  - repeat constructor. evaluate.
  - evaluate.
  - evaluate.
  - intros n _ (name & mt & bytes & Hj & _ & Hs & _).
    change "/tmp/huely-captures/notes.txt"
      with (Fs.pathJoin (platform sampleManager) (capturesDir sampleManager)
              "notes.txt") in Hj.
    apply pathJoin_inj in Hj. subst name. vm_compute in Hs. discriminate.
Defined.

(** X2: when [captureImage] resolves, the path it hands out is
    [capture_<timestamp>_<random>.jpeg] in the working directory, a regular
    file is there, and the guard does not classify its bytes as black. *)
Theorem captureImage_resolved_file (m : Manager) (env : AttemptEnv)
    (fs : Fs.t) (path : string) (fs' : Fs.t) :
  Webcam.captureImage m env fs = (Resolved path, fs') ->
  path = Fs.pathJoin (platform m) (capturesDir m)
           ("capture_" +:+ JS.numToString (timestamp env) +:+ "_" +:+
            randomId env +:+ ".jpeg") /\
  exists mtimeMs bytes,
    fs' !! path = Some (Fs.File mtimeMs bytes) /\
    Webcam.isImageBlack bytes = false.
Proof.
  intros Hr. split.
  - destruct (captureImage_resolved_inv m env fs path fs' Hr)
      as (_ & _ & -> & _).
    unfold Webcam.finalFilepathOf, Webcam.uniqueIdOf.
    now rewrite !append_assoc.
  - exact (captureImage_resolved_lookup m env fs path fs' Hr).
Qed.

Lemma captureImage_resolved_file_witness :
  exists mtimeMs bytes,
    snd (Webcam.captureImage sampleManager (sampleEnv 1000000 100 brightBmp)
           sampleDisk)
      !! "/tmp/huely-captures/capture_1000000_k3x9qa.jpeg"
    = Some (Fs.File mtimeMs bytes) /\
    Webcam.isImageBlack bytes = false.
Proof.
  apply (captureImage_resolved_file sampleManager
           (sampleEnv 1000000 100 brightBmp) sampleDisk
           "/tmp/huely-captures/capture_1000000_k3x9qa.jpeg").
  apply settled_with. evaluate.
Defined.

(** X3: on a file system where calls fail only for the kind of node
    they meet, [captureImage] stays pending exactly when the path of the
    working directory is taken by a regular file (the sweep's
    [readdirSync] throws), or is free while one of its ancestors is a
    regular file (the [mkdirSync] throws); it has then done nothing to the
    disk.  In every other case it resolves or rejects. *)
Theorem captureImage_pending_iff (m : Manager) (env : AttemptEnv)
    (fs : Fs.t) :
  (fst (Webcam.captureImage m env fs) = Pending <->
   (exists mtimeMs bytes,
      fs !! capturesDir m = Some (Fs.File mtimeMs bytes)) \/
   (fs !! capturesDir m = None /\
    exists a mtimeMs bytes,
      a ∈ Fs.ancestors (platform m) (capturesDir m) /\
      fs !! a = Some (Fs.File mtimeMs bytes))) /\
  (fst (Webcam.captureImage m env fs) = Pending ->
   snd (Webcam.captureImage m env fs) = fs).
Proof.
  assert (Hok : workingDirOk m fs = false <->
                (exists mtimeMs bytes,
                   fs !! capturesDir m = Some (Fs.File mtimeMs bytes)) \/
                (fs !! capturesDir m = None /\
                 exists a mtimeMs bytes,
                   a ∈ Fs.ancestors (platform m) (capturesDir m) /\
                   fs !! a = Some (Fs.File mtimeMs bytes))).
  { unfold workingDirOk.
    destruct (fs !! capturesDir m) as [[mt bytes|d]|] eqn:L.
    - split; [eauto | reflexivity].
    - split; [discriminate|].
      intros [(? & ? & ?)|(? & _)]; discriminate.
    - rewrite negb_false_iff, existsb_exists. split.
      + intros (a & Hin & Ha). right. split; [reflexivity|].
        unfold Fs.isFile in Ha.
        destruct (fs !! a) as [[mt bytes|]|] eqn:La; try discriminate.
        exists a, mt, bytes. split; [now apply list_elem_of_In | exact La].
      + intros [(? & ? & ?)|(_ & a & mt & bytes & Hin & La)]; [discriminate|].
        exists a. split; [now apply list_elem_of_In|].
        unfold Fs.isFile. now rewrite La. }
  assert (Hpend : fst (Webcam.captureImage m env fs) = Pending ->
                  workingDirOk m fs = false).
  { destruct (workingDirOk m fs) eqn:Hd; [|reflexivity].
    intros H. now apply captureImage_not_pending in H. }
  split; [split|].
  - intros H. now apply Hok, Hpend.
  - intros H. apply Hok in H. now rewrite (captureImage_blocked m env fs H).
  - intros H. now rewrite (captureImage_blocked m env fs (Hpend H)).
Qed.

Lemma captureImage_pending_iff_witness :
  fst (Webcam.captureImage sampleManager (darkRun 0) blockedDisk) = Pending /\
  fst (Webcam.captureImage sampleManager (darkRun 0) fencedDisk) = Pending /\
  snd (Webcam.captureImage sampleManager (darkRun 0) fencedDisk) = fencedDisk.
Proof.
  assert (H : fst (Webcam.captureImage sampleManager (darkRun 0) fencedDisk)
              = Pending).
  { apply (proj1 (captureImage_pending_iff sampleManager (darkRun 0)
                    fencedDisk)).
    right. split; [evaluate|]. exists "/tmp", 0, [].
    split; [|evaluate]. vm_compute. left. }
  split; [|split; [exact H|]].
  - apply (proj1 (captureImage_pending_iff sampleManager (darkRun 0)
                    blockedDisk)).
    left. exists 0, []. evaluate.
  - exact (proj2 (captureImage_pending_iff sampleManager (darkRun 0)
                    fencedDisk) H).
Defined.

(** X4: [captureImageAsBase64] never fails at its own read: when
    [captureImage] resolves it resolves with the base64 text of the bytes
    at the final path, and otherwise it ends as [captureImage] does; the
    disk is the one [captureImage] left. *)
Theorem captureImageAsBase64_reads (m : Manager) (env : AttemptEnv)
    (fs : Fs.t) :
  (forall path fs',
     Webcam.captureImage m env fs = (Resolved path, fs') ->
     exists mtimeMs bytes,
       fs' !! path = Some (Fs.File mtimeMs bytes) /\
       WebcamManager.captureImageAsBase64 m env fs
       = (Resolved (JSText.toBase64 bytes), fs')) /\
  ((forall path, fst (Webcam.captureImage m env fs) <> Resolved path) ->
   WebcamManager.captureImageAsBase64 m env fs = Webcam.captureImage m env fs).
Proof.
  split.
  - intros path fs' Hr.
    destruct (captureImage_resolved_lookup m env fs path fs' Hr)
      as (mt & bytes & L & _).
    exists mt, bytes. split; [exact L|].
    unfold WebcamManager.captureImageAsBase64. rewrite Hr.
    unfold Fs.readFileSync. now rewrite L.
  - intros Hnot. unfold WebcamManager.captureImageAsBase64.
    destruct (Webcam.captureImage m env fs) as [[path|message|] fs'];
      try reflexivity.
    exfalso. now apply (Hnot path).
Qed.

Lemma captureImageAsBase64_reads_witness :
  (exists mtimeMs bytes,
     snd (Webcam.captureImage sampleManager
            (sampleEnv 1000000 100 brightJpeg) sampleDisk)
       !! "/tmp/huely-captures/capture_1000000_k3x9qa.jpeg"
     = Some (Fs.File mtimeMs bytes) /\
     WebcamManager.captureImageAsBase64 sampleManager
       (sampleEnv 1000000 100 brightJpeg) sampleDisk
     = (Resolved (JSText.toBase64 bytes),
        snd (Webcam.captureImage sampleManager
               (sampleEnv 1000000 100 brightJpeg) sampleDisk))) /\
  WebcamManager.captureImageAsBase64 sampleManager (darkRun 0) sampleDisk
  = Webcam.captureImage sampleManager (darkRun 0) sampleDisk.
Proof.
  split.
  - apply (proj1 (captureImageAsBase64_reads sampleManager
                    (sampleEnv 1000000 100 brightJpeg) sampleDisk)
             "/tmp/huely-captures/capture_1000000_k3x9qa.jpeg").
    apply settled_with. evaluate.
  - apply (proj2 (captureImageAsBase64_reads sampleManager (darkRun 0)
                    sampleDisk)).
    intros path. evaluate.
Defined.

(** ** The working directory across attempts *)

Section Returns.

Variable m : Manager.
Variable envs : nat -> AttemptEnv.
Hypothesis spared : forall k, sparesWorkingDir m (envs k).

Lemma replay_no_pending (n k : nat) (fs : Fs.t) :
  workingDirOk m fs = true ->
  Forall (fun o => o <> Pending) (fst (replay m envs k n fs)).
Proof.
  revert k fs. induction n as [|n IH]; intros k fs Hd; simpl.
  - constructor.
  - constructor.
    + now apply captureImage_not_pending.
    + apply IH.
      destruct (captureImage_dir m (envs k) fs Hd (spared k)) as [d L].
      exact (dir_workingDirOk m _ d L).
Qed.

End Returns.

(** X5: an attempt on a usable working directory (its path a directory,
    or free with no regular file among its ancestors, so that [mkdirSync]
    can create it) whose capture program does not write at that path
    settles, and leaves the working directory in place as a directory. *)
Theorem captureImage_keeps_working_dir (m : Manager) (env : AttemptEnv)
    (fs : Fs.t) :
  workingDirOk m fs = true ->
  sparesWorkingDir m env ->
  fst (Webcam.captureImage m env fs) <> Pending /\
  exists d,
    snd (Webcam.captureImage m env fs) !! capturesDir m = Some (Fs.Dir d).
Proof.
  intros Hd Hw. split.
  - now apply captureImage_not_pending.
  - now apply captureImage_dir.
Qed.

Lemma captureImage_keeps_working_dir_witness :
  fst (Webcam.captureImage sampleManager (darkRun 0) ∅) <> Pending /\
  exists d,
    snd (Webcam.captureImage sampleManager (darkRun 0) ∅)
      !! "/tmp/huely-captures" = Some (Fs.Dir d).
Proof.
  apply (captureImage_keeps_working_dir sampleManager (darkRun 0) ∅).
  - evaluate.
  - repeat constructor. evaluate.
Defined.

(** X6: [captureAndAnalyze] returns, whatever the camera delivers and
    whatever the client answers, when at the start the working directory
    is a directory, or its path is free and no ancestor of it is a regular
    file, and no capture program writes at its path. *)
Theorem captureAndAnalyze_returns (m : Manager) (envs : nat -> AttemptEnv)
    (openaiClient : option (string -> Fs.t -> string + string)) (fs : Fs.t) :
  workingDirOk m fs = true ->
  (forall k, sparesWorkingDir m (envs k)) ->
  is_Some (Cli.captureAndAnalyze m envs openaiClient fs).
Proof.
  intros Hd Hw. unfold Cli.captureAndAnalyze.
  destruct openaiClient as [analyzeImage|]; [|eauto].
  destruct (captureWithRetries_settles m envs fs)
    as (st & pre & last & Hout & _ & _ & _ & Hrep & Hlast).
  pose proof (replay_no_pending m envs Hw (Cli.calls st) 0 fs Hd) as Hnp.
  rewrite <- Hrep in Hnp. simpl in Hnp. rewrite Hout in Hnp.
  apply Forall_app in Hnp as [_ Hnp]. inversion Hnp as [|? ? Hl _]; subst.
  destruct last as [path|message|].
  - destruct Hlast as (-> & _). destruct (analyzeImage _ _); eauto.
  - destruct Hlast as (-> & _). eauto.
  - congruence.
Qed.

Lemma captureAndAnalyze_returns_witness :
  is_Some (Cli.captureAndAnalyze sampleManager darkRun
             (Some (fun _ _ => inr "a dark room")) sampleDisk).
Proof.
  apply captureAndAnalyze_returns.
  - evaluate.
  - intros k. repeat constructor. apply pathJoin_ne_dir.
Defined.

(** ** Sweeping twice, and sweeping what an attempt handed out *)

Lemma oldFile_earlier (now now' : Z) (n : Fs.node) :
  now' <= now -> oldFile now' n = true -> oldFile now n = true.
Proof.
  unfold oldFile. destruct n as [mt bytes|mt]; [|discriminate].
  intros Hle H. apply Z.gtb_lt in H. apply Z.gtb_lt. lia.
Qed.

(** X7: a sweep that follows a sweep, at the same or an earlier clock
    reading, removes nothing. *)
Theorem clearOldCaptures_twice (m : Manager) (now now' : Z) (fs : Fs.t) :
  workingDirOk m fs = true ->
  now' <= now ->
  Webcam.clearOldCaptures m now' (sweptDisk m now fs)
  = Some (sweptDisk m now fs).
Proof.
  intros Hd Hle.
  pose proof (sweep_returns m now fs Hd) as Hs.
  unfold workingDirOk in Hd.
  destruct (fs !! capturesDir m) as [[|d]|] eqn:L; [discriminate| |].
  2:{ rewrite (sweptDisk_missing m now fs L).
      unfold Webcam.clearOldCaptures.
      now rewrite (proj2 (existsSync_false fs (capturesDir m)) L). }
  pose proof (sweptDisk_dir m now fs d L) as L1.
  set (fs1 := sweptDisk m now fs) in *.
  destruct (Fs.readdirSync (platform m) fs (capturesDir m)) as [files|] eqn:R;
    [|unfold Fs.readdirSync in R; rewrite L in R; discriminate].
  destruct (Fs.readdirSync (platform m) fs1 (capturesDir m)) as [files1|] eqn:R1;
    [|unfold Fs.readdirSync in R1; rewrite L1 in R1; discriminate].
  unfold Webcam.clearOldCaptures.
  rewrite (proj2 (existsSync_true fs1 (capturesDir m))) by eauto.
  rewrite R1. simpl. f_equal. apply map_eq. intros path.
  rewrite sweep_fold_lookup.
  destruct (fs1 !! path) as [n|] eqn:Ln; [|reflexivity].
  destruct (sweepHits m files1 path && oldFile now' n) eqn:E; [|reflexivity].
  exfalso. apply andb_prop in E as [Hhit Hold].
  pose proof (clearOldCaptures_lookup m now fs fs1 files path R Hs) as Hl.
  rewrite Ln in Hl.
  destruct (fs !! path) as [n0|] eqn:L0; [|discriminate].
  destruct (sweepHits m files path && oldFile now n0) eqn:E0; [discriminate|].
  injection Hl as ->.
  apply andb_false_iff in E0 as [E0|E0].
  - apply sweepHits_true in Hhit as (file & Hin & Hpre & ->).
    apply (readdirSync_elem _ _ _ _ _ R1) in Hin as [_ Hplain].
    assert (sweepHits m files
              (Fs.pathJoin (platform m) (capturesDir m) file) = true);
      [|congruence].
    apply sweepHits_true. exists file. repeat split; auto.
    apply (readdirSync_elem _ _ _ _ _ R). split; [eauto | exact Hplain].
  - rewrite (oldFile_earlier now now' n0 Hle Hold) in E0. discriminate.
Qed.

Lemma clearOldCaptures_twice_witness :
  Webcam.clearOldCaptures sampleManager 999000
    (sweptDisk sampleManager 1000000 sampleDisk)
  = Some (sweptDisk sampleManager 1000000 sampleDisk).
Proof.
  apply clearOldCaptures_twice.
  - evaluate.
  - lia.
Defined.

Lemma startsWith_capture (rest : string) :
  JS.startsWith "capture_" ("capture_" +:+ rest) = true.
Proof.
  unfold JS.startsWith. rewrite !append_cons, append_empty_l. simpl.
  repeat (case_decide; [|congruence]). now destruct rest.
Qed.

(** X8: the file a resolved attempt hands out does not outlive the sweep
    of a later attempt made more than thirty seconds after the file's
    modification time (the random part of its name holding no path
    separator, and the capture program not writing at the path of the
    working directory). *)
Theorem resolved_file_swept_later (m : Manager) (env : AttemptEnv)
    (fs : Fs.t) (path : string) (fs' : Fs.t) (later : Z) :
  Webcam.captureImage m env fs = (Resolved path, fs') ->
  sparesWorkingDir m env ->
  Fs.plainName (platform m) ("capture_" +:+ Webcam.uniqueIdOf env +:+ ".jpeg")
    = true ->
  (forall n, fs' !! path = Some n -> later - Fs.mtimeOf n > 30000) ->
  sweptDisk m later fs' !! path = None.
Proof.
  intros Hr Hw Hplain Hlate.
  pose proof (captureImage_resolved_inv m env fs path fs' Hr)
    as (Hd & _ & Hpath & mt & raw & L & _ & Hbr).
  assert (Hfile : exists mt' bytes, fs' !! path = Some (Fs.File mt' bytes)).
  { destruct (captureImage_resolved_lookup m env fs path fs' Hr)
      as (mt' & bytes & Lf & _).
    eauto. }
  destruct Hfile as (mt' & bytes & Lf).
  destruct (captureImage_dir m env fs Hd Hw) as [d Ldir].
  rewrite Hr in Ldir. simpl in Ldir.
  apply (sweptDisk_removes m later fs' path (Fs.File mt' bytes)).
  - rewrite Ldir. discriminate.
  - exact Lf.
  - exists ("capture_" +:+ Webcam.uniqueIdOf env +:+ ".jpeg"), mt', bytes.
    split; [exact Hpath|]. split; [exact Hplain|].
    split; [apply startsWith_capture|]. split; [reflexivity|].
    exact (Hlate _ Lf).
  - exact (dir_workingDirOk m fs' d Ldir).
Qed.

Lemma resolved_file_swept_later_witness :
  sweptDisk sampleManager 1040000
    (snd (Webcam.captureImage sampleManager (sampleEnv 1000000 100 brightJpeg)
            sampleDisk))
    !! "/tmp/huely-captures/capture_1000000_k3x9qa.jpeg" = None.
Proof.
  apply (resolved_file_swept_later sampleManager
           (sampleEnv 1000000 100 brightJpeg) sampleDisk).
  - apply settled_with. evaluate.
  - repeat constructor. evaluate.
  - evaluate.
  - intros n. 
    replace (snd (Webcam.captureImage sampleManager
                    (sampleEnv 1000000 100 brightJpeg) sampleDisk)
               !! "/tmp/huely-captures/capture_1000000_k3x9qa.jpeg")
      with (Some (Fs.File 1001400 brightJpeg)) by evaluate.
    intros [= <-]. simpl. lia.
Defined.

(** ** [cleanup] *)

Lemma omap_NoDup {A B : Type} (f : A -> option B) (l : list A) :
  (forall x y b, f x = Some b -> f y = Some b -> x = y) ->
  NoDup l -> NoDup (omap f l).
Proof.
  intros Hinj. induction 1 as [|x l Hx Hl IH]; simpl.
  - constructor.
  - destruct (f x) as [b|] eqn:E; [|exact IH].
    constructor; [|exact IH].
    rewrite list_elem_of_omap. intros (y & Hy & Ey).
    assert (x = y) by (eapply Hinj; eauto). congruence.
Qed.

Lemma readdirSync_NoDup (p : Platform) (fs : Fs.t) (dir : string)
    (files : list string) :
  Fs.readdirSync p fs dir = Some files -> NoDup files.
Proof.
  unfold Fs.readdirSync. destruct (fs !! dir) as [[|]|]; try discriminate.
  intros [= <-]. apply omap_NoDup; [|apply NoDup_elements].
  intros x y b Hx Hy.
  apply entryName_Some in Hx as [-> _]. apply entryName_Some in Hy as [-> _].
  reflexivity.
Qed.

Lemma forallb_false {A : Type} (f : A -> bool) (l : list A) :
  forallb f l = false -> exists x, x ∈ l /\ f x = false.
Proof.
  induction l as [|a l IH]; simpl; [discriminate|].
  destruct (f a) eqn:E; simpl.
  - intros H. destruct (IH H) as (x & Hin & Hx). exists x.
    split; [now right | exact Hx].
  - intros _. exists a. split; [left | exact E].
Qed.

Section Cleanup.

Import WebcamManager.
Variable m : Manager.
Variable now : Z.

Lemma cleanupHits_true (files : list string) (path : string) :
  cleanupHits m files path = true <->
  exists file, file ∈ files /\ path = Fs.pathJoin (platform m) (capturesDir m) file.
Proof.
  unfold cleanupHits. rewrite existsb_exists. split.
  - intros (file & Hin & H). apply bool_decide_eq_true in H.
    exists file. rewrite list_elem_of_In. auto.
  - intros (file & Hin & H). exists file. rewrite <- list_elem_of_In.
    split; [exact Hin | now apply bool_decide_eq_true].
Qed.

(** The loop over entries that are all present and of which the expired
    ones are regular files. *)
Lemma cleanupEach_lookup (files : list string) (fs : Fs.t) :
  NoDup files ->
  (forall file, file ∈ files ->
     exists n, fs !! Fs.pathJoin (platform m) (capturesDir m) file = Some n /\
               (expired now n = true -> exists mt bytes, n = Fs.File mt bytes)) ->
  exists fs',
    cleanupEach m now files fs = (None, fs') /\
    forall path,
      fs' !! path =
      match fs !! path with
      | Some n => if cleanupHits m files path && expired now n
                  then None else Some n
      | None => None
      end.
Proof.
  revert fs. induction files as [|file rest IH]; intros fs Hnd Hall.
  - exists fs. split; [reflexivity|]. intros path.
    destruct (fs !! path); reflexivity.
  - apply NoDup_cons in Hnd as [Hnin Hnd].
    destruct (Hall file) as (n & L & Hexp); [left|].
    cbn [cleanupEach]. unfold cleanupFile, Fs.statSync. rewrite L. simpl.
    change (now - Fs.mtimeOf n >? fiveMinutes) with (expired now n).
    destruct (expired now n) eqn:E.
    + destruct Hexp as (mt & bytes & ->); [reflexivity|].
      unfold Fs.unlinkSync. rewrite L.
      destruct (IH (delete (Fs.pathJoin (platform m) (capturesDir m) file) fs) Hnd) as (fs' & Hrun & Hl).
      { intros f Hf. destruct (Hall f) as (n' & L' & Hexp'); [now right|].
        exists n'. split; [|exact Hexp'].
        rewrite lookup_delete_ne; [exact L'|].
        intros Heq. apply pathJoin_inj in Heq. congruence. }
      exists fs'. split; [exact Hrun|]. intros path. rewrite Hl.
      cbn [cleanupHits existsb]. fold (cleanupHits m rest path).
      case_bool_decide as Hp.
      * subst path. rewrite lookup_delete_eq, L. simpl. now rewrite E.
      * rewrite lookup_delete_ne by congruence. reflexivity.
    + destruct (IH fs Hnd) as (fs' & Hrun & Hl).
      { intros f Hf. apply Hall. now right. }
      exists fs'. split; [exact Hrun|]. intros path. rewrite Hl.
      cbn [cleanupHits existsb]. fold (cleanupHits m rest path).
      destruct (fs !! path) as [n'|] eqn:L'; [|reflexivity].
      case_bool_decide as Hp; [|reflexivity].
      subst path. assert (n' = n) as -> by congruence.
      rewrite E, !Bool.andb_false_r. reflexivity.
Qed.

(** The loop meets an expired directory among entries that are present. *)
Lemma cleanupEach_throws (files : list string) (fs : Fs.t) :
  NoDup files ->
  (forall file, file ∈ files -> is_Some (fs !! Fs.pathJoin (platform m) (capturesDir m) file)) ->
  (exists file mt, file ∈ files /\ fs !! Fs.pathJoin (platform m) (capturesDir m) file = Some (Fs.Dir mt) /\
                   expired now (Fs.Dir mt) = true) ->
  fst (cleanupEach m now files fs) <> None.
Proof.
  revert fs. induction files as [|file rest IH]; intros fs Hnd Hall Hbad.
  - destruct Hbad as (f & mt & Hin & _). inversion Hin.
  - apply NoDup_cons in Hnd as [Hnin Hnd].
    destruct (Hall file) as (n & L); [left|].
    destruct Hbad as (bad & mt & Hin & Lbad & Ebad).
    cbn [cleanupEach]. unfold cleanupFile, Fs.statSync. rewrite L. simpl.
    change (now - Fs.mtimeOf n >? fiveMinutes) with (expired now n).
    destruct (expired now n) eqn:E.
    + unfold Fs.unlinkSync. rewrite L.
      destruct n as [mtf bytes|mtd]; [|simpl; discriminate].
      apply IH; [exact Hnd| |].
      * intros f Hf. rewrite lookup_delete_ne; [apply Hall; now right|].
        intros Heq. apply pathJoin_inj in Heq. congruence.
      * apply elem_of_cons in Hin as [->|Hin]; [congruence|].
        exists bad, mt. split; [exact Hin|]. split; [|exact Ebad].
        rewrite lookup_delete_ne; [exact Lbad|].
        intros Heq. apply pathJoin_inj in Heq. congruence.
    + apply IH; [exact Hnd| |].
      * intros f Hf. apply Hall. now right.
      * apply elem_of_cons in Hin as [->|Hin]; [|eauto].
        assert (n = Fs.Dir mt) as -> by congruence. congruence.
Qed.

Lemma noExpiredDirectory_true (fs : Fs.t) (files : list string) :
  Fs.readdirSync (platform m) fs (capturesDir m) = Some files ->
  noExpiredDirectory m now fs = true <->
  forall file mt, file ∈ files -> fs !! Fs.pathJoin (platform m) (capturesDir m) file = Some (Fs.Dir mt) ->
                  expired now (Fs.Dir mt) = false.
Proof.
  intros R. unfold noExpiredDirectory. rewrite R. simpl.
  rewrite forallb_forall. split.
  - intros H file mt Hin L. apply list_elem_of_In in Hin.
    specialize (H file Hin). rewrite L in H.
    apply negb_true_iff in H. exact H.
  - intros H file Hin. apply list_elem_of_In in Hin.
    destruct (fs !! Fs.pathJoin (platform m) (capturesDir m) file) as [[|mt]|] eqn:L; try reflexivity.
    apply negb_true_iff. exact (H file mt Hin L).
Qed.

Lemma cleanup_returns (fs : Fs.t) (files : list string) :
  Fs.readdirSync (platform m) fs (capturesDir m) = Some files ->
  noExpiredDirectory m now fs = true ->
  exists fs',
    cleanup m now fs = (None, fs') /\
    forall path,
      fs' !! path =
      match fs !! path with
      | Some n => if cleanupHits m files path && expired now n
                  then None else Some n
      | None => None
      end.
Proof.
  intros R Hno. unfold cleanup. rewrite R.
  apply cleanupEach_lookup; [exact (readdirSync_NoDup _ _ _ _ R)|].
  intros file Hin.
  pose proof (proj1 (readdirSync_elem _ _ _ _ file R) Hin) as [[n L] _].
  exists n. split; [exact L|]. intros E.
  destruct n as [mt bytes|mt]; [eauto|].
  rewrite (proj1 (noExpiredDirectory_true fs files R) Hno file mt Hin L) in E.
  discriminate.
Qed.

End Cleanup.

(** X9: when the working directory is a directory holding no
    sub-directory older than five minutes, [cleanup] returns, removes
    exactly the direct entries last modified more than five minutes ago,
    whatever their names, and leaves every other node as it was. *)
Theorem cleanup_removes_exactly (m : Manager) (now : Z) (fs : Fs.t) (d : Z) :
  fs !! capturesDir m = Some (Fs.Dir d) ->
  noExpiredDirectory m now fs = true ->
  exists fs',
    WebcamManager.cleanup m now fs = (None, fs') /\
    (forall path n, fs !! path = Some n ->
       cleanupTarget m now path n -> fs' !! path = None) /\
    (forall path n, fs !! path = Some n ->
       ~ cleanupTarget m now path n -> fs' !! path = Some n) /\
    (forall path, fs !! path = None -> fs' !! path = None).
Proof.
  intros Hdir Hno.
  destruct (Fs.readdirSync (platform m) fs (capturesDir m)) as [files|] eqn:R;
    [|unfold Fs.readdirSync in R; rewrite Hdir in R; discriminate].
  destruct (cleanup_returns m now fs files R Hno) as (fs' & Hrun & L).
  exists fs'. split; [exact Hrun|].
  assert (Hiff : forall path n, fs !! path = Some n ->
            cleanupHits m files path && expired now n = true <->
            cleanupTarget m now path n).
  { intros path n Hn. rewrite andb_true_iff, cleanupHits_true. split.
    - intros [(file & Hin & ->) Hold].
      apply (readdirSync_elem _ _ _ _ _ R) in Hin as [_ Hp].
      exists file. repeat split; auto.
      unfold expired, WebcamManager.fiveMinutes in Hold. lia.
    - intros (name & -> & Hp & Hold). split.
      + exists name. split; [|reflexivity].
        apply (readdirSync_elem _ _ _ _ _ R). split; [eauto | exact Hp].
      + unfold expired, WebcamManager.fiveMinutes. lia. }
  repeat split.
  - intros path n Hn Ht. rewrite L, Hn.
    apply (Hiff _ _ Hn) in Ht. now rewrite Ht.
  - intros path n Hn Hnot. rewrite L, Hn.
    destruct (cleanupHits m files path && expired now n) eqn:E; [|reflexivity].
    exfalso. apply Hnot. now apply Hiff.
  - intros path Hn. now rewrite L, Hn.
Qed.

Lemma cleanup_removes_exactly_witness :
  exists fs',
    WebcamManager.cleanup sampleManager 1000000 sampleDisk = (None, fs') /\
    fs' !! "/tmp/huely-captures/notes.txt" = None /\
    fs' !! "/tmp/huely-captures/capture_990000_new.jpeg"
      = Some (Fs.File 990000 []).
Proof.
  destruct (cleanup_removes_exactly sampleManager 1000000 sampleDisk 0)
    as (fs' & Hrun & Hdel & Hkeep & _); [evaluate | evaluate |].
  exists fs'. split; [exact Hrun|]. split.
  - apply (Hdel _ (Fs.File 1000 [])); [evaluate|].
    exists "notes.txt". repeat split; evaluate.
  - apply Hkeep; [evaluate|].
    intros (name & _ & _ & Hold). simpl in Hold. lia.
Defined.

(** X10: [cleanup] throws exactly when the working directory is missing
    or is no directory, or one of its direct entries is a directory older
    than five minutes. *)
Theorem cleanup_throws_iff (m : Manager) (now : Z) (fs : Fs.t) :
  fst (WebcamManager.cleanup m now fs) = None <->
  (exists d, fs !! capturesDir m = Some (Fs.Dir d)) /\
  noExpiredDirectory m now fs = true.
Proof.
  split.
  - intros Hret.
    destruct (Fs.readdirSync (platform m) fs (capturesDir m)) as [files|] eqn:R.
    2:{ unfold WebcamManager.cleanup in Hret. rewrite R in Hret.
        discriminate. }
    split.
    { unfold Fs.readdirSync in R.
      destruct (fs !! capturesDir m) as [[|d]|]; try discriminate. eauto. }
    destruct (noExpiredDirectory m now fs) eqn:Hno; [reflexivity|].
    exfalso. revert Hret. unfold WebcamManager.cleanup. rewrite R.
    apply cleanupEach_throws.
    + exact (readdirSync_NoDup _ _ _ _ R).
    + intros file Hin.
      now apply (readdirSync_elem _ _ _ _ file R) in Hin as [? _].
    + unfold noExpiredDirectory in Hno. rewrite R in Hno. simpl in Hno.
      apply forallb_false in Hno as (file & Hin & Hf).
      destruct (fs !! Fs.pathJoin (platform m) (capturesDir m) file)
        as [[mtf bytes|mt]|] eqn:L; try discriminate.
      apply negb_false_iff in Hf. exists file, mt. auto.
  - intros [[d Hdir] Hno].
    destruct (Fs.readdirSync (platform m) fs (capturesDir m)) as [files|] eqn:R;
      [|unfold Fs.readdirSync in R; rewrite Hdir in R; discriminate].
    destruct (cleanup_returns m now fs files R Hno) as (fs' & -> & _).
    reflexivity.
Qed.

Lemma cleanup_throws_iff_witness :
  fst (WebcamManager.cleanup sampleManager 1000000 nestedDisk) <> None /\
  fst (WebcamManager.cleanup sampleManager 1000000 sampleDisk) = None.
Proof.
  split.
  - intros H.
    apply (proj1 (cleanup_throws_iff sampleManager 1000000 nestedDisk)) in H.
    destruct H as [_ H]. vm_compute in H. discriminate.
  - apply (proj2 (cleanup_throws_iff sampleManager 1000000 sampleDisk)).
    split; [exists 0|]; evaluate.
Defined.

(** ** Devices: listing, choosing, initialising *)

Section Devices.

Import Webcam.

Lemma push_fold {A B : Type} (P : A -> bool) (g : A -> B) (l : list A)
    (acc : list B) :
  foldl (fun devices i => if P i then devices ++ [g i] else devices) acc l
  = acc ++ (g <$> filter (fun i => P i = true) l).
Proof.
  revert acc. induction l as [|i l IH]; intros acc; simpl.
  - now rewrite app_nil_r.
  - rewrite IH. rewrite filter_cons. destruct (P i) eqn:E.
    + rewrite decide_True by reflexivity. simpl. now rewrite <- app_assoc.
    + rewrite decide_False by discriminate. reflexivity.
Qed.

Lemma linuxDevices_probed (fs : Fs.t) :
  linuxDevices fs
  = (fun i => {| name := "USB Camera (video" +:+ JS.numToString i +:+ ")";
                 id := JS.numToString i |}) <$> probed fs.
Proof.
  unfold linuxDevices, forRange.
  rewrite (push_fold
             (fun i => Fs.existsSync fs ("/dev/video" +:+ JS.numToString i))).
  reflexivity.
Qed.

Lemma listDevices_nonempty (p : Platform) (fs : Fs.t) (env : ListEnv) :
  listDevices p fs env <> [].
Proof.
  unfold listDevices.
  destruct p; try apply fallbackDevices_nonempty.
  destruct (Z.ltb_spec 0 (Z.of_nat (length (linuxDevices fs))))
    as [Hlen|_]; [|apply fallbackDevices_nonempty].
  destruct (linuxDevices fs); [simpl in Hlen; lia | discriminate].
Qed.

Lemma listDevices_linux_probed (fs : Fs.t) (env : ListEnv) :
  linuxDevices fs <> [] -> listDevices linux fs env = linuxDevices fs.
Proof.
  intros Hne. unfold listDevices.
  destruct (Z.ltb_spec 0 (Z.of_nat (length (linuxDevices fs)))) as [_|Hlen];
    [reflexivity|].
  destruct (linuxDevices fs); [congruence | simpl in Hlen; lia].
Qed.

Lemma probed_exists (fs : Fs.t) (i : Z) :
  i ∈ probed fs <->
  0 <= i < 10 /\ Fs.existsSync fs ("/dev/video" +:+ JS.numToString i) = true.
Proof.
  unfold probed. rewrite list_elem_of_filter, elem_of_seqZ. tauto.
Qed.

End Devices.

(** X11: on Linux, when a node /dev/video0 .. /dev/video9 exists, the
    devices listed are those nodes: for each device the path
    [initializeWebcam] hands to the capture program exists, no id is listed
    twice, and at most ten devices are listed. *)
Theorem linux_devices_exist (fs : Fs.t) (ran : WebcamManager.ExecResult)
    (listed : option (list string)) :
  Webcam.linuxDevices fs <> [] ->
  Forall (fun d =>
            Fs.existsSync fs
              (WebcamManager.device (WebcamManager.initializeWebcam linux (id d)))
            = true)
         (WebcamManager.listDevicesNamed linux fs ran listed) /\
  NoDup (id <$> WebcamManager.listDevicesNamed linux fs ran listed) /\
  (length (WebcamManager.listDevicesNamed linux fs ran listed) <= 10)%nat.
Proof.
  intros Hne. unfold WebcamManager.listDevicesNamed.
  rewrite (listDevices_linux_probed fs _ Hne), linuxDevices_probed.
  split; [|split].
  - apply Forall_fmap, Forall_forall. intros i Hi.
    apply probed_exists in Hi as [_ Hi]. exact Hi.
  - rewrite <- list_fmap_compose.
    apply (NoDup_fmap_2 (pretty : Z -> string)).
    unfold probed. apply NoDup_filter, NoDup_seqZ.
  - rewrite length_fmap. unfold probed.
    etransitivity; [apply length_filter|]. now rewrite length_seqZ.
Qed.

Lemma linux_devices_exist_witness :
  Forall (fun d =>
            Fs.existsSync {[ "/dev/video0" := Fs.File 0 [];
                             "/dev/video2" := Fs.File 0 [] ]}
              (WebcamManager.device (WebcamManager.initializeWebcam linux (id d)))
            = true)
         (WebcamManager.listDevicesNamed linux
            {[ "/dev/video0" := Fs.File 0 []; "/dev/video2" := Fs.File 0 [] ]}
            {| WebcamManager.ex_error := true; WebcamManager.ex_stdout := "";
               WebcamManager.ex_stderr := "" |} None).
Proof.
  apply linux_devices_exist. evaluate.
Defined.

(** X12: [selectAndInitializeWebcam] never fails with the
    no-webcams error, asks nothing when one device is listed, and otherwise
    initialises the webcam with the id of the entry chosen at the prompt. *)
Theorem selectAndInitializeWebcam_chosen (p : Platform) (fs : Fs.t)
    (ran : WebcamManager.ExecResult) (listed : option (list string))
    (answer : nat) :
  (forall message,
     HuelyCLI.selectAndInitializeWebcam p fs ran listed answer
     <> Some (inl message)) /\
  (forall only,
     WebcamManager.listDevicesNamed p fs ran listed = [only] ->
     HuelyCLI.selectAndInitializeWebcam p fs ran listed answer
     = Some (inr (WebcamManager.initializeWebcam p (id only)))) /\
  (forall d,
     WebcamManager.listDevicesNamed p fs ran listed !! answer = Some d ->
     HuelyCLI.selectAndInitializeWebcam p fs ran listed answer
     = Some (inr (WebcamManager.initializeWebcam p (id d)))).
Proof.
  unfold HuelyCLI.selectAndInitializeWebcam.
  pose proof (listDevices_nonempty p fs
                {| Webcam.cameraNames := WebcamManager.getCameraNames p ran;
                   Webcam.webcamList := listed |}) as Hne.
  fold (WebcamManager.listDevicesNamed p fs ran listed) in Hne.
  destruct (WebcamManager.listDevicesNamed p fs ran listed)
    as [|first [|second rest]] eqn:E; [congruence| |].
  - split; [discriminate|]. split.
    + now intros only [= <-].
    + intros d Hd. simpl.
      destruct answer; simpl in Hd; [now injection Hd as <-|discriminate].
  - split; [|split].
    + intros message. unfold CLIUI.selectWebcam.
      destruct ((first :: second :: rest) !! answer); discriminate.
    + discriminate.
    + intros d Hd. unfold CLIUI.selectWebcam. now rewrite Hd.
Qed.

Lemma selectAndInitializeWebcam_chosen_witness :
  HuelyCLI.selectAndInitializeWebcam win32 ∅
    {| WebcamManager.ex_error := false;
       WebcamManager.ex_stdout := "HD Webcam";
       WebcamManager.ex_stderr := "" |}
    (Some ["0"; "1"]) 1
  = Some (inr (WebcamManager.initializeWebcam win32 "1")).
Proof.
  apply (proj2 (proj2 (selectAndInitializeWebcam_chosen win32 ∅
                         {| WebcamManager.ex_error := false;
                            WebcamManager.ex_stdout := "HD Webcam";
                            WebcamManager.ex_stderr := "" |}
                         (Some ["0"; "1"]) 1))
           {| name := "Webcam 2 (Device 1)"; id := "1" |}).
  evaluate.
Defined.

(** X13: on Linux, when none of /dev/video0 .. /dev/video9 exists and
    node-webcam lists nothing, the webcam is initialised, without a
    prompt, on /dev/video0, a path that does not exist. *)
Theorem linux_default_device_missing (fs : Fs.t)
    (ran : WebcamManager.ExecResult) (listed : option (list string))
    (answer : nat) :
  Webcam.linuxDevices fs = [] ->
  listed = None \/ listed = Some [] ->
  exists opts,
    HuelyCLI.selectAndInitializeWebcam linux fs ran listed answer
    = Some (inr opts) /\
    WebcamManager.device opts = "/dev/video0" /\
    Fs.existsSync fs (WebcamManager.device opts) = false.
Proof.
  intros Hnone Hlist.
  exists (WebcamManager.initializeWebcam linux "0").
  split; [|split].
  - unfold HuelyCLI.selectAndInitializeWebcam, WebcamManager.listDevicesNamed,
      Webcam.listDevices.
    rewrite Hnone. simpl. unfold Webcam.fallbackDevices. simpl.
    destruct Hlist as [-> | ->]; reflexivity.
  - reflexivity.
  - rewrite linuxDevices_probed in Hnone.
    apply fmap_nil_inv in Hnone.
    destruct (Fs.existsSync fs "/dev/video0") eqn:E; [|exact E].
    assert (H0 : 0 ∈ probed fs) by (apply probed_exists; split; [lia | exact E]).
    rewrite Hnone in H0. inversion H0.
Qed.

Lemma linux_default_device_missing_witness :
  exists opts,
    HuelyCLI.selectAndInitializeWebcam linux sampleDisk
      {| WebcamManager.ex_error := true; WebcamManager.ex_stdout := "";
         WebcamManager.ex_stderr := "" |} None 0
    = Some (inr opts) /\
    WebcamManager.device opts = "/dev/video0" /\
    Fs.existsSync sampleDisk (WebcamManager.device opts) = false.
Proof.
  apply linux_default_device_missing.
  - evaluate.
  - now left.
Defined.

(** ** Camera names *)

Section Names.

Import JSText.

Lemma trimEnd_head (c : ascii) (s : string) :
  JS.isSpace c = false -> trimEnd (String c s) <> "".
Proof.
  intros Hc. simpl. destruct (trimEnd s); [rewrite Hc|]; discriminate.
Qed.

Lemma trim_head (c : ascii) (s : string) :
  JS.isSpace c = false -> trim (String c s) <> "".
Proof.
  intros Hc. unfold trim. simpl. rewrite Hc. now apply trimEnd_head.
Qed.

Lemma splitLines_pieces (s : string) :
  Forall (fun piece => forall i, String.get i piece <> Some newline)
         (splitLines s).
Proof.
  induction s as [|c s IH]; simpl.
  - repeat constructor. intros i. destruct i; discriminate.
  - case_bool_decide as Hc.
    + constructor; [|exact IH]. intros i. destruct i; discriminate.
    + destruct (splitLines s) as [|piece rest].
      * repeat constructor. intros [|i]; simpl; [congruence|].
        destruct i; discriminate.
      * inversion IH as [|? ? Hp Hrest]; subst. constructor; [|exact Hrest].
        intros [|i]; simpl; [congruence | apply Hp].
Qed.

Lemma getCameraNames_elem (p : Platform) (ran : WebcamManager.ExecResult)
    (name : string) :
  name ∈ WebcamManager.getCameraNames p ran ->
  trim name <> "" /\ forall i, String.get i name <> Some newline.
Proof.
  unfold WebcamManager.getCameraNames. intros H.
  assert (Hin : name ∈ filter (fun name => trim name <> "")
                         (splitLines (trim (WebcamManager.ex_stdout ran)))).
  { destruct p; try exact H; try (inversion H);
      destruct (WebcamManager.ex_error ran
                || negb (bool_decide (WebcamManager.ex_stderr ran = "")));
      try exact H; inversion H. }
  apply list_elem_of_filter in Hin as [Hb Hin]. split; [exact Hb|].
  pose proof (splitLines_pieces (trim (WebcamManager.ex_stdout ran))) as Hp.
  rewrite Forall_forall in Hp. now apply Hp.
Qed.

End Names.

(** X14: the names [getCameraNames] resolves to are never blank and
    hold no line feed; and a platform without a command, a failed command,
    output on the error stream or blank output all give no names. *)
Theorem getCameraNames_names (p : Platform) (ran : WebcamManager.ExecResult) :
  Forall (fun name =>
            JSText.trim name <> "" /\
            forall i, String.get i name <> Some JSText.newline)
         (WebcamManager.getCameraNames p ran) /\
  (p = otherPlatform \/ WebcamManager.ex_error ran = true \/
   WebcamManager.ex_stderr ran <> "" \/
   JSText.trim (WebcamManager.ex_stdout ran) = "" ->
   WebcamManager.getCameraNames p ran = []).
Proof.
  split.
  - apply Forall_forall. intros name. apply getCameraNames_elem.
  - unfold WebcamManager.getCameraNames.
    intros [-> | [He | [Hs | Hb]]]; [reflexivity | | |].
    + rewrite He. now destruct p.
    + rewrite (bool_decide_eq_false_2 _ Hs), orb_true_r. now destruct p.
    + rewrite Hb. simpl.
      destruct p; try reflexivity;
        destruct (WebcamManager.ex_error ran || _); reflexivity.
Qed.

Lemma getCameraNames_names_witness :
  WebcamManager.getCameraNames linux
    {| WebcamManager.ex_error := false; WebcamManager.ex_stdout := "  ";
       WebcamManager.ex_stderr := "" |}
  = [].
Proof.
  apply (proj2 (getCameraNames_names linux
                  {| WebcamManager.ex_error := false;
                     WebcamManager.ex_stdout := "  ";
                     WebcamManager.ex_stderr := "" |})).
  right. right. right. evaluate.
Defined.

(** X15: every device [listDevices] offers for selection carries a name
    that is not blank, whether the name comes from the operating system's
    command or is made up. *)
Theorem listDevices_names_not_blank (p : Platform) (fs : Fs.t)
    (ran : WebcamManager.ExecResult) (listed : option (list string)) :
  Forall (fun d => JSText.trim (name d) <> "")
         (WebcamManager.listDevicesNamed p fs ran listed).
Proof.
  assert (Hfall : Forall (fun d => JSText.trim (name d) <> "")
            (Webcam.fallbackDevices
               {| Webcam.cameraNames := WebcamManager.getCameraNames p ran;
                  Webcam.webcamList := listed |})).
  { unfold Webcam.fallbackDevices. simpl.
    assert (Hdefault : Forall (fun d => JSText.trim (name d) <> "")
                         [{| name := "Default Camera"; id := "0" |}])
      by (repeat constructor; vm_compute; discriminate).
    destruct listed as [[|device rest]|]; [exact Hdefault| |exact Hdefault].
    apply Forall_forall. intros d Hd.
    apply elem_of_lookup_imap_1 in Hd as (index & dev & -> & _).
    unfold Webcam.describeDevice. simpl.
    destruct (WebcamManager.getCameraNames p ran !! index) as [n|] eqn:L;
      simpl.
    - case_bool_decide as Hn.
      + case_bool_decide; rewrite append_cons; now apply trim_head.
      + apply (getCameraNames_elem p ran). eapply list_elem_of_lookup_2, L.
    - case_bool_decide; rewrite append_cons; now apply trim_head. }
  unfold WebcamManager.listDevicesNamed, Webcam.listDevices.
  destruct p; try exact Hfall.
  destruct (0 <? Z.of_nat (length (Webcam.linuxDevices fs))); [|exact Hfall].
  rewrite linuxDevices_probed. apply Forall_fmap, Forall_forall.
  intros i _. simpl. rewrite append_cons. now apply trim_head.
Qed.

(** ** Keys and prompts *)

(** A loop that takes the first element a test accepts. *)
Lemma first_accepted {A B : Type} (test : A -> option B)
    (loop : list A -> option (B * list A)) :
  (forall l, loop l = match l with
                      | [] => None
                      | x :: rest =>
                          match test x with
                          | Some y => Some (y, rest)
                          | None => loop rest
                          end
                      end) ->
  forall l y rest,
    loop l = Some (y, rest) <->
    exists skipped x,
      l = skipped ++ x :: rest /\
      Forall (fun z => test z = None) skipped /\ test x = Some y.
Proof.
  intros Hloop l y rest. induction l as [|a l IH]; rewrite Hloop.
  - split; [discriminate|]. intros ([|? ?] & x & H & _); discriminate.
  - destruct (test a) as [b|] eqn:E.
    + split.
      * intros [= <- <-]. exists [], a. auto.
      * intros ([|s skipped] & x & H & Hs & Hx).
        -- injection H as <- <-. congruence.
        -- injection H as <- _. inversion Hs; congruence.
    + rewrite IH. split.
      * intros (skipped & x & -> & Hs & Hx). exists (a :: skipped), x. auto.
      * intros ([|s skipped] & x & H & Hs & Hx).
        -- injection H as <- _. congruence.
        -- injection H as <- ->. inversion Hs; subst. eauto.
Qed.

(** X16: [waitForKeypress] resolves with the command of the first chunk
    that is one, leaving the chunks behind it unread; every chunk before it
    is dropped, and while no chunk is a command the promise stays
    pending. *)
Theorem waitForKeypress_first_command (chunks : list (list byte)) :
  (forall key rest,
     CLIUI.waitForKeypress chunks = Some (key, rest) <->
     exists dropped chunk,
       chunks = dropped ++ chunk :: rest /\
       Forall (fun c => CLIUI.handler c = None) dropped /\
       CLIUI.handler chunk = Some key) /\
  (CLIUI.waitForKeypress chunks = None <->
   Forall (fun c => CLIUI.handler c = None) chunks).
Proof.
  split.
  - intros key rest. apply (first_accepted CLIUI.handler).
    intros [|? ?]; reflexivity.
  - induction chunks as [|c chunks IH]; simpl.
    + split; [constructor | reflexivity].
    + destruct (CLIUI.handler c) eqn:E.
      * split; [discriminate|]. intros H. inversion H; congruence.
      * rewrite IH. split; [now constructor | now inversion 1].
Qed.

(** X17: a chunk of two or more bytes (an escape sequence, pasted text,
    keys typed faster than they are read) is a command only when its first
    byte is 3, and then it is [quit]. *)
Theorem handler_long_chunk (chunk : list byte) :
  (2 <= length chunk)%nat ->
  CLIUI.handler chunk
  = if Webcam.byteIs (head chunk) 3 then Some CLIUI.quit else None.
Proof.
  intros Hlen. destruct chunk as [|a [|b rest]]; simpl in Hlen; try lia.
  unfold CLIUI.handler, CLIUI.chunkIs.
  destruct (Webcam.byteIs (head (a :: b :: rest)) 3); reflexivity.
Qed.

Lemma handler_long_chunk_witness :
  CLIUI.handler [x71; x71] = None /\
  CLIUI.handler [x03; x71] = Some CLIUI.quit.
Proof.
  split.
  - rewrite (handler_long_chunk [x71; x71]); [reflexivity | simpl; lia].
  - rewrite (handler_long_chunk [x03; x71]); [reflexivity | simpl; lia].
Defined.

Lemma prefix_cons (a b : ascii) (p s : string) :
  String.prefix (String a p) (String b s)
  = if ascii_dec a b then String.prefix p s else false.
Proof. reflexivity. Qed.

Lemma startsWith_sk (input : string) :
  JS.startsWith "sk-" input = true ->
  exists rest, input = String "s" (String "k" (String "-" rest)).
Proof.
  unfold JS.startsWith. intros H.
  destruct input as [|a input]; [vm_compute in H; discriminate|].
  rewrite prefix_cons in H.
  destruct (ascii_dec "s" a) as [<-|]; [|discriminate].
  destruct input as [|b input]; [vm_compute in H; discriminate|].
  rewrite prefix_cons in H.
  destruct (ascii_dec "k" b) as [<-|]; [|discriminate].
  destruct input as [|c input]; [vm_compute in H; discriminate|].
  rewrite prefix_cons in H.
  destruct (ascii_dec "-" c) as [<-|]; [|discriminate].
  eauto.
Qed.

(** X18: the prompt for the API key accepts a line exactly when it starts
    with [sk-] (the emptiness test refuses nothing that test would let
    through), and [promptApiKey] returns the first line entered that does,
    as it was typed. *)
Theorem promptApiKey_first_accepted (inputs : list string) :
  (forall input,
     CLIUI.validate input = inr tt <-> JS.startsWith "sk-" input = true) /\
  (forall apiKey,
     CLIUI.promptApiKey inputs = Some apiKey <->
     exists refused rest,
       inputs = refused ++ apiKey :: rest /\
       Forall (fun line => JS.startsWith "sk-" line = false) refused /\
       JS.startsWith "sk-" apiKey = true).
Proof.
  assert (Hv : forall input,
            CLIUI.validate input = inr tt <-> JS.startsWith "sk-" input = true).
  { intros input. unfold CLIUI.validate. split.
    - destruct (_ || _); [discriminate|].
      destruct (JS.startsWith "sk-" input); [reflexivity | discriminate].
    - intros H. rewrite H. simpl.
      destruct (startsWith_sk input H) as [rest ->].
      rewrite bool_decide_eq_false_2 by discriminate. simpl.
      pose proof (trim_head "s" (String "k" (String "-" rest)) eq_refl) as Ht.
      destruct (JSText.trim _); [congruence | reflexivity]. }
  split; [exact Hv|].
  induction inputs as [|line inputs IH]; intros apiKey; simpl.
  - split; [discriminate|]. intros ([|? ?] & ? & H & _); discriminate.
  - destruct (CLIUI.validate line) as [why|[]] eqn:E.
    + assert (Hs : JS.startsWith "sk-" line = false).
      { destruct (JS.startsWith "sk-" line) eqn:S; [|reflexivity].
        apply Hv in S. congruence. }
      rewrite IH. split.
      * intros (refused & rest & -> & Hr & Hk).
        exists (line :: refused), rest. auto.
      * intros ([|r refused] & rest & H & Hr & Hk).
        -- injection H as <- _. congruence.
        -- injection H as <- ->. inversion Hr; subst. eauto.
    + apply Hv in E. split.
      * intros [= <-]. exists [], inputs. auto.
      * intros ([|r refused] & rest & H & Hr & Hk).
        -- now injection H as <- _.
        -- injection H as <- _. inversion Hr; congruence.
Qed.

(** ** The vision client *)

Section Analyze.

Import OpenAIClient.
Variable api : Api.
Variable imagePath : string.
Variable prompt : option string.
Variable fs : Fs.t.

Lemma isJpeg_magic (imageBuffer : list byte) :
  isJpeg imageBuffer = true <-> take 2 imageBuffer = [xff; xd8].
Proof. apply (magic_take2 imageBuffer xff xd8). Qed.

Lemma whyThrown_nonempty (syscall : string) (disk : Fs.t) (path : string) :
  Fs.whyThrown syscall disk path <> "".
Proof.
  unfold Fs.whyThrown. destruct (disk !! path) as [[|]|]; discriminate.
Qed.

(** Every way the [try] block can throw before the request is made. *)
Lemma analyzeChecked_offline :
  (forall mtimeMs bytes,
     fs !! imagePath = Some (Fs.File mtimeMs bytes) ->
     take 2 bytes <> [xff; xd8]) ->
  exists reason,
    reason <> "" /\
    forall api', analyzeChecked api' imagePath prompt fs = inl reason.
Proof.
  intros Hnot. unfold analyzeChecked, Fs.existsSync, Fs.readFileSync.
  destruct (fs !! imagePath) as [[mt bytes|mt]|] eqn:L.
  - rewrite bool_decide_eq_true_2 by eauto. simpl.
    destruct (Z.of_nat (length bytes) =? 0);
      [exists "Captured image file is empty"; split; [discriminate | auto]|].
    destruct (isJpeg bytes) eqn:J.
    + apply isJpeg_magic in J. exfalso. exact (Hnot mt bytes eq_refl J).
    + exists "Image is not in JPEG format after conversion".
      split; [discriminate | auto].
  - rewrite bool_decide_eq_true_2 by eauto. simpl.
    exists (Fs.whyThrown "read" fs imagePath).
    split; [apply whyThrown_nonempty | auto].
  - rewrite bool_decide_eq_false_2 by (intros [? ?]; discriminate). simpl.
    exists ("Image file not found: " +:+ imagePath).
    split; [discriminate | auto].
Qed.

End Analyze.

(** X19: [analyzeImage] returns an analysis exactly when the path names
    a regular file that starts with the JPEG marker FF D8 and the request
    that carries exactly that file's bytes in base64, with the caller's
    prompt or else the default one, is answered; the analysis is then the
    content of the answer, or [No response from OpenAI] when the answer
    has none.  An analysis is never the empty string, and every failure
    carries the prefix [Failed to analyze image: ] followed by a reason. *)
Theorem analyzeImage_result (api : OpenAIClient.Api) (imagePath : string)
    (prompt : option string) (fs : Fs.t) :
  (forall analysis,
     OpenAIClient.analyzeImage api imagePath prompt fs = inr analysis <->
     exists mtimeMs bytes answer,
       fs !! imagePath = Some (Fs.File mtimeMs bytes) /\
       take 2 bytes = [xff; xd8] /\
       OpenAIClient.create api
         ("data:image/jpeg;base64," +:+ JSText.toBase64 bytes)
         (orElse prompt OpenAIClient.defaultPrompt)
       = inr answer /\
       analysis = orElse answer "No response from OpenAI") /\
  (forall analysis,
     OpenAIClient.analyzeImage api imagePath prompt fs = inr analysis ->
     analysis <> "") /\
  (forall message,
     OpenAIClient.analyzeImage api imagePath prompt fs = inl message ->
     exists reason,
       message = "Failed to analyze image: " +:+ reason /\ reason <> "").
Proof.
  assert (Hiff : forall analysis,
            OpenAIClient.analyzeImage api imagePath prompt fs = inr analysis <->
            exists mtimeMs bytes answer,
              fs !! imagePath = Some (Fs.File mtimeMs bytes) /\
              take 2 bytes = [xff; xd8] /\
              OpenAIClient.create api
                ("data:image/jpeg;base64," +:+ JSText.toBase64 bytes)
                (orElse prompt OpenAIClient.defaultPrompt)
              = inr answer /\
              analysis = orElse answer "No response from OpenAI").
  { intros analysis.
    unfold OpenAIClient.analyzeImage, OpenAIClient.analyzeChecked,
      Fs.existsSync, Fs.readFileSync.
    fold (orElse prompt OpenAIClient.defaultPrompt).
    destruct (fs !! imagePath) as [[mt bytes|mt]|] eqn:L.
    - rewrite bool_decide_eq_true_2 by eauto. cbn [negb].
      destruct (Z.of_nat (length bytes) =? 0) eqn:Hlen.
      { split; [discriminate|].
        intros (? & bytes' & ? & [= _ <-] & Hj & _).
        destruct bytes; [discriminate | simpl in Hlen; lia]. }
      destruct (OpenAIClient.isJpeg bytes) eqn:J; cbn [negb].
      + apply isJpeg_magic in J.
        destruct (OpenAIClient.create api _
                    (orElse prompt OpenAIClient.defaultPrompt))
          as [why|answer] eqn:C.
        * split; [discriminate|].
          intros (? & ? & ? & [= _ <-] & _ & C' & _). congruence.
        * assert (Hshown : (match answer with
                            | Some content =>
                                inr (if bool_decide (content = "")
                                     then "No response from OpenAI"
                                     else content)
                            | None => inr "No response from OpenAI"
                            end : string + string)
                           = inr (orElse answer "No response from OpenAI"))
            by (destruct answer; reflexivity).
          rewrite Hshown. split.
          -- intros [= <-]. exists mt, bytes, answer. auto.
          -- intros (? & ? & answer' & [= _ <-] & _ & C' & ->).
             rewrite C in C'. now injection C' as <-.
      + split; [discriminate|].
        intros (? & ? & ? & [= _ <-] & Hj & _).
        apply isJpeg_magic in Hj. congruence.
    - rewrite bool_decide_eq_true_2 by eauto. cbn [negb].
      split; [discriminate|]. intros (? & ? & ? & ? & _). discriminate.
    - rewrite bool_decide_eq_false_2 by (intros [? ?]; discriminate).
      cbn [negb].
      split; [discriminate|]. intros (? & ? & ? & ? & _). discriminate. }
  split; [exact Hiff|]. split.
  - intros analysis H. apply Hiff in H as (_ & _ & answer & _ & _ & _ & ->).
    unfold orElse. destruct answer as [content|]; [|discriminate].
    case_bool_decide; [discriminate | assumption].
  - intros message. unfold OpenAIClient.analyzeImage.
    destruct (OpenAIClient.analyzeChecked api imagePath prompt fs)
      as [why|answer]; [|discriminate].
    intros [= <-]. case_bool_decide as Hw.
    + exists "Error". split; [reflexivity | discriminate].
    + exists why. auto.
Qed.

Lemma analyzeImage_result_witness :
  OpenAIClient.analyzeImage sampleApi "/tmp/shot.jpeg" None jpegDisk
  = inr "42" /\
  exists reason,
    "Failed to analyze image: Image file not found: /tmp/none.jpeg"
    = "Failed to analyze image: " +:+ reason /\ reason <> "".
Proof.
  split.
  - apply (proj1 (analyzeImage_result sampleApi "/tmp/shot.jpeg" None
                    jpegDisk)).
    exists 0, [xff; xd8; x00], (Some "42"). repeat split; evaluate.
  - apply (proj2 (proj2 (analyzeImage_result sampleApi "/tmp/none.jpeg" None
                           jpegDisk))).
    evaluate.
Defined.

(** X20: unless the path names a regular file that starts with FF D8,
    [analyzeImage] fails without consulting the API: whatever the API
    would answer, the failure is the same. *)
Theorem analyzeImage_offline_refusal (api : OpenAIClient.Api)
    (imagePath : string) (prompt : option string) (fs : Fs.t) :
  (forall mtimeMs bytes,
     fs !! imagePath = Some (Fs.File mtimeMs bytes) ->
     take 2 bytes <> [xff; xd8]) ->
  exists reason,
    reason <> "" /\
    forall api',
      OpenAIClient.analyzeImage api' imagePath prompt fs
      = inl ("Failed to analyze image: " +:+ reason).
Proof.
  intros Hnot.
  destruct (analyzeChecked_offline imagePath prompt fs Hnot)
    as (reason & Hne & Hall).
  exists reason. split; [exact Hne|]. intros api'.
  unfold OpenAIClient.analyzeImage. rewrite Hall.
  now rewrite bool_decide_eq_false_2 by exact Hne.
Qed.

Lemma analyzeImage_offline_refusal_witness :
  exists reason,
    reason <> "" /\
    forall api',
      OpenAIClient.analyzeImage api' "/tmp/huely-captures/notes.txt" None
        sampleDisk
      = inl ("Failed to analyze image: " +:+ reason).
Proof.
  apply (analyzeImage_offline_refusal
           {| OpenAIClient.create := fun _ _ => inr None |}).
  intros mt bytes H.
  assert (bytes = []) as ->; [|discriminate].
  change (sampleDisk !! "/tmp/huely-captures/notes.txt")
    with (Some (Fs.File 1000 [])) in H.
  congruence.
Defined.

(** ** From the capture to the analysis *)

(** A capture phase that finished has the file of its last call on disk. *)
Lemma finished_file (m : Manager) (envs : nat -> AttemptEnv) (fs : Fs.t)
    (path : string) :
  finishedPath (Cli.captureWithRetries m envs fs) = Some path ->
  exists st mtimeMs bytes,
    Cli.captureWithRetries m envs fs = Cli.Finished st /\
    Cli.imagePath st = Some path /\
    Cli.disk st !! path = Some (Fs.File mtimeMs bytes) /\
    Webcam.isImageBlack bytes = false.
Proof.
  intros Hp.
  destruct (captureWithRetries_settles m envs fs)
    as (st & pre & last & Hout & _ & _ & _ & Hrep & Hlast).
  destruct last as [p|message|].
  2:{ destruct Hlast as (Hr & _). rewrite Hr in Hp. discriminate. }
  2:{ rewrite Hlast in Hp. discriminate. }
  destruct Hlast as (Hr & Himg & _).
  rewrite Hr in Hp. simpl in Hp. rewrite Himg in Hp. injection Hp as ->.
  unfold Cli.calls in Hrep. rewrite Hout in Hrep.
  rewrite length_app in Hrep. simpl in Hrep.
  rewrite Nat.add_1_r, replay_snoc in Hrep. simpl in Hrep.
  injection Hrep as Ho Hd.
  apply app_inj_tail in Ho as [_ Ho].
  destruct (captureImage_resolved_lookup m (envs (length pre))
              (snd (replay m envs 0 (length pre) fs)) path (Cli.disk st))
    as (mt & bytes & L & K).
  { rewrite Hd, Ho. now destruct (Webcam.captureImage _ _ _). }
  exists st, mt, bytes. auto.
Qed.

(** X21: when the capture phase of [captureAndAnalyze] ends with an
    image, the analysis is run on a regular file the guard does not call
    black, with the default prompt, and the disk stays as the last capture
    left it.  A file that does not start with FF D8 (a PNG, say) is
    reported as captured and then refused without a request; for a JPEG
    the user is shown the answer to a request that carries exactly the
    file's bytes. *)
Theorem capture_then_analysis (m : Manager) (envs : nat -> AttemptEnv)
    (fs : Fs.t) (path : string) :
  finishedPath (Cli.captureWithRetries m envs fs) = Some path ->
  exists st mtimeMs bytes,
    Cli.captureWithRetries m envs fs = Cli.Finished st /\
    Cli.disk st !! path = Some (Fs.File mtimeMs bytes) /\
    Webcam.isImageBlack bytes = false /\
    (take 2 bytes <> [xff; xd8] ->
     exists reason,
       (reason = "Captured image file is empty" \/
        reason = "Image is not in JPEG format after conversion") /\
       forall api,
         HuelyCLI.captureAndAnalyzeWith m envs (Some api) fs
         = Some (Cli.events st ++
                 [Cli.ShowAnalyzing;
                  Cli.ShowError
                    ("Failed to capture/analyze: Failed to analyze image: "
                     +:+ reason)],
                 Cli.disk st)) /\
    (take 2 bytes = [xff; xd8] ->
     forall api content,
       OpenAIClient.create api
         ("data:image/jpeg;base64," +:+ JSText.toBase64 bytes)
         OpenAIClient.defaultPrompt = inr (Some content) ->
       content <> "" ->
       HuelyCLI.captureAndAnalyzeWith m envs (Some api) fs
       = Some (Cli.events st ++
               [Cli.ShowAnalyzing; Cli.SpinnerSucceed "Analysis complete!";
                Cli.ShowResponse content],
               Cli.disk st)).
Proof.
  intros Hp.
  destruct (finished_file m envs fs path Hp)
    as (st & mt & bytes & Hr & Himg & L & K).
  exists st, mt, bytes. split; [exact Hr|]. split; [exact L|].
  split; [exact K|].
  assert (Hrun : forall api,
            HuelyCLI.captureAndAnalyzeWith m envs (Some api) fs
            = match OpenAIClient.analyzeImage api path None (Cli.disk st) with
              | inr analysis =>
                  Some (Cli.events st ++
                        [Cli.ShowAnalyzing;
                         Cli.SpinnerSucceed "Analysis complete!";
                         Cli.ShowResponse analysis], Cli.disk st)
              | inl message =>
                  Some (Cli.events st ++
                        [Cli.ShowAnalyzing;
                         Cli.ShowError
                           ("Failed to capture/analyze: " +:+ message)],
                        Cli.disk st)
              end).
  { intros api. unfold HuelyCLI.captureAndAnalyzeWith, Cli.captureAndAnalyze.
    simpl. rewrite Hr, Himg. reflexivity. }
  assert (Hcheck : forall api,
            OpenAIClient.analyzeChecked api path None (Cli.disk st)
            = if Z.of_nat (length bytes) =? 0
              then inl "Captured image file is empty"
              else if negb (OpenAIClient.isJpeg bytes)
              then inl "Image is not in JPEG format after conversion"
              else
                match OpenAIClient.create api
                        ("data:image/jpeg;base64," +:+ JSText.toBase64 bytes)
                        OpenAIClient.defaultPrompt with
                | inl message => inl message
                | inr (Some content) =>
                    inr (if bool_decide (content = "")
                         then "No response from OpenAI" else content)
                | inr None => inr "No response from OpenAI"
                end).
  { intros api. unfold OpenAIClient.analyzeChecked, Fs.readFileSync.
    rewrite (proj2 (existsSync_true (Cli.disk st) path)) by eauto.
    rewrite L. reflexivity. }
  split.
  - intros Hnot.
    assert (Hj : OpenAIClient.isJpeg bytes = false).
    { destruct (OpenAIClient.isJpeg bytes) eqn:J; [|reflexivity].
      apply (magic_take2 bytes xff xd8) in J. contradiction. }
    destruct (Z.of_nat (length bytes) =? 0) eqn:Hlen.
    + exists "Captured image file is empty". split; [now left|].
      intros api. rewrite Hrun. unfold OpenAIClient.analyzeImage.
      rewrite Hcheck. reflexivity.
    + exists "Image is not in JPEG format after conversion".
      split; [now right|].
      intros api. rewrite Hrun. unfold OpenAIClient.analyzeImage.
      rewrite Hcheck, Hj. reflexivity.
  - intros Hjpeg api content Hc Hne.
    assert (Hj : OpenAIClient.isJpeg bytes = true)
      by now apply (magic_take2 bytes xff xd8).
    assert (Hlen : (Z.of_nat (length bytes) =? 0) = false).
    { destruct bytes; [discriminate|]. apply Z.eqb_neq. simpl. lia. }
    rewrite Hrun. unfold OpenAIClient.analyzeImage.
    rewrite Hcheck, Hlen, Hj, Hc. simpl.
    now rewrite bool_decide_eq_false_2 by exact Hne.
Qed.

Lemma capture_then_analysis_witness :
  exists st mtimeMs bytes,
    Cli.captureWithRetries sampleManager
      (fun _ => sampleEnv 1000000 100 pngBytes) sampleDisk = Cli.Finished st /\
    Cli.disk st !! "/tmp/huely-captures/capture_1000000_k3x9qa.jpeg"
      = Some (Fs.File mtimeMs bytes) /\
    Webcam.isImageBlack bytes = false /\
    (take 2 bytes <> [xff; xd8] ->
     exists reason,
       (reason = "Captured image file is empty" \/
        reason = "Image is not in JPEG format after conversion") /\
       forall api,
         HuelyCLI.captureAndAnalyzeWith sampleManager
           (fun _ => sampleEnv 1000000 100 pngBytes) (Some api) sampleDisk
         = Some (Cli.events st ++
                 [Cli.ShowAnalyzing;
                  Cli.ShowError
                    ("Failed to capture/analyze: Failed to analyze image: "
                     +:+ reason)],
                 Cli.disk st)) /\
    (take 2 bytes = [xff; xd8] ->
     forall api content,
       OpenAIClient.create api
         ("data:image/jpeg;base64," +:+ JSText.toBase64 bytes)
         OpenAIClient.defaultPrompt = inr (Some content) ->
       content <> "" ->
       HuelyCLI.captureAndAnalyzeWith sampleManager
         (fun _ => sampleEnv 1000000 100 pngBytes) (Some api) sampleDisk
       = Some (Cli.events st ++
               [Cli.ShowAnalyzing; Cli.SpinnerSucceed "Analysis complete!";
                Cli.ShowResponse content],
               Cli.disk st)).
Proof.
  apply (capture_then_analysis sampleManager
           (fun _ => sampleEnv 1000000 100 pngBytes) sampleDisk
           "/tmp/huely-captures/capture_1000000_k3x9qa.jpeg").
  evaluate.
Defined.

(** ** The configuration file *)

Section Config.

Import ConfigManager.
Variable parse : list byte -> option Json.
Variable stringify : Json -> list byte.

Lemma saveConfig_lookup (c : t) (now : Z) (fs fs' : Fs.t) :
  saveConfig stringify c now fs = Some fs' ->
  fs' !! configPath c = Some (Fs.File now (stringify (config c))).
Proof.
  unfold saveConfig, Fs.writeFileSync.
  destruct (fs !! configPath c) as [[|]|]; try discriminate;
    intros [= <-]; apply lookup_insert_eq.
Qed.

Lemma loadConfig_file (configPath : string) (fs : Fs.t) (data : list byte)
    (mtimeMs : Z) :
  fs !! configPath = Some (Fs.File mtimeMs data) ->
  loadConfig parse configPath fs = default (JObject ∅) (parse data).
Proof.
  intros L. unfold loadConfig, Fs.readFileSync.
  rewrite (proj2 (existsSync_true fs _)) by eauto.
  rewrite L. now destruct (parse data).
Qed.

(** A manager constructed on a disk that holds the file has loaded it. *)
Lemma construct_loads (p : Platform) (homedir : string) (now : Z) (fs : Fs.t)
    (data : list byte) (mtimeMs : Z) (c : t) (fs1 : Fs.t) :
  fs !! Fs.pathJoin p (Fs.pathJoin p homedir ".huely") "config.json"
    = Some (Fs.File mtimeMs data) ->
  construct parse p homedir now fs = Some (c, fs1) ->
  config c = default (JObject ∅) (parse data).
Proof.
  intros L. unfold construct.
  destruct (negb (Fs.existsSync fs (Fs.pathJoin p homedir ".huely"))).
  - destruct (Fs.mkdirSync p fs _ now) as [fs2|] eqn:E; [|discriminate].
    intros [= <- _]. simpl. apply (loadConfig_file _ _ _ mtimeMs).
    now rewrite (mkdirSync_lookup _ _ _ _ _ _ E), L.
  - intros [= <- _]. simpl. now apply (loadConfig_file _ _ _ mtimeMs).
Qed.

Lemma construct_returns (p : Platform) (homedir : string) (now : Z)
    (fs : Fs.t) :
  is_Some (fs !! Fs.pathJoin p homedir ".huely") ->
  is_Some (construct parse p homedir now fs).
Proof.
  intros H. unfold construct.
  rewrite (proj2 (existsSync_true fs _) H). simpl. eauto.
Qed.

End Config.

(** X22: an API key that was set is the key a manager started later in
    the same home directory reports, provided the file written parses back
    to the value it was written from; the other fields are kept, and an
    empty key reads back as no key.  The later manager is constructed
    whenever the configuration directory is still there. *)
Theorem apiKey_survives_restart
    (parse : list byte -> option ConfigManager.Json)
    (stringify : ConfigManager.Json -> list byte)
    (p : Platform) (homedir : string) (c c' : ConfigManager.t)
    (apiKey : string) (now later : Z) (fs fs' : Fs.t) :
  ConfigManager.configPath c
  = Fs.pathJoin p (Fs.pathJoin p homedir ".huely") "config.json" ->
  ConfigManager.setApiKey stringify c apiKey now fs = Some (c', fs') ->
  parse (stringify (ConfigManager.config c')) = Some (ConfigManager.config c') ->
  (forall reloaded fs'',
     ConfigManager.construct parse p homedir later fs' = Some (reloaded, fs'') ->
     (exists fields,
        ConfigManager.config c = ConfigManager.JObject fields /\
        ConfigManager.config reloaded
        = ConfigManager.JObject
            (<["openaiApiKey" := ConfigManager.JString apiKey]> fields)) /\
     ConfigManager.getApiKey reloaded
     = Some (if bool_decide (apiKey = "") then None
             else Some (ConfigManager.JString apiKey))) /\
  (is_Some (fs' !! Fs.pathJoin p homedir ".huely") ->
   is_Some (ConfigManager.construct parse p homedir later fs')).
Proof.
  intros Hpath Hset Hlaw. split; [|apply construct_returns].
  intros reloaded fs'' Hnew. unfold ConfigManager.setApiKey in Hset.
  destruct (ConfigManager.config c) as [| |fields] eqn:Hc;
    try discriminate.
  simpl in Hset.
  destruct (ConfigManager.saveConfig stringify _ now fs) as [fs1|] eqn:Hsave;
    [|discriminate].
  injection Hset as <- <-.
  apply saveConfig_lookup in Hsave. simpl in Hsave, Hlaw.
  rewrite Hpath in Hsave.
  pose proof (construct_loads parse p homedir later fs1 _ now reloaded fs''
                Hsave Hnew) as Hload.
  rewrite Hlaw in Hload. simpl in Hload. split.
  - exists fields. auto.
  - unfold ConfigManager.getApiKey. rewrite Hload, lookup_insert_eq. simpl.
    now case_bool_decide.
Qed.

Lemma apiKey_survives_restart_witness :
  exists reloaded fs'',
    ConfigManager.construct sampleParse linux "/home/pi" 2000 savedDisk
    = Some (reloaded, fs'') /\
    ConfigManager.getApiKey reloaded
    = Some (Some (ConfigManager.JString "sk-live")).
Proof.
  destruct (ConfigManager.construct sampleParse linux "/home/pi" 2000 savedDisk)
    as [[reloaded fs'']|] eqn:E.
  - exists reloaded, fs''. split; [reflexivity|].
    refine (proj2 (proj1 (apiKey_survives_restart sampleParse sampleStringify
                            linux "/home/pi" sampleConfig
                            {| ConfigManager.configPath :=
                                 "/home/pi/.huely/config.json";
                               ConfigManager.config := savedObject |}
                            "sk-live" 1000 2000 ∅ savedDisk _ _ _)
                     reloaded fs'' E)); reflexivity.
  - vm_compute in E. discriminate.
Defined.



(** ** The constructor *)

(** X24: the constructor of [WebcamManager] puts the working directory at
    [huely-captures] below the temporary directory.  It throws exactly when
    that path is free and one of its ancestors is a regular file.  When it
    returns, the path exists; every node that was on the disk is kept (a
    regular file at the path included); the nodes created are directories,
    and they are the path and its missing ancestors, all of them; and a
    manager constructed afterwards changes nothing. *)
Theorem construct_ensures_directory (p : Platform) (tmpdir : string)
    (now later : Z) (fs : Fs.t) :
  let dir := Fs.pathJoin p tmpdir "huely-captures" in
  (WebcamManager.construct p tmpdir now fs = None <->
   fs !! dir = None /\
   exists a mtimeMs bytes,
     a ∈ Fs.ancestors p dir /\ fs !! a = Some (Fs.File mtimeMs bytes)) /\
  (forall m fs',
     WebcamManager.construct p tmpdir now fs = Some (m, fs') ->
     m = {| platform := p; capturesDir := dir |} /\
     is_Some (fs' !! dir) /\
     (forall path n, fs !! path = Some n -> fs' !! path = Some n) /\
     (forall path,
        fs !! path = None ->
        fs' !! path
        = if negb (Fs.existsSync fs dir) &&
             bool_decide (path = dir \/ path ∈ Fs.ancestors p dir)
          then Some (Fs.Dir now) else None) /\
     WebcamManager.construct p tmpdir later fs' = Some (m, fs')).
Proof.
  intros dir. unfold WebcamManager.construct. fold dir.
  destruct (fs !! dir) as [n|] eqn:L.
  - rewrite (proj2 (existsSync_true fs dir)) by eauto. cbn [negb andb].
    split.
    + split; [discriminate|]. intros [? _]. discriminate.
    + intros m fs' [= <- <-]. split; [reflexivity|].
      split; [rewrite L; eauto|]. split; [auto|]. split; [auto|].
      rewrite (proj2 (existsSync_true fs dir)) by (rewrite L; eauto).
      reflexivity.
  - rewrite (proj2 (existsSync_false fs dir) L). cbn [negb andb]. split.
    + rewrite fmap_None, mkdirSync_throws. split.
      * intros (a & mt & bytes & Hin & La). split; [reflexivity|].
        apply elem_of_app in Hin as [Hin|Hin]; [eauto|].
        apply list_elem_of_singleton in Hin as ->. congruence.
      * intros (_ & a & mt & bytes & Hin & La).
        exists a, mt, bytes. split; [|exact La].
        apply elem_of_app. now left.
    + intros m fs'.
      destruct (Fs.mkdirSync p fs dir now) as [fs1|] eqn:E; [|discriminate].
      intros [= <- <-].
      pose proof (fun q => mkdirSync_lookup p fs fs1 dir now q E) as Hl.
      assert (Hdir : fs1 !! dir = Some (Fs.Dir now)).
      { rewrite Hl, L. rewrite bool_decide_eq_true_2; [reflexivity|].
        rewrite elem_of_app, list_elem_of_singleton. now right. }
      split; [reflexivity|]. split; [rewrite Hdir; eauto|].
      split; [intros path n Hn; now rewrite Hl, Hn|]. split.
      * intros path Hn. rewrite Hl, Hn.
        rewrite (bool_decide_ext (path ∈ Fs.ancestors p dir ++ [dir])
                   (path = dir \/ path ∈ Fs.ancestors p dir)); [reflexivity|].
        rewrite elem_of_app, list_elem_of_singleton. tauto.
      * rewrite (proj2 (existsSync_true fs1 dir)) by (rewrite Hdir; eauto).
        reflexivity.
Qed.

Lemma construct_ensures_directory_witness :
  WebcamManager.construct linux "/tmp" 5 fencedDisk = None /\
  exists m fs',
    WebcamManager.construct linux "/var/tmp" 5 ∅ = Some (m, fs') /\
    fs' !! "/var" = Some (Fs.Dir 5) /\
    fs' !! "/var/tmp/huely-captures" = Some (Fs.Dir 5) /\
    WebcamManager.construct linux "/var/tmp" 6 fs' = Some (m, fs').
Proof.
  split.
  - apply (proj1 (construct_ensures_directory linux "/tmp" 5 6 fencedDisk)).
    split; [evaluate|]. exists "/tmp", 0, [].
    split; [vm_compute; left | evaluate].
  - destruct (WebcamManager.construct linux "/var/tmp" 5 ∅)
      as [[m fs']|] eqn:E; [|vm_compute in E; discriminate].
    exists m, fs'. split; [reflexivity|].
    destruct (proj2 (construct_ensures_directory linux "/var/tmp" 5 6 ∅)
                m fs' E) as (_ & _ & _ & Hnew & Hagain).
    split; [|split; [|exact Hagain]].
    + rewrite (Hnew "/var") by evaluate.
      rewrite bool_decide_eq_true_2; [reflexivity|].
      right. vm_compute. left.
    + rewrite (Hnew "/var/tmp/huely-captures") by evaluate.
      rewrite bool_decide_eq_true_2; [reflexivity|]. now left.
Defined.
